(** * demos-data-science: animation helpers and MATLAB import

    A shallow embedding of [animj.py] (line and counter updates for
    matplotlib animations) and [matlabimport.py] (conversion of the records
    read from the Thiele lab MATLAB files), with the properties of the
    specification stated over it.

    Python values are modelled by inductive types, exceptions by the
    [result] monad, the objects that the code mutates in place (line and
    text artists, the output dictionary, the columns of the trial table) by
    explicit state passing. Numbers are the integers of numpy's fixed
    widths and the doubles of IEEE 754. *)

From Stdlib Require Import ZArith List Ascii String Bool Lia.
From Stdlib Require Import Floats.SpecFloat.
From stdpp Require Import base option list strings pretty gmap.

Local Open Scope Z_scope.
#[local] Set Warnings "-register-all".

(** ** Exceptions and results *)

(** The exceptions that the modelled code can raise. *)
Inductive exn : Type :=
  | ValueError
  | IndexError
  | KeyError (key : string)
  | TypeError
  | AttributeError
  | OverflowError.

(** A computation either returns a value or raises. *)
Inductive result (A : Type) : Type :=
  | Ok (a : A)
  | Raise (e : exn).
Arguments Ok {A} a.
Arguments Raise {A} e.

#[global] Instance result_ret : MRet result := fun _ a => Ok a.
#[global] Instance result_bind : MBind result := fun _ _ f m =>
  match m with
  | Ok a => f a
  | Raise e => Raise e
  end.

Definition returns {A} (r : result A) : Prop := exists a, r = Ok a.
Definition raises {A} (r : result A) : Prop := exists e, r = Raise e.

(** ** Python sequences *)

Module Py.

(** [l[i]] for an integer [i]: negative indices count from the end, an
    index outside [-len, len) raises [IndexError]. *)
Definition index {A} (l : list A) (i : Z) : result A :=
  let n := Z.of_nat (length l) in
  let j := if i <? 0 then i + n else i in
  if (0 <=? j) && (j <? n) then
    match l !! Z.to_nat j with
    | Some a => Ok a
    | None => Raise IndexError
    end
  else Raise IndexError.

(** A slice bound after Python's adjustment: negative bounds count from the
    end, and the result is clipped to [0, len]. *)
Definition clip (n : Z) (i : Z) : Z :=
  if i <? 0 then Z.max (i + n) 0 else Z.min i n.

(** [l[lo:hi]], each bound optional. *)
Definition slice {A} (lo hi : option Z) (l : list A) : list A :=
  let n := Z.of_nat (length l) in
  let lo' := from_option (clip n) 0 lo in
  let hi' := from_option (clip n) n hi in
  take (Z.to_nat (hi' - lo')) (drop (Z.to_nat lo') l).

(** [int(s)] for a text [s], in base 10: white space around the number is
    skipped, a sign may come first, and single underscores may stand
    between the digits. Characters are code points below 256; of these
    only [0] to [9] are decimal digits. Without a number in it the text
    gives [None], where Python raises [ValueError]. *)
Definition isspace (c : ascii) : bool :=
  let n := nat_of_ascii c in
  ((9 <=? n) && (n <=? 13) || (28 <=? n) && (n <=? 32)
   || (n =? 133) || (n =? 160))%nat.

Definition digit (c : ascii) : option Z :=
  let n := nat_of_ascii c in
  if ((48 <=? n) && (n <=? 57))%nat then Some (Z.of_nat n - 48) else None.

Fixpoint lstrip (l : list ascii) : list ascii :=
  match l with
  | [] => []
  | c :: l' => if isspace c then lstrip l' else l
  end.

Definition strip (l : list ascii) : list ascii :=
  rev (lstrip (rev (lstrip l))).

(** The digits after the sign: [acc] is the number read so far, and
    [after_digit] tells whether the character before was a digit, as an
    underscore needs one on either side. *)
Fixpoint digits (acc : Z) (after_digit : bool) (l : list ascii) : option Z :=
  match l with
  | [] => if after_digit then Some acc else None
  | c :: l' =>
      match digit c with
      | Some d => digits (10 * acc + d) true l'
      | None =>
          if bool_decide (c = "_"%char) && after_digit
          then digits acc false l'
          else None
      end
  end.

Definition int (s : string) : option Z :=
  match strip (list_ascii_of_string s) with
  | c :: l =>
      if bool_decide (c = "-"%char) then Z.opp <$> digits 0 false l
      else if bool_decide (c = "+"%char) then digits 0 false l
      else digits 0 false (c :: l)
  | [] => None
  end.

End Py.

(** ** animj.py *)

Module Animj.

(** *** Arrays *)

(** [plotdata]: an array of shape (numlines, numdimensions, numsamples),
    kept with its shape, since [numpy.shape(plotdata)[1]] is defined also
    for an array without lines. *)
Record ndarray3 : Type := {
  shape0 : nat;
  shape1 : nat;
  shape2 : nat;
  items : list (list (list Z))
}.

(** The entries agree with the shape. *)
Definition well_shaped (a : ndarray3) : Prop :=
  length (items a) = shape0 a /\
  Forall (fun data =>
            length data = shape1 a /\
            Forall (fun row => length row = shape2 a) data) (items a).

(** [data[:, lo:hi]] on one line's (numdimensions, numsamples) array. *)
Definition columns (lo hi : option Z) (data : list (list Z)) : list (list Z) :=
  Py.slice lo hi <$> data.

(** [data[0:2, lo:hi]] *)
Definition rows_0_2 (lo hi : option Z) (data : list (list Z)) : list (list Z) :=
  Py.slice lo hi <$> Py.slice (Some 0) (Some 2) data.

(** [data[d, lo:hi]] *)
Definition row_slice (d : Z) (lo hi : option Z) (data : list (list Z))
    : result (list Z) :=
  row ← Py.index data d; mret (Py.slice lo hi row).

(** *** Artists *)

(** The objects held in [lines]: 2-D lines, 3-D lines (which extend the 2-D
    ones with [set_3d_properties]) and text labels. *)
Inductive artist_class : Type := Line2D | Line3D | Text.

Record artist : Type := {
  cls : artist_class;
  xdata : list Z;
  ydata : list Z;
  zdata : list Z;
  marker : string;
  text : string
}.

Definition is_line (a : artist) : bool :=
  match cls a with Line2D | Line3D => true | Text => false end.

(** [line.set_data(xy)] with one argument unpacks it into x and y. *)
Definition set_data (xy : list (list Z)) (a : artist) : result artist :=
  if is_line a then
    match xy with
    | [x; y] =>
        Ok {| cls := cls a; xdata := x; ydata := y; zdata := zdata a;
              marker := marker a; text := text a |}
    | _ => Raise ValueError
    end
  else Raise AttributeError.

Definition set_3d_properties (zs : list Z) (a : artist) : artist :=
  {| cls := cls a; xdata := xdata a; ydata := ydata a; zdata := zs;
     marker := marker a; text := text a |}.

Definition set_marker (m : string) (a : artist) : result artist :=
  if is_line a then
    Ok {| cls := cls a; xdata := xdata a; ydata := ydata a; zdata := zdata a;
          marker := m; text := text a |}
  else Raise AttributeError.

Definition set_text (s : string) (a : artist) : artist :=
  {| cls := cls a; xdata := xdata a; ydata := ydata a; zdata := zdata a;
     marker := marker a; text := s |}.

(** Only 3-D lines have [set_3d_properties], only labels have [set_text]. *)
Definition has_set_3d_properties (a : artist) : bool :=
  match cls a with Line3D => true | _ => false end.
Definition has_set_text (a : artist) : bool :=
  match cls a with Text => true | _ => false end.

(** *** Statements on one artist

    A statement mutates the artist and may raise; what it did before
    raising stays done. *)
Definition stmt : Type := artist -> artist * option exn.

Definition skip : stmt := fun a => (a, None).

Definition seq_stmt (s1 s2 : stmt) : stmt := fun a =>
  match s1 a with
  | (a', None) => s2 a'
  | (a', Some e) => (a', Some e)
  end.

Definition call (m : artist -> result artist) : stmt := fun a =>
  match m a with
  | Ok a' => (a', None)
  | Raise e => (a, Some e)
  end.

(** [line.set_3d_properties(data[2, lo:hi])]: the method is looked up
    before its argument is evaluated. *)
Definition call_set_3d_properties (arg : result (list Z)) : stmt := fun a =>
  if has_set_3d_properties a then
    match arg with
    | Ok zs => (set_3d_properties zs a, None)
    | Raise e => (a, Some e)
    end
  else (a, Some AttributeError).

(** The body of the loop of [update_lines] and [update_lines_counter]. *)
Definition update_line (num : Z) (num_dims : nat) (numsamples : option Z)
    (data : list (list Z)) : stmt :=
  seq_stmt
    match numsamples with
    | None =>
        if decide (num_dims = 2%nat) then
          call (set_data (columns None (Some num) data))
        else if decide (num_dims = 3%nat) then
          seq_stmt
            (call (set_data (rows_0_2 None (Some num) data)))
            (call_set_3d_properties (row_slice 2 None (Some num) data))
        else skip
    | Some n =>
        if decide (num_dims = 2%nat) then
          call (set_data (columns (Some (num - n)) (Some num) data))
        else if decide (num_dims = 3%nat) then
          seq_stmt
            (call (set_data (rows_0_2 (Some (num - n)) (Some num) data)))
            (call_set_3d_properties (row_slice 2 (Some (num - n)) (Some num) data))
        else skip
    end
    (call (set_marker "o")).

(** [for line, data in zip(lines, plotdata): ...], on the list of artists:
    the loop stops at the shorter of the two sequences, and at the first
    statement that raises. *)
Fixpoint update_loop (num : Z) (num_dims : nat) (numsamples : option Z)
    (lines : list artist) (plotdata : list (list (list Z)))
    : list artist * option exn :=
  match lines, plotdata with
  | line :: lines', data :: plotdata' =>
      match update_line num num_dims numsamples data line with
      | (line', None) =>
          let (rest, r) := update_loop num num_dims numsamples lines' plotdata' in
          (line' :: rest, r)
      | (line', Some e) => (line' :: lines', Some e)
      end
  | _, _ => (lines, None)
  end.

(** [update_lines(num, plotdata, lines, numsamples)]. The function returns
    [lines] itself: the result is the artists after the call, and the
    exception if one was raised. *)
Definition update_lines (num : Z) (plotdata : ndarray3) (lines : list artist)
    (numsamples : option Z) : list artist * option exn :=
  let num_dims := shape1 plotdata in
  update_loop num num_dims numsamples lines (items plotdata).

(** A new 2-D line and a new 3-D line, without marker. *)
Definition plot2 (x y : list Z) : artist :=
  {| cls := Line2D; xdata := x; ydata := y; zdata := [];
     marker := ""; text := "" |}.
Definition plot3 (x y z : list Z) : artist :=
  {| cls := Line3D; xdata := x; ydata := y; zdata := z;
     marker := ""; text := "" |}.

(** The axes that [def_lines] is given: the ordinary ones, or the
    three-dimensional ones of [mplot3d]. The axes decide the class of the
    lines that [plot] makes. *)
Inductive axes : Type := Axes | Axes3D.

(** [ax.plot(x, y)[0]]: on three-dimensional axes the depth defaults to 0,
    stretched to the length of [x]. *)
Definition plot_xy (ax : axes) (x y : list Z) : artist :=
  match ax with
  | Axes => plot2 x y
  | Axes3D => plot3 x y ((fun _ => 0) <$> x)
  end.

(** [ax.plot(x, y, z)[0]]: ordinary axes take [x] and [y] as the first
    line and [z] as the values of a second one, which [[0]] drops. *)
Definition plot_xyz (ax : axes) (x y z : list Z) : artist :=
  match ax with
  | Axes => plot2 x y
  | Axes3D => plot3 x y z
  end.

(** [def_lines(ax, plotdata)]: one line per trajectory, holding its first
    sample; any number of dimensions other than 2 and 3 is refused. *)
Definition def_lines (ax : axes) (plotdata : ndarray3) : result (list artist) :=
  let num_dims := shape1 plotdata in
  if decide (num_dims = 2%nat) then
    mapM (fun dat =>
            x ← row_slice 0 (Some 0) (Some 1) dat;
            y ← row_slice 1 (Some 0) (Some 1) dat;
            mret (plot_xy ax x y)) (items plotdata)
  else if decide (num_dims = 3%nat) then
    mapM (fun dat =>
            x ← row_slice 0 (Some 0) (Some 1) dat;
            y ← row_slice 1 (Some 0) (Some 1) dat;
            z ← row_slice 2 (Some 0) (Some 1) dat;
            mret (plot_xyz ax x y z)) (items plotdata)
  else Raise ValueError.

Section Counter.

(** [text_counter % value], Python's formatting operator; it raises when
    the template does not fit the value. *)
Variable percent : string -> Z -> result string.

(** [lines[idx_text].set_text(text_counter % data_counter[num])]: the
    artist is fetched and its method looked up, then the argument is
    evaluated, then the text is set. *)
Definition set_counter (num : Z) (lines : list artist) (text_counter : string)
    (data_counter : list Z) : list artist * option exn :=
  let idx_text := Z.of_nat (length lines) - 1 in
  match Py.index lines idx_text with
  | Raise e => (lines, Some e)
  | Ok label =>
      if has_set_text label then
        match (v ← Py.index data_counter num; percent text_counter v) with
        | Raise e => (lines, Some e)
        | Ok s => (<[Z.to_nat idx_text := set_text s label]> lines, None)
        end
      else (lines, Some AttributeError)
  end.

Definition update_lines_counter (num : Z) (plotdata : ndarray3)
    (lines : list artist) (text_counter : string) (data_counter : list Z)
    (numsamples : option Z) : list artist * option exn :=
  let num_dims := shape1 plotdata in
  match update_loop num num_dims numsamples lines (items plotdata) with
  | (lines', Some e) => (lines', Some e)
  | (lines', None) => set_counter num lines' text_counter data_counter
  end.

End Counter.

End Animj.

(** ** Values read from a MATLAB file *)

(** The integer types of numpy, with their range. Arithmetic within a
    type wraps around. *)
Inductive dtype : Type :=
  | int8 | int16 | int32 | int64 | uint8 | uint16 | uint32 | uint64.

Definition dtype_bits (t : dtype) : Z :=
  match t with
  | int8 | uint8 => 8
  | int16 | uint16 => 16
  | int32 | uint32 => 32
  | int64 | uint64 => 64
  end.

Definition dtype_signed (t : dtype) : bool :=
  match t with
  | int8 | int16 | int32 | int64 => true
  | uint8 | uint16 | uint32 | uint64 => false
  end.

Definition dtype_min (t : dtype) : Z :=
  if dtype_signed t then - 2 ^ (dtype_bits t - 1) else 0.

Definition dtype_max (t : dtype) : Z :=
  if dtype_signed t then 2 ^ (dtype_bits t - 1) - 1 else 2 ^ dtype_bits t - 1.

(** The number of the type that differs from [z] by a multiple of
    [2 ^ bits]. *)
Definition wrap (t : dtype) (z : Z) : Z :=
  (z - dtype_min t) mod 2 ^ dtype_bits t + dtype_min t.

(** Doubles: [double m e] is the double nearest to [m * 2 ^ e], and the
    subtraction rounds to the nearest double. *)
Definition double (m e : Z) : spec_float := binary_normalize 53 1024 m e false.

Definition double_sub (x y : spec_float) : spec_float := SFsub 53 1024 x y.

(** The integer part of a double, towards zero; infinities and NaN have
    none. *)
Definition truncate (f : spec_float) : option Z :=
  match f with
  | S754_zero _ => Some 0
  | S754_finite s m e =>
      let a := if 0 <=? e then Z.pos m * 2 ^ e else Z.pos m / 2 ^ (- e) in
      Some (if s then - a else a)
  | S754_infinity _ | S754_nan => None
  end.

(** What [scipy.io.loadmat] returns for a variable, and what the converted
    dictionaries hold: numbers (an integer of one of numpy's types, or a
    double), text, arrays (one nesting level per axis), MATLAB structs
    (records with named fields, which numpy also indexes by position) and
    Python dictionaries. *)
Inductive value : Type :=
  | Num (t : dtype) (z : Z)
  | Float (f : spec_float)
  | Str (s : string)
  | Array (elems : list value)
  | Struct (fields : list (string * value))
  | Dict (entries : list (string * value)).

(** A 64-bit integer, the type of [numpy.zeros(n, dtype=int)]. *)
Abbreviation Int := (Num int64).

Module Value.

(** First entry of an association list under a name. *)
Fixpoint assoc (k : string) (l : list (string * value)) : option value :=
  match l with
  | [] => None
  | (k', v) :: l' => if decide (k' = k) then Some v else assoc k l'
  end.

(** [v[i]] for an integer [i]. A record gives its field at that position, a
    text its character, a number cannot be indexed, a dictionary has no
    such key. *)
Definition item (v : value) (i : Z) : result value :=
  match v with
  | Array elems => Py.index elems i
  | Struct fields => Py.index (snd <$> fields) i
  | Str s => c ← Py.index (list_ascii_of_string s) i; mret (Str (String c EmptyString))
  | Num _ _ | Float _ => Raise IndexError
  | Dict _ => Raise (KeyError (pretty i))
  end.

(** [v[i, j]] on an array of at least two axes. *)
Definition item2 (v : value) (i j : Z) : result value :=
  match v with
  | Array elems =>
      row ← Py.index elems i;
      match row with
      | Array cells => Py.index cells j
      | _ => Raise IndexError
      end
  | Struct _ | Num _ _ | Float _ => Raise IndexError
  | Str _ => Raise TypeError
  | Dict _ => Raise (KeyError ("(" +:+ pretty i +:+ ", " +:+ pretty j +:+ ")"))
  end.

(** [v[name]] for a field name. *)
Definition field (v : value) (name : string) : result value :=
  match v with
  | Struct fields =>
      match assoc name fields with
      | Some x => Ok x
      | None => Raise ValueError
      end
  | Dict entries =>
      match assoc name entries with
      | Some x => Ok x
      | None => Raise (KeyError name)
      end
  | Array _ | Num _ _ | Float _ => Raise IndexError
  | Str _ => Raise TypeError
  end.

(** [len(v)] *)
Definition len (v : value) : result nat :=
  match v with
  | Array elems => Ok (length elems)
  | Struct fields => Ok (length fields)
  | Dict entries => Ok (length entries)
  | Str s => Ok (String.length s)
  | Num _ _ | Float _ => Raise TypeError
  end.

(** A function that may raise, applied along a list, up to the first
    exception. *)
Definition traverse {A B} (f : A -> result B) : list A -> result (list B) :=
  fix go (l : list A) : result (list B) :=
    match l with
    | [] => Ok []
    | x :: l' =>
        match f x with
        | Ok y =>
            match go l' with
            | Ok ys => Ok (y :: ys)
            | Raise e => Raise e
            end
        | Raise e => Raise e
        end
    end.

(** [v - 1]: elementwise on arrays, in the arithmetic of the type of each
    number (an integer wraps around at the lower end of its type, a double
    is rounded); undefined on text and records. *)
Fixpoint minus_one (v : value) : result value :=
  match v with
  | Num t z => Ok (Num t (wrap t (z - 1)))
  | Float f => Ok (Float (double_sub f (double 1 0)))
  | Array elems =>
      match traverse minus_one elems with
      | Ok elems' => Ok (Array elems')
      | Raise e => Raise e
      end
  | Str _ | Struct _ | Dict _ => Raise TypeError
  end.

End Value.

(** ** os.path (POSIX) *)

Module OsPath.

Definition sep : ascii := "/"%char.
Definition extsep : ascii := "."%char.

(** [p.rfind(c)]: the highest index of [c] in [p], or -1. *)
Fixpoint rfind (c : ascii) (p : list ascii) : Z :=
  match p with
  | [] => -1
  | a :: p' =>
      let r := rfind c p' in
      if 0 <=? r then r + 1 else if decide (a = c) then 0 else -1
  end.

(** [head.rstrip(sep)] *)
Fixpoint rstrip (c : ascii) (p : list ascii) : list ascii :=
  match p with
  | [] => []
  | a :: p' =>
      match rstrip c p' with
      | [] => if decide (a = c) then [] else [a]
      | r => a :: r
      end
  end.

(** [os.path.split(p)]: everything after the final slash is the tail. *)
Definition split (p : string) : string * string :=
  let l := list_ascii_of_string p in
  let i := rfind sep l + 1 in
  let head := Py.slice None (Some i) l in
  let tail := Py.slice (Some i) None l in
  let head' :=
    if bool_decide (head <> []) && negb (forallb (fun a => bool_decide (a = sep)) head)
    then rstrip sep head else head in
  (string_of_list_ascii head', string_of_list_ascii tail).

(** The loop of [genericpath._splitext] that skips the leading dots of the
    file name: it runs [count] times from [filenameIndex] and tells whether
    it met a character other than a dot. *)
Fixpoint non_dot_before (p : list ascii) (filenameIndex : nat) (count : nat) : bool :=
  match count with
  | O => false
  | S count' =>
      if bool_decide (Py.slice (Some (Z.of_nat filenameIndex))
                               (Some (Z.of_nat filenameIndex + 1)) p <> [extsep])
      then true
      else non_dot_before p (S filenameIndex) count'
  end.

(** [os.path.splitext(p)]: the extension starts at the last dot of the last
    component, leading dots of the component apart. *)
Definition splitext (p : string) : string * string :=
  let l := list_ascii_of_string p in
  let sepIndex := rfind sep l in
  let dotIndex := rfind extsep l in
  if (sepIndex <? dotIndex)
     && non_dot_before l (Z.to_nat (sepIndex + 1))
                       (Z.to_nat (dotIndex - (sepIndex + 1)))
  then (string_of_list_ascii (Py.slice None (Some dotIndex) l),
        string_of_list_ascii (Py.slice (Some dotIndex) None l))
  else (p, "").

End OsPath.

(** ** matlabimport.py *)

Module Matlabimport.

(** [key in haystack] for text. *)
Fixpoint contains (needle hay : string) : bool :=
  String.prefix needle hay ||
  match hay with
  | EmptyString => false
  | String _ hay' => contains needle hay'
  end.

(** Whether a file type holds analog data. *)
Definition is_analog_file : gmap string bool :=
  <["LFP" := true]> (<["LFPb" := true]> (<["MUAe" := true]> (<["NCS" := true]>
  (<["CSC" := true]> (<["hash" := false]> (<["unit" := false]>
  (<["microsaccades" := false]> ∅))))))).

(** [d[key]] on a dictionary given by its items. *)
Definition subscript (d : list (string * value)) (key : string) : result value :=
  match Value.assoc key d with
  | Some v => Ok v
  | None => Raise (KeyError key)
  end.

Section LoadData.

(** The exception, if any, that the guarded [pydata.update] of the last
    branch raises for a key; the bare [except] catches whatever it is. *)
Variable guarded_update_raises : string -> option exn.

(** The body of the loop over the keys: the new [pydata] and the lines
    printed. [matdata] is the dictionary that [import_data] returned. *)
Definition convert_key (filetype : string) (matdata : list (string * value))
    (key : string) (pydata : gmap string value)
    : result (gmap string value * list string) :=
  if contains "Align" key then
    analog ← match is_analog_file !! filetype with
             | Some b => Ok b
             | None => Raise (KeyError filetype)
             end;
    if analog : bool then
      m ← subscript matdata key;
      ts ← Value.field m "TimeStamps";
      t ← Value.item2 ts 0 0;
      m' ← subscript matdata key;
      ss ← Value.field m' "Samples";
      s ← Value.item2 ss 0 0;
      mret (<[key := Dict [("TimeStamps", t); ("Samples", s)]]> pydata, [])
    else
      v ← subscript matdata key;
      mret (<[key := v]> pydata, [])
  else if decide (key = "area") then
    v ← subscript matdata key;
    mret (<[key := v]> pydata, [])
  else if decide (key = "unitList") then
    v ← subscript matdata key;
    w ← Value.minus_one v;
    mret (<[key := w]> pydata, [])
  else
    match
      match guarded_update_raises key with
      | Some e => Raise e
      | None => subscript matdata key
      end
    with
    | Ok v => Ok (<[key := v]> pydata, [])
    | Raise _ => Ok (pydata, ["Cannot process " +:+ key])
    end.

(** [for key in matdata: ...]: what was printed, and the dictionary or the
    exception that ended the loop. *)
Fixpoint convert_keys (filetype : string) (matdata : list (string * value))
    (keys : list string) (pydata : gmap string value) (stdout : list string)
    : list string * result (gmap string value) :=
  match keys with
  | [] => (stdout, Ok pydata)
  | key :: keys' =>
      match convert_key filetype matdata key pydata with
      | Ok (pydata', printed) =>
          convert_keys filetype matdata keys' pydata' (stdout ++ printed)
      | Raise e => (stdout, Raise e)
      end
  end.

(** [load_data(loadfilename, *variables2load)], after [import_data] has
    read the file into [matdata]. *)
Definition load_data (loadfilename : string) (matdata : list (string * value))
    : list string * result (gmap string value) :=
  let '(path, filename) := OsPath.split loadfilename in
  let '(filetype, ext) := OsPath.splitext filename in
  convert_keys filetype matdata (fst <$> matdata) ∅ [].

End LoadData.

(** *** The trial table *)

(** [numpy.zeros(n, dtype=int)] and the stores into it. The elements are
    64-bit integers. *)
Definition zeros (n : nat) : list Z := replicate n 0.

Definition int_min : Z := - 2 ^ 63.
Definition int_max : Z := 2 ^ 63 - 1.

Definition in_int64 (z : Z) : bool := (int_min <=? z) && (z <=? int_max).

Section TrialTable.

(** What [column[i] = v] does with a number that no 64-bit integer holds:
    an unsigned integer from [2 ^ 63] on, a double whose integer part is
    beyond the range, an infinity or NaN, a text with such a number. The
    version of numpy and the processor decide between an exception and
    some integer. *)
Variable out_of_range : value -> result Z.

(** The conversion that [column[i] = v] makes: an integer is stored as it
    is, a double loses its fraction, a text is read as by [int]; an array
    of one element gives that element, any other array is refused, as are
    records. *)
Fixpoint to_int (v : value) : result Z :=
  match v with
  | Num _ z => if in_int64 z then Ok z else out_of_range v
  | Float f =>
      match truncate f with
      | Some z => if in_int64 z then Ok z else out_of_range v
      | None => out_of_range v
      end
  | Str s =>
      match Py.int s with
      | Some z => if in_int64 z then Ok z else out_of_range v
      | None => Raise ValueError
      end
  | Array [x] => to_int x
  | Array _ => Raise ValueError
  | Struct _ | Dict _ => Raise TypeError
  end.

(** [matdata[itrial][k]] and [matdata[itrial][k][0][0]] *)
Definition trial_field (matdata : value) (itrial : nat) (k : Z) : result value :=
  trial ← Value.item matdata (Z.of_nat itrial);
  Value.item trial k.

Definition trial_scalar (matdata : value) (itrial : nat) (k : Z) : result value :=
  f ← trial_field matdata itrial k;
  f0 ← Value.item f 0;
  Value.item f0 0.

(** The lists and arrays that the loop over the trials fills. *)
Record locals : Type := {
  CTX_events : list value;
  NLX_events : list value;
  cond : list Z;
  trial_ID : list Z;
  RT_evnt : list Z;
  RT_EPP : list Z;
  target_dim : list Z;
  rf_dim : list Z;
  position_RF : list Z;
  position_out1 : list Z;
  position_out2 : list Z;
  fixbreak : list Z
}.

Definition init_locals (num_trial : nat) : locals := {|
  CTX_events := replicate num_trial (Array []);
  NLX_events := replicate num_trial (Array []);
  cond := zeros num_trial;
  trial_ID := zeros num_trial;
  RT_evnt := zeros num_trial;
  RT_EPP := zeros num_trial;
  target_dim := zeros num_trial;
  rf_dim := zeros num_trial;
  position_RF := zeros num_trial;
  position_out1 := zeros num_trial;
  position_out2 := zeros num_trial;
  fixbreak := zeros num_trial
|}.

(** The body of the loop over the trials: the right-hand sides are
    evaluated and converted in the order of the source, each value goes to
    position [itrial] of its list. *)
Definition read_trial (matdata : value) (st : locals) (itrial : nat) : result locals :=
  ctx ← trial_field matdata itrial 0;
  nlx ← trial_field matdata itrial 1;
  v2 ← trial_scalar matdata itrial 2 ≫= to_int;
  v3 ← trial_scalar matdata itrial 3 ≫= to_int;
  v4 ← trial_scalar matdata itrial 4 ≫= to_int;
  v5 ← trial_scalar matdata itrial 5 ≫= to_int;
  v6 ← trial_scalar matdata itrial 6 ≫= to_int;
  v7 ← trial_scalar matdata itrial 7 ≫= to_int;
  v8 ← trial_scalar matdata itrial 8 ≫= to_int;
  v9 ← trial_scalar matdata itrial 9 ≫= to_int;
  v10 ← trial_scalar matdata itrial 10 ≫= to_int;
  v11 ← trial_scalar matdata itrial 11 ≫= to_int;
  mret {|
    CTX_events := <[itrial := ctx]> (CTX_events st);
    NLX_events := <[itrial := nlx]> (NLX_events st);
    trial_ID := <[itrial := v2]> (trial_ID st);
    cond := <[itrial := v3]> (cond st);
    RT_evnt := <[itrial := v4]> (RT_evnt st);
    RT_EPP := <[itrial := v5]> (RT_EPP st);
    target_dim := <[itrial := v6]> (target_dim st);
    rf_dim := <[itrial := v7]> (rf_dim st);
    position_RF := <[itrial := v8]> (position_RF st);
    position_out1 := <[itrial := v9]> (position_out1 st);
    position_out2 := <[itrial := v10]> (position_out2 st);
    fixbreak := <[itrial := v11]> (fixbreak st)
  |}.

(** [for itrial in range(num_trial): ...] *)
Fixpoint read_trials (matdata : value) (st : locals) (range : list nat) : result locals :=
  match range with
  | [] => Ok st
  | itrial :: range' =>
      st' ← read_trial matdata st itrial;
      read_trials matdata st' range'
  end.

(** [cond == k], [numpy.logical_or(a, b)] and [arr[mask] = v]; a mask of
    another length than the array is refused. *)
Definition equals (arr : list Z) (k : Z) : list bool :=
  (fun c => bool_decide (c = k)) <$> arr.

Definition logical_or (a b : list bool) : result (list bool) :=
  if decide (length a = length b) then Ok (zip_with orb a b) else Raise ValueError.

Definition assign_mask (arr : list Z) (mask : list bool) (v : Z) : result (list Z) :=
  if decide (length mask = length arr)
  then Ok (zip_with (fun x (m : bool) => if m then v else x) arr mask)
  else Raise IndexError.

(** The attention conditions, from the condition numbers. *)
Definition define_attend (num_trial : nat) (cond : list Z) : result (list Z) :=
  let attend := zeros num_trial in
  m1 ← logical_or (equals cond 1) (equals cond 4);
  attend ← assign_mask attend m1 1;
  m2 ← logical_or (equals cond 2) (equals cond 5);
  attend ← assign_mask attend m2 2;
  m3 ← logical_or (equals cond 3) (equals cond 6);
  assign_mask attend m3 3.

(** A column of a data frame, and [pandas.DataFrame(dict)]: the columns
    must all have one length, which is the number of rows. *)
Inductive column : Type :=
  | IntColumn (l : list Z)
  | ObjColumn (l : list value).

Definition column_length (c : column) : nat :=
  match c with
  | IntColumn l => length l
  | ObjColumn l => length l
  end.

Record frame : Type := {
  nrows : nat;
  columns : list (string * column)
}.

Definition DataFrame (data : list (string * column)) : result frame :=
  match data with
  | [] => Ok {| nrows := 0; columns := [] |}
  | (_, c) :: _ =>
      let n := column_length c in
      if forallb (fun kc => bool_decide (column_length kc.2 = n)) data
      then Ok {| nrows := n; columns := data |}
      else Raise ValueError
  end.

(** [frame[name]] *)
Fixpoint get_column (name : string) (cols : list (string * column)) : option column :=
  match cols with
  | [] => None
  | (k, c) :: cols' => if decide (k = name) then Some c else get_column name cols'
  end.

(** [load_trialdata(loadfilename)], after [import_data] has read the file
    into [matdata]. *)
Definition load_trialdata (matdata : list (string * value)) : result frame :=
  trialdata ← subscript matdata "trialdata";
  matdata ← Value.item trialdata 0;
  num_trial ← Value.len matdata;
  st ← read_trials matdata (init_locals num_trial) (seq 0 num_trial);
  attend ← define_attend num_trial (cond st);
  DataFrame [
    ("trial_ID", IntColumn (trial_ID st));
    ("attend", IntColumn attend);
    ("cond", IntColumn (cond st));
    ("RT_evnt", IntColumn (RT_evnt st));
    ("RT_EPP", IntColumn (RT_EPP st));
    ("target_dim", IntColumn (target_dim st));
    ("rf_dim", IntColumn (rf_dim st));
    ("position_RF", IntColumn (position_RF st));
    ("position_out1", IntColumn (position_out1 st));
    ("position_out2", IntColumn (position_out2 st));
    ("fixbreak", IntColumn (fixbreak st));
    ("CTX_events", ObjColumn (CTX_events st));
    ("NLX_events", ObjColumn (NLX_events st))
  ].

End TrialTable.

End Matlabimport.


(** ** matlabimport.py: the files and the network *)

Module Files.

Import Matlabimport.

(** What ends a call beside the exceptions of the conversion: a failed
    [assert], the connection error of [requests], the exit of [sys.exit],
    and the exceptions that [requests] and [scipy] raise on their own. *)
Inductive error : Type :=
  | AssertionError (msg : string)
  | ConnectionError
  | SystemExit (msg : string)
  | Raised (e : exn)
  | Foreign (name : string).

Inductive outcome (A : Type) : Type :=
  | Done (a : A)
  | Failed (e : error).
Arguments Done {A} a.
Arguments Failed {A} e.

(** The response to a request. *)
Record response : Type := {
  status_code : Z;
  content : string
}.

(** What the functions find outside: which texts [validators.url] accepts,
    which paths exist, what the n-th request (counted from 0) to a URL
    gives, and what [scipy.io.loadmat] reads from a file for the variable
    names asked for. *)
Record world : Type := {
  url : string -> bool;
  path_exists : string -> bool;
  get : nat -> string -> outcome response;
  loadmat : string -> option (list string) -> outcome (list (string * value))
}.

(** What a call does outside, in order. *)
Inductive event : Type :=
  | Checked (path : string)
  | Requested (address : string)
  | Read (path : string) (variable_names : option (list string))
  | Printed (line : string).

Record state : Type := {
  requests : nat;
  trace : list event
}.

(** A call: from the state before to the state after and the outcome. *)
Definition io (A : Type) : Type := state -> state * outcome A.

#[global] Instance io_ret : MRet io := fun _ a s => (s, Done a).
#[global] Instance io_bind : MBind io := fun _ _ f m s =>
  match m s with
  | (s', Done a) => f a s'
  | (s', Failed e) => (s', Failed e)
  end.

Definition raise {A} (e : error) : io A := fun s => (s, Failed e).

Definition emit (ev : event) : io unit := fun s =>
  ({| requests := requests s; trace := trace s ++ [ev] |}, Done tt).

Definition lift {A} (r : result A) : io A :=
  match r with
  | Ok a => mret a
  | Raise e => raise (Raised e)
  end.

(** [os.path.exists(path)] *)
Definition os_path_exists (w : world) (path : string) : io bool :=
  _ ← emit (Checked path); mret (path_exists w path).

(** [requests.get(address)] *)
Definition requests_get (w : world) (address : string) : io response := fun s =>
  ({| requests := S (requests s); trace := trace s ++ [Requested address] |},
   get w (requests s) address).

(** [scipy.io.loadmat(path, variable_names=variable_names)] *)
Definition scipy_io_loadmat (w : world) (path : string)
    (variable_names : option (list string)) : io (list (string * value)) :=
  fun s =>
    ({| requests := requests s; trace := trace s ++ [Read path variable_names] |},
     loadmat w path variable_names).

(** [print(line)] *)
Definition print (line : string) : io unit := emit (Printed line).

(** [check_filename(test_string)]: a URL is not looked for on the disk;
    anything else must exist. *)
Definition check_filename (w : world) (test_string : string) : io bool :=
  let valid_URL := url w test_string in
  if negb valid_URL then
    found ← os_path_exists w test_string;
    if found : bool then mret valid_URL
    else raise (AssertionError ("File does not exist: " +:+ test_string))
  else mret valid_URL.

(** What [import_data] returns: the dictionary of a file, or the response
    to a request. *)
Inductive loaded : Type :=
  | Mat (matdata : list (string * value))
  | Response (r : response).

(** The [try] of [import_data]: a second request; its [except] catches the
    connection error only and prints, after which [matdata] is returned;
    its [else] exits (the statements after [sys.exit] never run). *)
Definition try_download (w : world) (loadfilename : string)
    (matdata : response) : io loaded := fun s =>
  match requests_get w loadfilename s with
  | (s', Failed ConnectionError) =>
      (_ ← print "!!! Failed to download data !!!";
       mret (Response matdata)) s'
  | (s', Failed e) => (s', Failed e)
  | (s', Done r) =>
      raise (SystemExit "Loading file from URL not yet implemented!") s'
  end.

(** [import_data(loadfilename, variable_names)]. For a URL, a first request
    is made outside the [try], whose response is [matdata]. *)
Definition import_data (w : world) (loadfilename : string)
    (variable_names : option (list string)) : io loaded :=
  filename_is_url ← check_filename w loadfilename;
  if filename_is_url : bool then
    matdata ← requests_get w loadfilename;
    try_download w loadfilename matdata
  else
    matdata ← scipy_io_loadmat w loadfilename variable_names;
    mret (Mat matdata).

(** [print] for each line that the conversion printed. *)
Fixpoint print_all (lines : list string) : io unit :=
  match lines with
  | [] => mret tt
  | line :: lines' => _ ← print line; print_all lines'
  end.

(** [load_data(loadfilename, *variables2load)] with its reading of the
    file. Iterating over a response gives the pieces of its content, as
    bytes, and the test ['Align' in key] on bytes is a type error; a
    response without content is converted to the empty dictionary. *)
Definition load_data (w : world) (guarded_update_raises : string -> option exn)
    (loadfilename : string) (variables2load : list string)
    : io (gmap string value) :=
  let variable_names :=
    match variables2load with
    | [] => None
    | _ => Some variables2load
    end in
  matdata ← import_data w loadfilename variable_names;
  match matdata with
  | Mat matdata =>
      let '(printed, r) :=
        Matlabimport.load_data guarded_update_raises loadfilename matdata in
      _ ← print_all printed; lift r
  | Response r =>
      if decide (content r = "") then mret ∅ else raise (Raised TypeError)
  end.

(** [load_trialdata(loadfilename)] with its reading of the file: the file
    must exist before anything else is done; a response cannot be
    subscripted. *)
Definition load_trialdata (w : world) (out_of_range : value -> result Z)
    (loadfilename : string) : io frame :=
  found ← os_path_exists w loadfilename;
  if found : bool then
    matdata ← import_data w loadfilename None;
    match matdata with
    | Mat matdata => lift (Matlabimport.load_trialdata out_of_range matdata)
    | Response _ => raise (Raised TypeError)
    end
  else raise (AssertionError ("File does not exist: " +:+ loadfilename)).

End Files.
(** * Properties *)

Import Animj Matlabimport.

(** ** Vocabulary of the statements *)

(** Samples [lo, hi) of a row, position by position. *)
Definition samples (lo hi : Z) (row : list Z) : list Z :=
  (fun j => nth j row 0) <$> seq (Z.to_nat lo) (Z.to_nat (hi - lo)).

(** The first sample of the window that ends at frame [f]. *)
Definition window_start (f : Z) (numsamples : option Z) : Z :=
  match numsamples with
  | None => 0
  | Some w => f - w
  end.

(** A handle that takes the updates made for [num_dims] dimensions: a
    line, and a 3-D line when the depth is set too. *)
Definition line_for (num_dims : nat) (a : artist) : bool :=
  is_line a && (if decide (num_dims = 3%nat) then has_set_3d_properties a else true).

(** The first sample that a line shows at frame [f >= 0] of a row of [T]
    samples: a window longer than the frame index starts from the end of
    the row. *)
Definition shown_start (f : Z) (numsamples : option Z) (T : Z) : Z :=
  match numsamples with
  | None => 0
  | Some w => if decide (w <= f) then f - w else Z.max 0 (T + f - w)
  end.

(** The lower bound of the slices of [update_line]. *)
Definition slice_from (num : Z) (numsamples : option Z) : option Z :=
  match numsamples with
  | None => None
  | Some n => Some (num - n)
  end.

(** A line after the statements of [update_line] have all run. *)
Definition after_update (num : Z) (num_dims : nat) (numsamples : option Z)
    (data : list (list Z)) (a : artist) : artist :=
  let cut d := Py.slice (slice_from num numsamples) (Some num) (nth d data []) in
  {| cls := cls a;
     xdata := if decide (num_dims = 2%nat \/ num_dims = 3%nat) then cut 0%nat else xdata a;
     ydata := if decide (num_dims = 2%nat \/ num_dims = 3%nat) then cut 1%nat else ydata a;
     zdata := if decide (num_dims = 3%nat) then cut 2%nat else zdata a;
     marker := "o";
     text := text a |}.

(** One line's array of the bundle: [D] rows of [T] samples. *)
Definition line_shape (D T : nat) (data : list (list Z)) : Prop :=
  length data = D /\ Forall (fun row => length row = T) data.

(** The lines after a loop that ran to its end: the paired ones updated,
    the others as they were. *)
Definition after_loop (num : Z) (num_dims : nat) (numsamples : option Z)
    (lines : list artist) (plotdata : list (list (list Z))) : list artist :=
  zip_with (fun line data => after_update num num_dims numsamples data line)
    lines plotdata
  ++ drop (length plotdata) lines.


(** Python's formatting operator on the template [%d], for the examples:
    the value in decimal. Other templates are left out. *)
Definition percent_d (template : string) (v : Z) : result string :=
  if decide (template = "%d") then Ok (pretty v) else Raise ValueError.

(** A bundle of one trajectory in two dimensions over three samples, and
    a text label, for the examples. *)
Definition example_bundle : ndarray3 :=
  {| shape0 := 1; shape1 := 2; shape2 := 3;
     items := [[[1; 2; 3]; [4; 5; 6]]] |}.

Definition example_label : artist :=
  {| cls := Text; xdata := []; ydata := []; zdata := [];
     marker := ""; text := "" |}.

(** What the body of the loop of [load_data] stores under its key: a
    value, nothing (the guarded update raised), or the exception that ends
    the loop. *)
Definition entry_of (g : string -> option exn) (filetype : string)
    (matdata : list (string * value)) (key : string) : result (option value) :=
  match convert_key g filetype matdata key ∅ with
  | Ok (pydata, _) => Ok (pydata !! key)
  | Raise e => Raise e
  end.

(** The file type that [load_data] reads off the file name. *)
Definition filetype_of (loadfilename : string) : string :=
  (OsPath.splitext (OsPath.split loadfilename).2).1.

(** The characters before the first [c]. *)
Fixpoint before_first (c : ascii) (l : list ascii) : list ascii :=
  match l with
  | [] => []
  | a :: l' => if decide (a = c) then [] else a :: before_first c l'
  end.

(** The file-type category as the specification words it: the part of the
    file name before its first extension separator. *)
Definition spec_category (loadfilename : string) : string :=
  string_of_list_ascii
    (before_first OsPath.extsep
       (list_ascii_of_string (OsPath.split loadfilename).2)).

(** The attention condition of a condition number, as the specification
    gives it: 1 and 4 attend the receptive field, 2 and 5 attend away (1),
    3 and 6 attend away (2), any other number is unset. *)
Definition attend_of_cond (c : Z) : Z :=
  if decide (c = 1 \/ c = 4) then 1
  else if decide (c = 2 \/ c = 5) then 2
  else if decide (c = 3 \/ c = 6) then 3
  else 0.

(** The data frame built from the lists of the loop. *)
Definition trial_frame (num_trial : nat) (st : locals) : frame :=
  {| nrows := num_trial;
     columns := [
       ("trial_ID", IntColumn (trial_ID st));
       ("attend", IntColumn (attend_of_cond <$> cond st));
       ("cond", IntColumn (cond st));
       ("RT_evnt", IntColumn (RT_evnt st));
       ("RT_EPP", IntColumn (RT_EPP st));
       ("target_dim", IntColumn (target_dim st));
       ("rf_dim", IntColumn (rf_dim st));
       ("position_RF", IntColumn (position_RF st));
       ("position_out1", IntColumn (position_out1 st));
       ("position_out2", IntColumn (position_out2 st));
       ("fixbreak", IntColumn (fixbreak st));
       ("CTX_events", ObjColumn (CTX_events st));
       ("NLX_events", ObjColumn (NLX_events st))
     ] |}.

(** The lists of the loop all have [n] entries. *)
Definition locals_length (n : nat) (st : locals) : Prop :=
  length (CTX_events st) = n /\ length (NLX_events st) = n /\
  length (cond st) = n /\ length (trial_ID st) = n /\
  length (RT_evnt st) = n /\ length (RT_EPP st) = n /\
  length (target_dim st) = n /\ length (rf_dim st) = n /\
  length (position_RF st) = n /\ length (position_out1 st) = n /\
  length (position_out2 st) = n /\ length (fixbreak st) = n.

(** The fields of a trial record by position; a text has its characters
    there. *)
Definition positional_fields (trial : value) : option (list value) :=
  match trial with
  | Struct fields => Some (snd <$> fields)
  | Array elems => Some elems
  | Str s => Some ((fun c => Str (String c EmptyString)) <$> list_ascii_of_string s)
  | _ => None
  end.

(** A field of a trial record whose number the loop can store: it has a
    value at [0][0], and the column takes that value. *)
Definition field_stored (out_of_range : value -> result Z) (f : value) : Prop :=
  exists v,
    (f0 ← Value.item f 0; Value.item f0 0) = Ok v /\
    returns (to_int out_of_range v).

(** A trial record that the loop can read: twelve fields or more, and the
    fields 2 to 11 are stored. *)
Definition trial_ok (out_of_range : value -> result Z) (trial : value) : Prop :=
  exists fs,
    positional_fields trial = Some fs /\
    (12 <= length fs)%nat /\
    forall k : nat, (2 <= k < 12)%nat ->
      exists f, fs !! k = Some f /\ field_stored out_of_range f.

(** A trial record with fewer than twelve fields. *)
Definition trial_short (trial : value) : Prop :=
  exists fs, positional_fields trial = Some fs /\ (length fs < 12)%nat.

(** A trial record, of any number of fields, in which those of the fields
    2 to 11 that are there are stored. *)
Definition trial_readable (out_of_range : value -> result Z) (trial : value)
    : Prop :=
  exists fs,
    positional_fields trial = Some fs /\
    forall (k : nat) f, (2 <= k < 12)%nat -> fs !! k = Some f ->
      field_stored out_of_range f.

(** A store that refuses the numbers beyond the 64-bit integers with an
    overflow error, for the examples. *)
Definition overflow (v : value) : result Z := Raise OverflowError.

(** A trial record whose condition code is the value [code], for the
    examples; its reaction time is the double 350.75 and its target
    dimension the double -1.75. *)
Definition trial_with_code (code : value) : value :=
  Struct [("CTX_events", Array [Array [Int 10; Int 20]]);
          ("NLX_events", Array [Array [Int 11; Int 21]]);
          ("trialID", Array [Array [Int 100]]);
          ("cond_num", Array [Array [code]]);
          ("RT_evnt", Array [Array [Float (double 1403 (-2))]]);
          ("RT_EPP", Array [Array [Int 352]]);
          ("target_dim", Array [Array [Float (double (-7) (-2))]]);
          ("rf_dim", Array [Array [Int 2]]);
          ("position_RF", Array [Array [Int 1]]);
          ("position_out1", Array [Array [Int 2]]);
          ("position_out2", Array [Array [Int 3]]);
          ("fixbreak", Array [Array [Int 0]])].

(** A trial record with condition number [c], and a file of seven trials
    with the condition numbers 1 to 7, for the examples. *)
Definition example_trial (c : Z) : value :=
  Struct [("CTX_events", Array [Array [Int 10; Int 20]]);
          ("NLX_events", Array [Array [Int 11; Int 21]]);
          ("trialID", Array [Array [Int (100 + c)]]);
          ("cond_num", Array [Array [Int c]]);
          ("RT_evnt", Array [Array [Int 350]]);
          ("RT_EPP", Array [Array [Int 352]]);
          ("target_dim", Array [Array [Int 1]]);
          ("rf_dim", Array [Array [Int 2]]);
          ("position_RF", Array [Array [Int 1]]);
          ("position_out1", Array [Array [Int 2]]);
          ("position_out2", Array [Array [Int 3]]);
          ("fixbreak", Array [Array [Int 0]])].

Definition example_trialdata : list (string * value) :=
  [("trialdata", Array [Array (example_trial <$> [1; 2; 3; 4; 5; 6; 7])])].

(** A value with every number in it lowered by one, at any depth of
    arrays, each in its type: an integer above the least of its type by
    one exactly, the least of its type becomes the greatest, a double
    becomes the double nearest to the difference. *)
Fixpoint decrement (v : value) : value :=
  match v with
  | Num t z => Num t (if decide (z = dtype_min t) then dtype_max t else z - 1)
  | Float f => Float (double_sub f (double 1 0))
  | Array elems => Array (decrement <$> elems)
  | Str _ | Struct _ | Dict _ => v
  end.

(** Every integer in the value is one of its type. *)
Fixpoint in_range (v : value) : bool :=
  match v with
  | Num t z => (dtype_min t <=? z) && (z <=? dtype_max t)
  | Array elems => forallb in_range elems
  | Float _ | Str _ | Struct _ | Dict _ => true
  end.

(** ** Vocabulary of the further properties *)

(** The data of a line are the rows of its trajectory, each cut by [cut]:
    x and y always, z for three dimensions; for two dimensions the depth
    is the one the line had. *)
Definition holds_rows (cut : list Z -> list Z) (num_dims : nat)
    (data : list (list Z)) (before after : artist) : Prop :=
  Some (xdata after) = cut <$> data !! 0%nat /\
  Some (ydata after) = cut <$> data !! 1%nat /\
  (num_dims = 3%nat -> Some (zdata after) = cut <$> data !! 2%nat) /\
  (num_dims = 2%nat -> zdata after = zdata before).

(** The class of the lines that the axes make. *)
Definition line_class (ax : axes) : artist_class :=
  match ax with
  | Axes => Line2D
  | Axes3D => Line3D
  end.

(** A line with its marker set, and nothing else changed. *)
Definition with_marker (m : string) (a : artist) : artist :=
  {| cls := cls a; xdata := xdata a; ydata := ydata a; zdata := zdata a;
     marker := m; text := text a |}.

(** A key of the last branch of the loop of [load_data]: neither an
    "Align" key, nor [area], nor [unitList]. *)
Definition plain_key (key : string) : bool :=
  negb (contains "Align" key) && bool_decide (key <> "area")
  && bool_decide (key <> "unitList").

(** A key whose guarded update raises, and the warning printed for it. *)
Definition update_fails (g : string -> option exn) (key : string) : bool :=
  plain_key key && bool_decide (is_Some (g key)).

Definition warning (key : string) : string := "Cannot process " +:+ key.

(** A value made of numbers and arrays only, on which [v - 1] is defined. *)
Fixpoint numeric (v : value) : bool :=
  match v with
  | Num _ _ | Float _ => true
  | Array elems => forallb numeric elems
  | Str _ | Struct _ | Dict _ => false
  end.

(** A key that the body of the loop converts without an exception: for an
    "Align" key the file type is in the table and, when it is analog, the
    value has the two fields with an item at [0, 0]; for [unitList] the
    value is numeric. *)
Definition convertible (filetype : string) (matdata : list (string * value))
    (key : string) : Prop :=
  (contains "Align" key = true ->
   exists analog : bool,
     is_analog_file !! filetype = Some analog /\
     (analog = true ->
      exists v ts t ss s,
        Value.assoc key matdata = Some v /\
        Value.field v "TimeStamps" = Ok ts /\ Value.item2 ts 0 0 = Ok t /\
        Value.field v "Samples" = Ok ss /\ Value.item2 ss 0 0 = Ok s)) /\
  (contains "Align" key = false -> key = "unitList" ->
   exists v, Value.assoc key matdata = Some v /\ numeric v = true).

(** The lists of the loop of [load_trialdata] by the position of the field
    they are filled from, numbers as values. *)
Definition local_column (st : locals) (k : nat) : list value :=
  match k with
  | 0%nat => CTX_events st
  | 1%nat => NLX_events st
  | 2%nat => Int <$> trial_ID st
  | 3%nat => Int <$> cond st
  | 4%nat => Int <$> RT_evnt st
  | 5%nat => Int <$> RT_EPP st
  | 6%nat => Int <$> target_dim st
  | 7%nat => Int <$> rf_dim st
  | 8%nat => Int <$> position_RF st
  | 9%nat => Int <$> position_out1 st
  | 10%nat => Int <$> position_out2 st
  | 11%nat => Int <$> fixbreak st
  | _ => []
  end.

(** What the loop reads from field [k] of trial [itrial]: the field itself
    for the two event fields, the number at [0][0] for the others. *)
Definition field_read (out_of_range : value -> result Z) (matdata : value)
    (itrial k : nat) : result value :=
  if (k <? 2)%nat then trial_field matdata itrial (Z.of_nat k)
  else z ← trial_scalar matdata itrial (Z.of_nat k) ≫= to_int out_of_range;
       mret (Int z).

(** The columns of the trial table that are read from the trial records,
    with the position of the field of each. *)
Definition column_position : list (string * nat) :=
  [("CTX_events", 0%nat); ("NLX_events", 1%nat); ("trial_ID", 2%nat);
   ("cond", 3%nat); ("RT_evnt", 4%nat); ("RT_EPP", 5%nat);
   ("target_dim", 6%nat); ("rf_dim", 7%nat); ("position_RF", 8%nat);
   ("position_out1", 9%nat); ("position_out2", 10%nat); ("fixbreak", 11%nat)].

Definition column_values (c : column) : list value :=
  match c with
  | IntColumn l => Int <$> l
  | ObjColumn l => l
  end.

(** A disk with one file, which holds a unit list, and no network; and a
    network whose first request is answered, with an empty body, and whose
    later requests fail to connect. For the examples. *)
Definition example_disk : Files.world :=
  {| Files.url := fun _ => false;
     Files.path_exists := fun path => bool_decide (path = "/data/unit.mat");
     Files.get := fun _ _ => Files.Failed Files.ConnectionError;
     Files.loadmat := fun path _ =>
       if decide (path = "/data/unit.mat")
       then Files.Done [("unitList", Array [Int 1; Int 2])]
       else Files.Failed (Files.Foreign "FileNotFoundError") |}.

Definition example_net : Files.world :=
  {| Files.url := fun _ => true;
     Files.path_exists := fun _ => false;
     Files.get := fun n _ =>
       match n with
       | O => Files.Done {| Files.status_code := 200; Files.content := "" |}
       | S _ => Files.Failed Files.ConnectionError
       end;
     Files.loadmat := fun _ _ => Files.Failed (Files.Foreign "FileNotFoundError") |}.
(** ** Slices *)

Section Slices.

Context {A : Type}.
Implicit Types l : list A.

Lemma index_lookup l (i : nat) x :
  l !! i = Some x -> Py.index l (Z.of_nat i) = Ok x.
Proof.
  intros H. unfold Py.index.
  pose proof (lookup_lt_Some _ _ _ H) as Hlt.
  destruct (Z.ltb_spec (Z.of_nat i) 0) as [?|_]; [lia|].
  destruct (Z.leb_spec 0 (Z.of_nat i)); [|lia].
  destruct (Z.ltb_spec (Z.of_nat i) (Z.of_nat (length l))); [|lia].
  simpl. by rewrite Nat2Z.id, H.
Qed.

Lemma index_beyond l (i : Z) :
  Z.of_nat (length l) <= i -> Py.index l i = Raise IndexError.
Proof.
  intros H. unfold Py.index.
  destruct (Z.ltb_spec i 0) as [?|_]; [lia|].
  destruct (Z.ltb_spec i (Z.of_nat (length l))); [lia|].
  by rewrite andb_false_r.
Qed.

Lemma index_nil (i : Z) : Py.index (@nil A) i = Raise IndexError.
Proof.
  unfold Py.index. simpl.
  destruct (Z.ltb_spec i 0); rewrite ?Z.add_0_r.
  - destruct (Z.leb_spec 0 i); [lia|done].
  - by destruct ((0 <=? i) && (i <? Z.of_nat 0)).
Qed.

Lemma index_last l x :
  Py.index (l ++ [x]) (Z.of_nat (length (l ++ [x])) - 1) = Ok x.
Proof.
  rewrite length_app. simpl.
  replace (Z.of_nat (length l + 1) - 1) with (Z.of_nat (length l)) by lia.
  apply index_lookup. by rewrite lookup_app_r, Nat.sub_diag.
Qed.

Lemma slice_to l (hi : Z) :
  0 <= hi <= Z.of_nat (length l) ->
  Py.slice None (Some hi) l = take (Z.to_nat hi) l.
Proof.
  intros H. unfold Py.slice, Py.clip. simpl.
  destruct (Z.ltb_spec hi 0); [lia|].
  rewrite Z.min_l by lia. by rewrite Z.sub_0_r.
Qed.

Lemma slice_from_to l (lo hi : Z) :
  0 <= lo -> 0 <= hi <= Z.of_nat (length l) ->
  Py.slice (Some lo) (Some hi) l = take (Z.to_nat (hi - lo)) (drop (Z.to_nat lo) l).
Proof.
  intros Hlo H. unfold Py.slice, Py.clip. simpl.
  destruct (Z.ltb_spec hi 0); [lia|].
  destruct (Z.ltb_spec lo 0); [lia|].
  rewrite (Z.min_l hi) by lia.
  destruct (Z.le_gt_cases lo (Z.of_nat (length l))).
  - by rewrite Z.min_l by lia.
  - rewrite Z.min_r by lia.
    replace (Z.to_nat (hi - Z.of_nat (length l))) with 0%nat by lia.
    replace (Z.to_nat (hi - lo)) with 0%nat by lia.
    done.
Qed.

Lemma slice_from_end l (lo : Z) :
  0 <= lo <= Z.of_nat (length l) ->
  Py.slice (Some lo) None l = drop (Z.to_nat lo) l.
Proof.
  intros H. unfold Py.slice, Py.clip. simpl.
  destruct (Z.ltb_spec lo 0); [lia|].
  rewrite Z.min_l by lia.
  apply take_ge. rewrite length_drop. lia.
Qed.

End Slices.

Lemma take_drop_samples (row : list Z) (lo hi : Z) :
  0 <= lo -> hi <= Z.of_nat (length row) ->
  take (Z.to_nat (hi - lo)) (drop (Z.to_nat lo) row) = samples lo hi row.
Proof.
  intros Hlo Hhi. unfold samples. apply list_eq. intros i.
  rewrite list_lookup_fmap.
  destruct (decide (i < Z.to_nat (hi - lo))%nat) as [Hi|Hi].
  - rewrite lookup_take_lt, lookup_drop by done.
    rewrite lookup_seq_lt by done. simpl.
    destruct (lookup_lt_is_Some_2 row (Z.to_nat lo + i)) as [x Hx]; [lia|].
    by rewrite Hx, (nth_lookup_Some _ _ _ _ Hx).
  - rewrite lookup_take_ge by lia.
    by rewrite lookup_seq_ge by lia.
Qed.

(** Within the row, the slices of [update_line] are the samples of the
    window. *)
Lemma slice_window (row : list Z) (f : Z) (numsamples : option Z) :
  0 <= f <= Z.of_nat (length row) ->
  (forall w, numsamples = Some w -> w <= f) ->
  Py.slice (slice_from f numsamples) (Some f) row
  = samples (window_start f numsamples) f row.
Proof.
  intros Hf Hw. destruct numsamples as [w|]; simpl.
  - specialize (Hw w eq_refl).
    rewrite slice_from_to by lia. apply take_drop_samples; lia.
  - rewrite slice_to by done.
    rewrite <- (take_drop_samples row 0 f) by lia.
    by rewrite Z.sub_0_r.
Qed.

Lemma samples_empty (row : list Z) (lo hi : Z) : hi <= lo -> samples lo hi row = [].
Proof. intros H. unfold samples. by replace (Z.to_nat (hi - lo)) with 0%nat by lia. Qed.

(** At a frame [f >= 0], whatever the window, the slices of [update_line]
    are the samples from [shown_start] up to the frame or the end of the
    row. *)
Lemma slice_shown (row : list Z) (f : Z) (numsamples : option Z) :
  0 <= f ->
  Py.slice (slice_from f numsamples) (Some f) row
  = samples (shown_start f numsamples (Z.of_nat (length row)))
      (Z.min f (Z.of_nat (length row))) row.
Proof.
  intros Hf. set (n := Z.of_nat (length row)).
  unfold Py.slice, Py.clip, shown_start. fold n.
  destruct numsamples as [w|]; simpl.
  - destruct (Z.ltb_spec f 0); [lia|].
    destruct (decide (w <= f)) as [Hw|Hw].
    + destruct (Z.ltb_spec (f - w) 0); [lia|].
      rewrite take_drop_samples by (unfold n in *; lia).
      destruct (Z.le_gt_cases (f - w) n).
      * by rewrite (Z.min_l (f - w)) by lia.
      * rewrite (Z.min_r (f - w)) by lia.
        by rewrite !samples_empty by lia.
    + destruct (Z.ltb_spec (f - w) 0); [|lia].
      rewrite take_drop_samples by (unfold n in *; lia).
      f_equal. lia.
  - destruct (Z.ltb_spec f 0); [lia|].
    rewrite <- (take_drop_samples row 0 (Z.min f n)) by (unfold n in *; lia).
    by rewrite Z.sub_0_r.
Qed.

(** ** The loop over the lines *)

Lemma well_shaped_items (a : ndarray3) :
  well_shaped a -> Forall (line_shape (shape1 a) (shape2 a)) (items a).
Proof. by intros [_ H]. Qed.

Lemma line_for_is_line D a : line_for D a = true -> is_line a = true.
Proof. unfold line_for. by intros [? _]%andb_true_iff. Qed.

Lemma line_for_3d a : line_for 3 a = true -> has_set_3d_properties a = true.
Proof. unfold line_for. by intros [_ ?]%andb_true_iff. Qed.

(** On a line of the right class and an array of [num_dims] rows, every
    statement of the body runs. *)
Lemma update_line_runs num num_dims numsamples data a :
  length data = num_dims ->
  line_for num_dims a = true ->
  update_line num num_dims numsamples data a
  = (after_update num num_dims numsamples data a, None).
Proof.
  intros Hlen Hline.
  pose proof (line_for_is_line _ _ Hline) as Hl.
  unfold update_line, after_update, seq_stmt.
  destruct (decide (num_dims = 2%nat)) as [->|H2].
  - destruct data as [|x [|y [|? ?]]]; try discriminate.
    destruct a as [c xs ys zs m t]. unfold is_line in Hl. simpl in Hl.
    destruct numsamples; simpl;
      unfold call, set_data, set_marker, is_line; simpl; rewrite Hl; simpl;
      by rewrite Hl.
  - destruct (decide (num_dims = 3%nat)) as [->|H3].
    + pose proof (line_for_3d _ Hline) as H3d.
      destruct data as [|x [|y [|z [|? ?]]]]; try discriminate.
      destruct a as [c xs ys zs m t].
      unfold is_line in Hl. unfold has_set_3d_properties in H3d. simpl in Hl, H3d.
      destruct numsamples; simpl;
        unfold call, set_data, set_marker, call_set_3d_properties,
          has_set_3d_properties, is_line, seq_stmt; simpl;
        rewrite Hl; simpl; rewrite H3d; simpl; by rewrite Hl.
    + destruct a as [c xs ys zs m t]. unfold is_line in Hl. simpl in Hl.
      rewrite !decide_False by tauto.
      destruct numsamples; simpl; unfold skip, call, set_marker, is_line; simpl;
        by rewrite Hl.
Qed.

Lemma update_loop_runs num num_dims T numsamples lines plotdata :
  Forall (line_shape num_dims T) plotdata ->
  Forall (fun a => line_for num_dims a = true) (take (length plotdata) lines) ->
  update_loop num num_dims numsamples lines plotdata
  = (after_loop num num_dims numsamples lines plotdata, None).
Proof.
  intros Hshape. revert lines.
  induction Hshape as [|data plotdata [Hlen _] _ IH]; intros lines Hlines.
  - destruct lines; unfold after_loop; simpl; by rewrite ?drop_0.
  - destruct lines as [|line lines]; [done|].
    simpl in Hlines. apply Forall_cons in Hlines as [Hline Hlines].
    simpl. rewrite (update_line_runs _ _ _ _ _ Hlen Hline).
    by rewrite (IH _ Hlines).
Qed.

(** Handles beyond the paired ones do not take part in the loop. *)
Lemma update_loop_app num num_dims numsamples lines rest plotdata :
  (length plotdata <= length lines)%nat ->
  update_loop num num_dims numsamples (lines ++ rest) plotdata
  = ((update_loop num num_dims numsamples lines plotdata).1 ++ rest,
     (update_loop num num_dims numsamples lines plotdata).2).
Proof.
  revert plotdata. induction lines as [|line lines IH]; intros plotdata Hlen.
  - destruct plotdata; [|simpl in Hlen; lia]. by destruct rest.
  - destruct plotdata as [|data plotdata]; [done|].
    simpl in Hlen. simpl.
    destruct (update_line num num_dims numsamples data line) as [line' [e|]]; [done|].
    rewrite IH by lia.
    by destruct (update_loop num num_dims numsamples lines plotdata).
Qed.

Lemma update_loop_length num num_dims numsamples lines plotdata :
  length (update_loop num num_dims numsamples lines plotdata).1 = length lines.
Proof.
  revert plotdata. induction lines as [|line lines IH]; intros [|data plotdata]; try done.
  simpl. destruct (update_line num num_dims numsamples data line) as [line' [e|]]; [done|].
  specialize (IH plotdata).
  destruct (update_loop num num_dims numsamples lines plotdata). simpl in *. lia.
Qed.

Lemma after_loop_lookup num num_dims numsamples lines plotdata i line data :
  lines !! i = Some line -> plotdata !! i = Some data ->
  after_loop num num_dims numsamples lines plotdata !! i
  = Some (after_update num num_dims numsamples data line).
Proof.
  intros Hl Hd. unfold after_loop.
  rewrite lookup_app_l.
  - by rewrite lookup_zip_with, Hl, Hd.
  - rewrite length_zip_with.
    apply lookup_lt_Some in Hl. apply lookup_lt_Some in Hd. lia.
Qed.

Lemma after_loop_length num num_dims numsamples lines plotdata :
  length (after_loop num num_dims numsamples lines plotdata) = length lines.
Proof. unfold after_loop. rewrite length_app, length_zip_with, length_drop. lia. Qed.

(** Handles without a trajectory keep their state. *)
Lemma after_loop_beyond num num_dims numsamples lines plotdata i :
  (length plotdata <= i)%nat ->
  after_loop num num_dims numsamples lines plotdata !! i = lines !! i.
Proof.
  intros Hi. unfold after_loop.
  destruct (decide (length lines <= length plotdata)%nat).
  - rewrite drop_ge, app_nil_r by done.
    rewrite (lookup_ge_None_2 lines) by lia.
    apply lookup_ge_None_2. rewrite length_zip_with. lia.
  - rewrite lookup_app_r; rewrite length_zip_with, Nat.min_r by lia; [|done].
    rewrite lookup_drop. f_equal. lia.
Qed.

(** *** The claims on [update_lines] *)

(** C1. With four dimensions [update_lines] raises nothing: it returns,
    and the marker of the line has been set. The claim asks for a
    dimensionality error and untouched handles, as [def_lines] gives. *)
Lemma update_lines_four_dims :
  let plotdata :=
    {| shape0 := 1; shape1 := 4; shape2 := 3;
       items := [[[1; 2; 3]; [4; 5; 6]; [7; 8; 9]; [10; 11; 12]]] |} in
  let line :=
    {| cls := Line2D; xdata := [1]; ydata := [4]; zdata := [];
       marker := ""; text := "" |} in
  well_shaped plotdata /\
  (forall ax, def_lines ax plotdata = Raise ValueError) /\
  update_lines 1 plotdata [line] None
  = ([{| cls := Line2D; xdata := [1]; ydata := [4]; zdata := [];
         marker := "o"; text := "" |}], None).
Proof.
  simpl. split; [|split; [by intros []|done]].
  split; [done|]. repeat constructor.
Qed.

(** C8. For two or three dimensions and a frame [f] within the samples,
    [update_lines] returns and every line paired with a trajectory holds
    samples [0, f) of it, or samples [f - w, f) for a window [w <= f]: x and
    y through [set_data], and for three dimensions z through
    [set_3d_properties]. *)
Theorem update_lines_shows_window (plotdata : ndarray3) (lines : list artist)
    (f : Z) (numsamples : option Z) :
  well_shaped plotdata ->
  shape1 plotdata = 2%nat \/ shape1 plotdata = 3%nat ->
  Forall (fun a => line_for (shape1 plotdata) a = true)
         (take (shape0 plotdata) lines) ->
  0 <= f <= Z.of_nat (shape2 plotdata) ->
  (forall w, numsamples = Some w -> w <= f) ->
  exists lines',
    update_lines f plotdata lines numsamples = (lines', None) /\
    length lines' = length lines /\
    forall i line data,
      lines !! i = Some line -> items plotdata !! i = Some data ->
      exists line' x y,
        lines' !! i = Some line' /\
        data !! 0%nat = Some x /\ data !! 1%nat = Some y /\
        xdata line' = samples (window_start f numsamples) f x /\
        ydata line' = samples (window_start f numsamples) f y /\
        (shape1 plotdata = 2%nat -> zdata line' = zdata line) /\
        (shape1 plotdata = 3%nat ->
         exists z, data !! 2%nat = Some z /\
                   zdata line' = samples (window_start f numsamples) f z).
Proof.
  intros Hwf HD Hlines Hf Hw.
  pose proof (well_shaped_items _ Hwf) as Hshape.
  destruct Hwf as [HN _].
  exists (after_loop f (shape1 plotdata) numsamples lines (items plotdata)).
  split; [|split].
  - unfold update_lines. apply (update_loop_runs _ _ (shape2 plotdata)); [done|].
    by rewrite HN.
  - apply after_loop_length.
  - intros i line data Hl Hd.
    rewrite (after_loop_lookup _ _ _ _ _ _ _ _ Hl Hd).
    pose proof (proj1 (Forall_lookup _ _) Hshape _ _ Hd) as [Hlen Hrows].
    assert (forall d row, data !! d = Some row ->
              Py.slice (slice_from f numsamples) (Some f) (nth d data [])
              = samples (window_start f numsamples) f row) as Hcut.
    { intros d row Hrow. rewrite (nth_lookup_Some _ _ _ _ Hrow).
      apply slice_window; [|done].
      by rewrite (proj1 (Forall_lookup _ _) Hrows _ _ Hrow). }
    destruct (lookup_lt_is_Some_2 data 0) as [x Hx]; [lia|].
    destruct (lookup_lt_is_Some_2 data 1) as [y Hy]; [lia|].
    eexists _, x, y. split; [done|]. split; [done|]. split; [done|].
    unfold after_update; simpl.
    rewrite !(decide_True (P := _ \/ _)) by done.
    rewrite (Hcut _ _ Hx), (Hcut _ _ Hy).
    split; [done|]. split; [done|]. split.
    + intros H2. by rewrite decide_False by lia.
    + intros H3. rewrite decide_True by done.
      destruct (lookup_lt_is_Some_2 data 2) as [z Hz]; [lia|].
      exists z. by rewrite (Hcut _ _ Hz).
Qed.

Lemma update_lines_shows_window_witness :
  let plotdata :=
    {| shape0 := 1; shape1 := 3; shape2 := 3;
       items := [[[1; 2; 3]; [4; 5; 6]; [7; 8; 9]]] |} in
  exists lines',
    update_lines 2 plotdata [plot3 [1] [4] [7]] (Some 1) = (lines', None) /\
    length lines' = 1%nat /\
    forall i line data,
      [plot3 [1] [4] [7]] !! i = Some line -> items plotdata !! i = Some data ->
      exists line' x y,
        lines' !! i = Some line' /\
        data !! 0%nat = Some x /\ data !! 1%nat = Some y /\
        xdata line' = samples (window_start 2 (Some 1)) 2 x /\
        ydata line' = samples (window_start 2 (Some 1)) 2 y /\
        (shape1 plotdata = 2%nat -> zdata line' = zdata line) /\
        (shape1 plotdata = 3%nat ->
         exists z, data !! 2%nat = Some z /\
                   zdata line' = samples (window_start 2 (Some 1)) 2 z).
Proof.
  apply (update_lines_shows_window
           {| shape0 := 1; shape1 := 3; shape2 := 3;
              items := [[[1; 2; 3]; [4; 5; 6]; [7; 8; 9]]] |}
           [plot3 [1] [4] [7]] 2 (Some 1)).
  - split; [reflexivity|]. repeat constructor.
  - right. reflexivity.
  - repeat constructor.
  - simpl. lia.
  - intros w [= <-]. lia.
Defined.

(** *** The claims on [update_lines_counter] *)

Lemma is_line_no_set_text a : is_line a = true -> has_set_text a = false.
Proof. unfold is_line, has_set_text. by destruct (cls a). Qed.

(** On an array of [num_dims] rows the body either runs to its end, on a
    line, or stops on a method that the handle lacks. *)
Lemma update_line_outcome num num_dims numsamples data a :
  length data = num_dims ->
  let r := update_line num num_dims numsamples data a in
  (r.2 = None /\ is_line r.1 = true) \/ r.2 = Some AttributeError.
Proof.
  intros Hlen. unfold update_line, seq_stmt.
  destruct (decide (num_dims = 2%nat)) as [->|H2].
  - destruct data as [|x [|y [|? ?]]]; try discriminate.
    destruct a as [[] xs ys zs m t]; destruct numsamples; simpl; auto.
  - destruct (decide (num_dims = 3%nat)) as [->|H3].
    + destruct data as [|x [|y [|z [|? ?]]]]; try discriminate.
      destruct a as [[] xs ys zs m t]; destruct numsamples; simpl; auto.
    + destruct a as [[] xs ys zs m t]; destruct numsamples; simpl; auto.
Qed.

Lemma update_loop_outcome num num_dims T numsamples lines plotdata :
  Forall (line_shape num_dims T) plotdata ->
  (length lines <= length plotdata)%nat ->
  let r := update_loop num num_dims numsamples lines plotdata in
  (r.2 = None /\ Forall (fun a => is_line a = true) r.1)
  \/ r.2 = Some AttributeError.
Proof.
  intros Hshape. revert lines.
  induction Hshape as [|data plotdata [Hlen _] _ IH]; intros lines Hlines.
  - destruct lines; [|simpl in Hlines; lia]. left. by split.
  - destruct lines as [|line lines]; [left; by split|].
    simpl in Hlines. simpl.
    pose proof (update_line_outcome num num_dims numsamples data line Hlen) as Hline.
    destruct (update_line num num_dims numsamples data line) as [line' [e|]];
      simpl in Hline.
    + right. by destruct Hline as [[? _]|?].
    + destruct Hline as [[_ Hline]|?]; [|done].
      specialize (IH lines ltac:(lia)).
      destruct (update_loop num num_dims numsamples lines plotdata) as [rest r].
      simpl in *. destruct IH as [[-> ?]| ->]; [left|right]; auto.
Qed.

(** The classes and texts of the handles are those before the loop,
    whatever the outcome. *)
Lemma update_line_meta num num_dims numsamples data a :
  cls (update_line num num_dims numsamples data a).1 = cls a /\
  text (update_line num num_dims numsamples data a).1 = text a.
Proof.
  unfold update_line, seq_stmt, call, call_set_3d_properties, skip, set_data,
    set_marker, set_3d_properties, has_set_3d_properties, is_line.
  destruct a as [[] xs ys zs m t]; simpl;
    destruct numsamples; simpl;
    repeat match goal with
           | |- context [decide ?P] => destruct (decide P); simpl
           | |- context [match ?l with [] => _ | _ :: _ => _ end] =>
               destruct l; simpl
           | |- context [row_slice ?d ?lo ?hi ?data] =>
               destruct (row_slice d lo hi data); simpl
           end; done.
Qed.

Lemma update_loop_cls num num_dims numsamples lines plotdata :
  forall i a a',
    lines !! i = Some a ->
    (update_loop num num_dims numsamples lines plotdata).1 !! i = Some a' ->
    cls a' = cls a.
Proof.
  revert plotdata. induction lines as [|line lines IH]; intros plotdata i a a'.
  { done. }
  destruct plotdata as [|data plotdata].
  { simpl. intros H1 H2. rewrite H1 in H2. by injection H2 as <-. }
  simpl.
  pose proof (update_line_meta num num_dims numsamples data line) as [Hmeta _].
  destruct (update_line num num_dims numsamples data line) as [line' [e|]];
    simpl in Hmeta.
  - destruct i as [|i]; simpl; [by intros [= <-] [= <-]|].
    intros H1 H2. rewrite H1 in H2. by injection H2 as <-.
  - specialize (IH plotdata).
    destruct (update_loop num num_dims numsamples lines plotdata) as [rest r].
    destruct i as [|i]; simpl; [by intros [= <-] [= <-]|apply IH].
Qed.

Lemma update_loop_exceptions num num_dims T numsamples lines plotdata :
  Forall (line_shape num_dims T) plotdata ->
  (update_loop num num_dims numsamples lines plotdata).2 = None \/
  (update_loop num num_dims numsamples lines plotdata).2 = Some AttributeError.
Proof.
  intros Hshape. revert lines.
  induction Hshape as [|data plotdata [Hlen _] _ IH]; intros lines.
  - destruct lines; by left.
  - destruct lines as [|line lines]; [by left|]. simpl.
    pose proof (update_line_outcome num num_dims numsamples data line Hlen) as Hline.
    destruct (update_line num num_dims numsamples data line) as [line' [e|]];
      simpl in Hline.
    + right. by destruct Hline as [[? _]|?].
    + specialize (IH lines).
      by destruct (update_loop num num_dims numsamples lines plotdata).
Qed.

(** A body that ran to its end had a handle with the methods it calls. *)
Lemma update_line_returned num num_dims numsamples data a :
  num_dims = 2%nat \/ num_dims = 3%nat ->
  (update_line num num_dims numsamples data a).2 = None ->
  line_for num_dims a = true.
Proof.
  intros HD. unfold update_line, seq_stmt, line_for, call,
    call_set_3d_properties, set_data, set_marker, has_set_3d_properties, is_line.
  destruct HD as [-> | ->]; simpl;
    destruct a as [[] xs ys zs m t]; simpl; destruct numsamples; simpl;
    repeat match goal with
           | |- context [match ?l with [] => _ | _ :: _ => _ end] =>
               destruct l; simpl
           | |- context [row_slice ?d ?lo ?hi ?data] =>
               destruct (row_slice d lo hi data); simpl
           end; done.
Qed.

Lemma update_loop_returned num num_dims T numsamples lines plotdata :
  Forall (line_shape num_dims T) plotdata ->
  num_dims = 2%nat \/ num_dims = 3%nat ->
  (update_loop num num_dims numsamples lines plotdata).2 = None ->
  Forall (fun a => line_for num_dims a = true) (take (length plotdata) lines).
Proof.
  intros Hshape HD. revert lines.
  induction Hshape as [|data plotdata _ _ IH]; intros lines; [done|].
  destruct lines as [|line lines]; [done|]. simpl.
  pose proof (update_line_returned num num_dims numsamples data line HD) as Hline.
  destruct (update_line num num_dims numsamples data line) as [line' [e|]];
    [done|].
  specialize (IH lines).
  destruct (update_loop num num_dims numsamples lines plotdata) as [rest r].
  simpl in *. intros ->. apply Forall_cons_2; auto.
Qed.

Section CounterProperties.

Variable percent : string -> Z -> result string.

(** With a label at the end, the counter is formatted and set. *)
Lemma set_counter_label num lines label text_counter data_counter v s :
  has_set_text label = true ->
  Py.index data_counter num = Ok v ->
  percent text_counter v = Ok s ->
  set_counter percent num (lines ++ [label]) text_counter data_counter
  = (lines ++ [set_text s label], None).
Proof.
  intros Hlabel Hv Hs. unfold set_counter.
  rewrite index_last, Hlabel, Hv. simpl. rewrite Hs.
  rewrite length_app. simpl.
  replace (Z.to_nat (Z.of_nat (length lines + 1) - 1)) with (length lines + 0)%nat by lia.
  by rewrite insert_app_r.
Qed.

(** C10, as the code has it. For two or three dimensions, at least one
    handle and a frame index beyond the counter values,
    [update_lines_counter] never returns and leaves the handles as
    [update_lines] does: nothing is undone. It raises [IndexError] exactly
    when the loop over the lines has run to its end and the last handle is
    a label; when the last handle has no [set_text] it raises
    [AttributeError] instead, as it does when the loop stops on a handle.
    When the loop has run to its end, every handle paired with a trajectory
    has its marker set and holds the samples of the frame: those from
    [shown_start] up to the frame index or the end of the row. Line
    handles for the trajectories and a label at the end give the
    [IndexError]. *)
Theorem counter_lookup_fails_after_update (plotdata : ndarray3)
    (lines : list artist) (f : Z) (text_counter : string)
    (data_counter : list Z) (numsamples : option Z) :
  well_shaped plotdata ->
  shape1 plotdata = 2%nat \/ shape1 plotdata = 3%nat ->
  lines <> [] ->
  Z.of_nat (length data_counter) <= f ->
  let updated := update_lines f plotdata lines numsamples in
  let counted :=
    update_lines_counter percent f plotdata lines text_counter data_counter
      numsamples in
  let shown row :=
    samples (shown_start f numsamples (Z.of_nat (shape2 plotdata)))
      (Z.min f (Z.of_nat (shape2 plotdata))) row in
  counted.1 = updated.1 /\
  (counted.2 = Some IndexError \/ counted.2 = Some AttributeError) /\
  (counted.2 = Some IndexError <->
   updated.2 = None /\
   exists label, last lines = Some label /\ has_set_text label = true) /\
  (updated.2 = None ->
   forall i line data,
     lines !! i = Some line -> items plotdata !! i = Some data ->
     exists line' x y,
       counted.1 !! i = Some line' /\ marker line' = "o" /\
       data !! 0%nat = Some x /\ data !! 1%nat = Some y /\
       xdata line' = shown x /\ ydata line' = shown y /\
       (shape1 plotdata = 3%nat ->
        exists z, data !! 2%nat = Some z /\ zdata line' = shown z)) /\
  (Forall (fun a => line_for (shape1 plotdata) a = true)
          (take (shape0 plotdata) lines) ->
   forall label, last lines = Some label -> has_set_text label = true ->
     updated.2 = None /\ counted.2 = Some IndexError).
Proof.
  intros Hwf HD Hne Hf updated counted shown.
  pose proof (well_shaped_items _ Hwf) as Hshape.
  destruct Hwf as [HN _].
  assert (0 <= f) as Hf0 by lia.
  pose proof (update_loop_exceptions f _ _ numsamples lines _ Hshape) as Hexn.
  pose proof (update_loop_length f (shape1 plotdata) numsamples lines (items plotdata))
    as Hlen.
  pose proof (update_loop_cls f (shape1 plotdata) numsamples lines (items plotdata))
    as Hcls.
  pose proof (update_loop_returned f _ _ numsamples lines _ Hshape HD) as Hret.
  subst updated counted. unfold update_lines_counter, update_lines in *.
  destruct (update_loop f (shape1 plotdata) numsamples lines (items plotdata))
    as [lines' [e|]] eqn:Hloop; simpl in *.
  { destruct Hexn as [?|[= ->]]; [done|].
    split; [done|]. split; [by right|]. split; [|split].
    - split; [done|]. by intros [? _].
    - done.
    - intros Hlines. rewrite <- HN in Hlines.
      by rewrite (update_loop_runs f _ _ numsamples lines _ Hshape Hlines) in Hloop. }
  clear Hexn. specialize (Hret eq_refl).
  destruct (last lines) as [label|] eqn:Hlast.
  2: { apply last_None in Hlast. done. }
  rewrite last_lookup in Hlast.
  assert (length lines <> 0)%nat as Hpos by (by destruct lines).
  destruct (lookup_lt_is_Some_2 lines' (pred (length lines))) as [label' Hlabel'];
    [lia|].
  pose proof (Hcls _ _ _ Hlast Hlabel') as Hsame.
  assert (has_set_text label' = has_set_text label) as Htext.
  { unfold has_set_text. by rewrite Hsame. }
  assert (set_counter percent f lines' text_counter data_counter
          = (lines', Some (if has_set_text label then IndexError
                           else AttributeError))) as Hset.
  { unfold set_counter. rewrite Hlen.
    replace (Z.of_nat (length lines) - 1) with (Z.of_nat (pred (length lines)))
      by lia.
    rewrite (index_lookup _ _ _ Hlabel'), Htext.
    destruct (has_set_text label); [|done].
    by rewrite index_beyond. }
  rewrite Hset. simpl.
  split; [done|]. split; [by destruct (has_set_text label); auto|].
  split; [|split].
  - split.
    + intros Hidx. split; [done|]. exists label. split; [done|].
      by destruct (has_set_text label).
    + intros [_ (label0 & [= <-] & ->)]. done.
  - intros _ i line data Hl Hd.
    rewrite (update_loop_runs f _ _ numsamples lines _ Hshape Hret) in Hloop.
    injection Hloop as <-.
    rewrite (after_loop_lookup _ _ _ _ _ _ _ _ Hl Hd).
    pose proof (proj1 (Forall_lookup _ _) Hshape _ _ Hd) as [Hdlen Hrows].
    assert (forall d row, data !! d = Some row ->
              Py.slice (slice_from f numsamples) (Some f) (nth d data [])
              = shown row) as Hcut.
    { intros d row Hrow. rewrite (nth_lookup_Some _ _ _ _ Hrow).
      rewrite slice_shown by done. unfold shown.
      by rewrite (proj1 (Forall_lookup _ _) Hrows _ _ Hrow). }
    destruct (lookup_lt_is_Some_2 data 0) as [x Hx]; [lia|].
    destruct (lookup_lt_is_Some_2 data 1) as [y Hy]; [lia|].
    eexists _, x, y. split; [done|]. split; [done|].
    split; [done|]. split; [done|].
    unfold after_update; simpl.
    rewrite !(decide_True (P := _ \/ _)) by done.
    rewrite (Hcut _ _ Hx), (Hcut _ _ Hy).
    split; [done|]. split; [done|].
    intros H3. rewrite decide_True by done.
    destruct (lookup_lt_is_Some_2 data 2) as [z Hz]; [lia|].
    exists z. by rewrite (Hcut _ _ Hz).
  - intros _ label0 [= <-] ->. done.
Qed.

(** C3, as the code has it. [update_lines_counter] does not compare the
    number of handles with the number of trajectories. With the [N] line
    handles first and a label last (and any handles between them), it sets
    the text of the label to the formatted counter value after the update
    of the [N] lines; for [N + 1] handles that is the claim. Without
    handles it raises [IndexError]; with 1 to [N] handles the last one is
    paired with a trajectory and the call stops on a method that the handle
    lacks. *)
Theorem update_lines_counter_by_length (plotdata : ndarray3)
    (lines : list artist) (f : Z) (text_counter : string)
    (data_counter : list Z) (numsamples : option Z) :
  well_shaped plotdata ->
  (forall line_handles others label line_handles' v s,
      lines = line_handles ++ others ++ [label] ->
      length line_handles = shape0 plotdata ->
      update_lines f plotdata line_handles numsamples = (line_handles', None) ->
      has_set_text label = true ->
      Py.index data_counter f = Ok v ->
      percent text_counter v = Ok s ->
      update_lines_counter percent f plotdata lines text_counter data_counter
        numsamples
      = (line_handles' ++ others ++ [set_text s label], None)) /\
  (lines = [] ->
   update_lines_counter percent f plotdata lines text_counter data_counter
     numsamples = ([], Some IndexError)) /\
  ((1 <= length lines <= shape0 plotdata)%nat ->
   (update_lines_counter percent f plotdata lines text_counter data_counter
      numsamples).2 = Some AttributeError).
Proof.
  intros Hwf.
  pose proof (well_shaped_items _ Hwf) as Hshape.
  destruct Hwf as [HN _].
  split; [|split].
  - intros ls others label ls' v s -> Hlen Hls Hlabel Hv Hs.
    unfold update_lines_counter, update_lines in *.
    rewrite update_loop_app by lia. rewrite Hls. simpl.
    rewrite app_assoc. rewrite (set_counter_label _ _ _ _ _ v s) by done.
    by rewrite <- app_assoc.
  - intros ->. reflexivity.
  - intros [Hpos Hle]. unfold update_lines_counter.
    pose proof (update_loop_outcome f _ _ numsamples lines _ Hshape ltac:(lia)) as Hout.
    pose proof (update_loop_length f (shape1 plotdata) numsamples lines (items plotdata))
      as Hlen'.
    destruct (update_loop f (shape1 plotdata) numsamples lines (items plotdata))
      as [lines' r].
    simpl in *. destruct Hout as [[-> Hall]| ->]; [|done].
    destruct (lookup_lt_is_Some_2 lines' (pred (length lines'))) as [a Ha]; [lia|].
    unfold set_counter.
    replace (Z.of_nat (length lines') - 1) with (Z.of_nat (pred (length lines'))) by lia.
    rewrite (index_lookup _ _ _ Ha).
    pose proof (proj1 (Forall_lookup _ _) Hall _ _ Ha) as Hl.
    by rewrite (is_line_no_set_text _ Hl).
Qed.

End CounterProperties.

(** C3 as stated fails: a bundle of one trajectory and three handles, a
    line and two labels. The call returns, with the line updated and the
    text of the last label set. *)
Lemma update_lines_counter_three_handles :
  let lines := [plot2 [1] [4]; example_label; example_label] in
  well_shaped example_bundle /\
  length lines <> S (shape0 example_bundle) /\
  update_lines_counter percent_d 1 example_bundle lines "%d" [10; 20] None
  = ([{| cls := Line2D; xdata := [1]; ydata := [4]; zdata := [];
         marker := "o"; text := "" |};
      example_label;
      {| cls := Text; xdata := []; ydata := []; zdata := [];
         marker := ""; text := "20" |}], None).
Proof.
  simpl. split; [|split].
  - split; [done|]. repeat constructor.
  - discriminate.
  - reflexivity.
Qed.

Lemma update_lines_counter_by_length_witness :
  update_lines_counter percent_d 1 example_bundle
    [plot2 [1] [4]; example_label] "%d" [10; 20] None
  = ([{| cls := Line2D; xdata := [1]; ydata := [4]; zdata := [];
         marker := "o"; text := "" |}]
     ++ [] ++ [set_text "20" example_label], None).
Proof.
  assert (well_shaped example_bundle) as Hwf.
  { split; [reflexivity|]. repeat constructor. }
  apply (proj1 (update_lines_counter_by_length percent_d example_bundle
                  [plot2 [1] [4]; example_label] 1 "%d" [10; 20] None Hwf)
           [plot2 [1] [4]] [] example_label _ 20 "20");
    reflexivity.
Defined.

(** C10 as stated fails: one trajectory and one handle, its line, at a
    frame index beyond the counter values. The line is updated; then the
    call stops on [set_text], which a line lacks, before the counter value
    is looked up: an attribute error, not an index error. With a label as
    the one handle, the label is paired with the trajectory and the loop
    itself stops on it, with an attribute error and nothing updated. *)
Lemma counter_lookup_attribute_error :
  let lines := [plot2 [1] [4]] in
  well_shaped example_bundle /\
  shape1 example_bundle = 2%nat /\
  lines <> [] /\
  Z.of_nat (length [10; 20]) <= 2 /\
  update_lines_counter percent_d 2 example_bundle lines "%d" [10; 20] None
  = ([{| cls := Line2D; xdata := [1; 2]; ydata := [4; 5]; zdata := [];
         marker := "o"; text := "" |}], Some AttributeError) /\
  update_lines_counter percent_d 2 example_bundle [example_label] "%d"
    [10; 20] None
  = ([example_label], Some AttributeError).
Proof.
  simpl. split; [|done].
  split; [done|]. repeat constructor.
Qed.

Lemma counter_lookup_fails_after_update_witness :
  let lines := [plot2 [1] [4]; example_label] in
  let updated := update_lines 2 example_bundle lines None in
  let counted :=
    update_lines_counter percent_d 2 example_bundle lines "%d" [10; 20] None in
  let shown row :=
    samples (shown_start 2 None (Z.of_nat (shape2 example_bundle)))
      (Z.min 2 (Z.of_nat (shape2 example_bundle))) row in
  counted.1 = updated.1 /\
  (counted.2 = Some IndexError \/ counted.2 = Some AttributeError) /\
  (counted.2 = Some IndexError <->
   updated.2 = None /\
   exists label, last lines = Some label /\ has_set_text label = true) /\
  (updated.2 = None ->
   forall i line data,
     lines !! i = Some line -> items example_bundle !! i = Some data ->
     exists line' x y,
       counted.1 !! i = Some line' /\ marker line' = "o" /\
       data !! 0%nat = Some x /\ data !! 1%nat = Some y /\
       xdata line' = shown x /\ ydata line' = shown y /\
       (shape1 example_bundle = 3%nat ->
        exists z, data !! 2%nat = Some z /\ zdata line' = shown z)) /\
  (Forall (fun a => line_for (shape1 example_bundle) a = true)
          (take (shape0 example_bundle) lines) ->
   forall label, last lines = Some label -> has_set_text label = true ->
     updated.2 = None /\ counted.2 = Some IndexError).
Proof.
  apply (counter_lookup_fails_after_update percent_d example_bundle
           [plot2 [1] [4]; example_label] 2 "%d" [10; 20] None).
  - split; [reflexivity|]. repeat constructor.
  - left. reflexivity.
  - discriminate.
  - simpl. lia.
Defined.

(** ** [load_data] *)

Lemma assoc_keys (k : string) (d : list (string * value)) :
  k ∈ d.*1 -> is_Some (Value.assoc k d).
Proof.
  induction d as [|[k' v] d IH]; simpl.
  - by intros ?%elem_of_nil.
  - intros [->|Hin]%elem_of_cons.
    + rewrite decide_True by done. eauto.
    + destruct (decide (k' = k)); eauto.
Qed.

Lemma assoc_subscript (k : string) (d : list (string * value)) v :
  Value.assoc k d = Some v -> subscript d k = Ok v.
Proof. unfold subscript. by intros ->. Qed.

Section LoadDataProperties.

Variable g : string -> option exn.
Variable filetype : string.
Variable matdata : list (string * value).

(** The body of the loop writes at most the entry of its key, and what it
    writes does not depend on the dictionary built so far. *)
Lemma convert_key_entry key pydata :
  convert_key g filetype matdata key pydata
  = match entry_of g filetype matdata key with
    | Ok (Some v) => Ok (<[key := v]> pydata, [])
    | Ok None => Ok (pydata, ["Cannot process " +:+ key])
    | Raise e => Raise e
    end.
Proof.
  unfold entry_of, convert_key.
  destruct (contains "Align" key).
  - destruct (is_analog_file !! filetype) as [[]|]; simpl; [| |done].
    + destruct (subscript matdata key) as [m|]; simpl; [|done].
      destruct (Value.field m "TimeStamps") as [ts|]; simpl; [|done].
      destruct (Value.item2 ts 0 0) as [t|]; simpl; [|done].
      destruct (Value.field m "Samples") as [ss|]; simpl; [|done].
      destruct (Value.item2 ss 0 0) as [s|]; simpl; [|done].
      by rewrite lookup_insert_eq.
    + destruct (subscript matdata key) as [m|]; simpl; [|done].
      by rewrite lookup_insert_eq.
  - destruct (decide (key = "area")).
    + destruct (subscript matdata key) as [m|]; simpl; [|done].
      by rewrite lookup_insert_eq.
    + destruct (decide (key = "unitList")).
      * destruct (subscript matdata key) as [m|]; simpl; [|done].
        destruct (Value.minus_one m) as [w|]; simpl; [|done].
        by rewrite lookup_insert_eq.
      * destruct (g key) as [e|]; [by rewrite lookup_empty|].
        destruct (subscript matdata key) as [v|].
        -- by rewrite lookup_insert_eq.
        -- by rewrite lookup_empty.
Qed.

(** After a loop that ran to its end, every key of the loop has the entry
    that its body stores, or none and a warning; the other entries are as
    before. *)
Lemma convert_keys_entries keys pydata stdout stdout' pydata' :
  convert_keys g filetype matdata keys pydata stdout = (stdout', Ok pydata') ->
  (forall line, line ∈ stdout -> line ∈ stdout') /\
  forall key,
    (key ∉ keys -> pydata' !! key = pydata !! key) /\
    (key ∈ keys ->
     (exists v, entry_of g filetype matdata key = Ok (Some v) /\
                pydata' !! key = Some v) \/
     (entry_of g filetype matdata key = Ok None /\
      pydata' !! key = pydata !! key /\
      ("Cannot process " +:+ key) ∈ stdout')).
Proof.
  revert pydata stdout.
  induction keys as [|k keys IH]; intros pydata stdout Hrun; simpl in Hrun.
  - injection Hrun as <- <-. split; [done|]. intros key. split; [done|].
    by intros ?%elem_of_nil.
  - rewrite convert_key_entry in Hrun.
    destruct (entry_of g filetype matdata k) as [[v|]|e] eqn:Hk;
      [| |by injection Hrun].
    + destruct (IH _ _ Hrun) as [Hout Hkeys]. split.
      { intros line Hl. apply Hout. apply elem_of_app. by left. }
      intros key. destruct (Hkeys key) as [Hnot Hin]. split.
      * intros [Hne Hnin]%not_elem_of_cons.
        by rewrite Hnot, lookup_insert_ne.
      * intros Hel. destruct (decide (key ∈ keys)) as [Hi|Hni].
        -- destruct (Hin Hi) as [?|(Hentry & ? & ?)]; [by left|].
           destruct (decide (key = k)) as [->|Hne]; [congruence|].
           right. by rewrite <- (lookup_insert_ne pydata k key v).
        -- apply elem_of_cons in Hel as [->|?]; [|done].
           left. exists v. by rewrite Hnot, lookup_insert_eq.
    + destruct (IH _ _ Hrun) as [Hout Hkeys]. split.
      { intros line Hl. apply Hout. apply elem_of_app. by left. }
      intros key. destruct (Hkeys key) as [Hnot Hin]. split.
      * intros [Hne Hnin]%not_elem_of_cons. auto.
      * intros Hel. destruct (decide (key ∈ keys)) as [Hi|Hni]; [auto|].
        apply elem_of_cons in Hel as [->|?]; [|done].
        right. split; [done|]. split; [auto|].
        apply Hout, elem_of_app. right. by apply list_elem_of_singleton.
Qed.

End LoadDataProperties.

Lemma assoc_Some_keys (k : string) (d : list (string * value)) v :
  Value.assoc k d = Some v -> k ∈ d.*1.
Proof.
  induction d as [|[k' v'] d IH]; simpl; [done|].
  destruct (decide (k' = k)) as [->|?].
  - intros _. apply elem_of_cons. by left.
  - intros H. apply elem_of_cons. right. auto.
Qed.

Lemma load_data_unfold g loadfilename matdata :
  load_data g loadfilename matdata
  = convert_keys g (filetype_of loadfilename) matdata matdata.*1 ∅ [].
Proof.
  unfold load_data, filetype_of.
  destruct (OsPath.split loadfilename) as [path filename]. simpl.
  by destruct (OsPath.splitext filename) as [filetype ext].
Qed.

(** The entry stored for each kind of key. *)
Lemma entry_of_unitList g filetype matdata :
  entry_of g filetype matdata "unitList"
  = match subscript matdata "unitList" with
    | Ok v => match Value.minus_one v with
              | Ok w => Ok (Some w)
              | Raise e => Raise e
              end
    | Raise e => Raise e
    end.
Proof.
  unfold entry_of, convert_key.
  change (contains "Align" "unitList") with false. cbv iota.
  rewrite decide_False by done. rewrite decide_True by done.
  destruct (subscript matdata "unitList") as [v|]; simpl; [|done].
  destruct (Value.minus_one v); simpl; [|done].
  by rewrite lookup_insert_eq.
Qed.

Lemma entry_of_area g filetype matdata :
  entry_of g filetype matdata "area"
  = match subscript matdata "area" with
    | Ok v => Ok (Some v)
    | Raise e => Raise e
    end.
Proof.
  unfold entry_of, convert_key.
  change (contains "Align" "area") with false. cbv iota.
  rewrite decide_True by done.
  destruct (subscript matdata "area") as [v|]; simpl; [|done].
  by rewrite lookup_insert_eq.
Qed.

Lemma entry_of_align g filetype matdata key :
  contains "Align" key = true ->
  entry_of g filetype matdata key
  = match is_analog_file !! filetype with
    | Some true =>
        m ← subscript matdata key;
        ts ← Value.field m "TimeStamps";
        t ← Value.item2 ts 0 0;
        ss ← Value.field m "Samples";
        s ← Value.item2 ss 0 0;
        mret (Some (Dict [("TimeStamps", t); ("Samples", s)]))
    | Some false => v ← subscript matdata key; mret (Some v)
    | None => Raise (KeyError filetype)
    end.
Proof.
  intros Hkey. unfold entry_of, convert_key. rewrite Hkey.
  destruct (is_analog_file !! filetype) as [[]|]; simpl; [| |done].
  - destruct (subscript matdata key) as [m|]; simpl; [|done].
    destruct (Value.field m "TimeStamps") as [ts|]; simpl; [|done].
    destruct (Value.item2 ts 0 0) as [t|]; simpl; [|done].
    destruct (Value.field m "Samples") as [ss|]; simpl; [|done].
    destruct (Value.item2 ss 0 0) as [s|]; simpl; [|done].
    by rewrite lookup_insert_eq.
  - destruct (subscript matdata key) as [m|]; simpl; [|done].
    by rewrite lookup_insert_eq.
Qed.

Lemma entry_of_other g filetype matdata key :
  contains "Align" key = false -> key <> "area" -> key <> "unitList" ->
  entry_of g filetype matdata key
  = Ok match g key with
       | Some _ => None
       | None => match subscript matdata key with
                 | Ok v => Some v
                 | Raise _ => None
                 end
       end.
Proof.
  intros Hkey Harea Hunit. unfold entry_of, convert_key. rewrite Hkey.
  rewrite !decide_False by done.
  destruct (g key); [by rewrite lookup_empty|].
  destruct (subscript matdata key); [by rewrite lookup_insert_eq|].
  by rewrite lookup_empty.
Qed.

(** Nothing is stored only when the guarded update raised. *)
Lemma entry_of_None g filetype matdata key :
  key ∈ matdata.*1 ->
  entry_of g filetype matdata key = Ok None ->
  is_Some (g key) /\ contains "Align" key = false
  /\ key <> "area" /\ key <> "unitList".
Proof.
  intros [v Hv%assoc_subscript]%assoc_keys.
  destruct (contains "Align" key) eqn:Hkey.
  { rewrite entry_of_align by done. rewrite Hv.
    destruct (is_analog_file !! filetype) as [[]|]; simpl; [|done|done].
    destruct (Value.field v "TimeStamps") as [ts|]; simpl; [|done].
    destruct (Value.item2 ts 0 0) as [t|]; simpl; [|done].
    destruct (Value.field v "Samples") as [ss|]; simpl; [|done].
    by destruct (Value.item2 ss 0 0) as [s|]. }
  destruct (decide (key = "area")) as [->|Harea].
  { by rewrite entry_of_area, Hv. }
  destruct (decide (key = "unitList")) as [->|Hunit].
  { rewrite entry_of_unitList, Hv. by destruct (Value.minus_one v). }
  rewrite entry_of_other, Hv by done.
  destruct (g key); [eauto|done].
Qed.

(** Whether the body raises, and what, does not depend on the guarded
    update. *)
Lemma entry_of_raise g filetype matdata key :
  match entry_of g filetype matdata key,
        entry_of (fun _ => None) filetype matdata key with
  | Ok _, Ok _ => True
  | Raise e, Raise e' => e = e'
  | _, _ => False
  end.
Proof.
  destruct (contains "Align" key) eqn:Hkey.
  { rewrite !entry_of_align by done.
    destruct (is_analog_file !! filetype) as [[]|]; simpl; [| |done].
    - destruct (subscript matdata key) as [m|]; simpl; [|done].
      destruct (Value.field m "TimeStamps") as [ts|]; simpl; [|done].
      destruct (Value.item2 ts 0 0) as [t|]; simpl; [|done].
      destruct (Value.field m "Samples") as [ss|]; simpl; [|done].
      by destruct (Value.item2 ss 0 0) as [s|].
    - by destruct (subscript matdata key) as [m|]. }
  destruct (decide (key = "area")) as [->|Harea].
  { rewrite !entry_of_area. by destruct (subscript matdata "area"). }
  destruct (decide (key = "unitList")) as [->|Hunit].
  { rewrite !entry_of_unitList.
    destruct (subscript matdata "unitList") as [v|]; [|done].
    by destruct (Value.minus_one v). }
  by rewrite !entry_of_other.
Qed.

Lemma convert_keys_raise g filetype matdata keys pydata1 pydata2 stdout1 stdout2 :
  match (convert_keys g filetype matdata keys pydata1 stdout1).2,
        (convert_keys (fun _ => None) filetype matdata keys pydata2 stdout2).2 with
  | Ok _, Ok _ => True
  | Raise e, Raise e' => e = e'
  | _, _ => False
  end.
Proof.
  revert pydata1 pydata2 stdout1 stdout2.
  induction keys as [|k keys IH]; intros pydata1 pydata2 stdout1 stdout2; simpl; [done|].
  rewrite !convert_key_entry.
  pose proof (entry_of_raise g filetype matdata k) as Hk.
  destruct (entry_of g filetype matdata k) as [[v|]|e],
           (entry_of (fun _ => None) filetype matdata k) as [[v'|]|e'];
    simpl; try done; apply IH.
Qed.

Lemma minus_one_Array (elems : list value) :
  Value.minus_one (Array elems)
  = match Value.traverse Value.minus_one elems with
    | Ok elems' => Ok (Array elems')
    | Raise e => Raise e
    end.
Proof. reflexivity. Qed.

Lemma traverse_cons {A B} (f : A -> result B) x l :
  Value.traverse f (x :: l)
  = match f x with
    | Ok y => match Value.traverse f l with
              | Ok ys => Ok (y :: ys)
              | Raise e => Raise e
              end
    | Raise e => Raise e
    end.
Proof. reflexivity. Qed.

(** Within the range of a type, lowering by one wraps around at the least
    number and nowhere else. *)
Lemma wrap_decrement (t : dtype) (z : Z) :
  dtype_min t <= z <= dtype_max t ->
  wrap t (z - 1) = if decide (z = dtype_min t) then dtype_max t else z - 1.
Proof.
  intros Hz. destruct (decide (z = dtype_min t)) as [->|Hne].
  - by destruct t.
  - unfold wrap.
    assert (0 <= z - 1 - dtype_min t < 2 ^ dtype_bits t) as Hsmall.
    { destruct t; unfold dtype_min, dtype_max, dtype_bits, dtype_signed in *;
        simpl in *; lia. }
    rewrite Z.mod_small by done. lia.
Qed.

(** When [v - 1] is defined, it is [v] with every number lowered by one in
    its type. *)
Lemma minus_one_decrement (v w : value) :
  in_range v = true -> Value.minus_one v = Ok w -> w = decrement v.
Proof.
  revert v w. fix IH 1. intros [t z|f|s|elems|fields|entries] w; simpl;
    try congruence.
  { intros [Hlo%Z.leb_le Hhi%Z.leb_le]%andb_true_iff [= <-].
    by rewrite wrap_decrement. }
  intros Hrange.
  change (match Value.traverse Value.minus_one elems with
          | Ok elems' => Ok (Array elems')
          | Raise e0 => Raise e0
          end = Ok w -> w = Array (decrement <$> elems)).
  assert (forall ys, Value.traverse Value.minus_one elems = Ok ys ->
                     ys = decrement <$> elems) as Helems.
  { induction elems as [|x elems IHelems]; intros ys.
    - by intros [= <-].
    - simpl in Hrange. apply andb_true_iff in Hrange as [Hx Hrest].
      rewrite traverse_cons, fmap_cons.
      destruct (Value.minus_one x) as [y|] eqn:Hy; [|done].
      destruct (Value.traverse Value.minus_one elems) as [ys'|]; [|done].
      intros [= <-]. by rewrite (IH x y Hx Hy), (IHelems Hrest ys'). }
  destruct (Value.traverse Value.minus_one elems) as [ys|]; [|done].
  intros [= <-]. by rewrite (Helems ys).
Qed.

(** [v - 1] is defined on the numeric values, and on no other. *)
Lemma minus_one_numeric (v : value) :
  returns (Value.minus_one v) <-> numeric v = true.
Proof.
  revert v. fix IH 1. intros [t z|f|s|elems|fields|entries]; simpl;
    try (split; [by intros [? ?]|done]).
  { split; [done|]. intros _. by eexists. }
  { split; [done|]. intros _. by eexists. }
  change (returns (match Value.traverse Value.minus_one elems with
                   | Ok elems' => Ok (Array elems')
                   | Raise e0 => Raise e0
                   end) <-> forallb numeric elems = true).
  assert (returns (Value.traverse Value.minus_one elems)
          <-> forallb numeric elems = true) as Helems.
  { induction elems as [|x elems IHelems].
    - split; [done|]. intros _. by eexists.
    - rewrite traverse_cons. simpl. rewrite andb_true_iff.
      rewrite <- (IH x), <- IHelems.
      destruct (Value.minus_one x) as [y|e]; simpl.
      + destruct (Value.traverse Value.minus_one elems) as [ys|e].
        * split; [intros _; split; by eexists|intros _; by eexists].
        * split; [by intros [? ?]|by intros [_ [? ?]]].
      + split; [by intros [? ?]|by intros [[? ?] _]]. }
  rewrite <- Helems.
  destruct (Value.traverse Value.minus_one elems) as [ys|e].
  - split; intros _; by eexists.
  - split; by intros [? ?].
Qed.

Lemma entry_of_convertible g filetype matdata key :
  key ∈ matdata.*1 ->
  (returns (entry_of g filetype matdata key) <-> convertible filetype matdata key).
Proof.
  intros [v Hv]%assoc_keys. pose proof (assoc_subscript _ _ _ Hv) as Hsub.
  unfold convertible.
  destruct (contains "Align" key) eqn:Hkey.
  - rewrite entry_of_align, Hsub by done.
    destruct (is_analog_file !! filetype) as [[]|]; simpl.
    + split.
      * intros Hret. split; [|done]. intros _. exists true. split; [done|].
        intros _. exists v.
        destruct (Value.field v "TimeStamps") as [ts|] eqn:Hts; simpl in Hret;
          [|by destruct Hret].
        destruct (Value.item2 ts 0 0) as [t|] eqn:Ht; simpl in Hret;
          [|by destruct Hret].
        destruct (Value.field v "Samples") as [ss|] eqn:Hss; simpl in Hret;
          [|by destruct Hret].
        destruct (Value.item2 ss 0 0) as [s|] eqn:Hs; simpl in Hret;
          [|by destruct Hret].
        by exists ts, t, ss, s.
      * intros [Hal _]. destruct (Hal eq_refl) as (b & [= <-] & Hb).
        destruct (Hb eq_refl) as (v' & ts & t & ss & s & Hv' & Hts & Ht & Hss & Hs).
        rewrite Hv in Hv'. injection Hv' as <-.
        rewrite Hts. simpl. rewrite Ht. simpl. rewrite Hss. simpl. rewrite Hs.
        by eexists.
    + split; [|intros _; by eexists].
      intros _. split; [|done]. intros _. exists false. by split.
    + split; [by intros [? ?]|].
      intros [Hal _]. by destruct (Hal eq_refl) as (b & ? & _).
  - destruct (decide (key = "area")) as [->|Harea].
    { rewrite entry_of_area, Hsub. split; [|intros _; by eexists].
      intros _. by split. }
    destruct (decide (key = "unitList")) as [->|Hunit].
    { rewrite entry_of_unitList, Hsub.
      pose proof (minus_one_numeric v) as Hnum.
      destruct (Value.minus_one v) as [w|e].
      - split; [|intros _; by eexists]. intros _. split; [done|].
        intros _ _. exists v. split; [done|]. apply Hnum. by eexists.
      - split; [by intros [? ?]|]. intros [_ Hu].
        destruct (Hu eq_refl eq_refl) as (v' & Hv' & Hn).
        rewrite Hv in Hv'. injection Hv' as <-.
        by apply Hnum in Hn as [? ?]. }
    rewrite entry_of_other by done. split; [|intros _; by eexists].
    intros _. by split.
Qed.

Lemma convert_keys_returns g filetype matdata keys :
  forall pydata stdout,
    returns (convert_keys g filetype matdata keys pydata stdout).2 <->
    forall key, key ∈ keys -> returns (entry_of g filetype matdata key).
Proof.
  induction keys as [|key keys IH]; intros pydata stdout; simpl.
  { split; [by intros _ ? ?%elem_of_nil|intros _; by eexists]. }
  rewrite convert_key_entry.
  destruct (entry_of g filetype matdata key) as [[v|]|e] eqn:Hkey.
  - rewrite IH. split.
    + intros H k [->|?]%elem_of_cons; [rewrite Hkey; by eexists|auto].
    + intros H k Hk. apply H, elem_of_cons. by right.
  - rewrite IH. split.
    + intros H k [->|?]%elem_of_cons; [rewrite Hkey; by eexists|auto].
    + intros H k Hk. apply H, elem_of_cons. by right.
  - simpl. split; [by intros [? ?]|].
    intros H. destruct (H key) as [? Hret]; [apply elem_of_cons; by left|].
    congruence.
Qed.

(** *** The claims on [load_data] *)

(** A record all of whose keys can be converted gives a dictionary with
    the entry of each key. *)
Lemma load_data_convertible g loadfilename matdata :
  (forall key, key ∈ matdata.*1 ->
               convertible (filetype_of loadfilename) matdata key) ->
  exists stdout pydata,
    load_data g loadfilename matdata = (stdout, Ok pydata) /\
    forall key, key ∈ matdata.*1 ->
      entry_of g (filetype_of loadfilename) matdata key = Ok (pydata !! key).
Proof.
  intros Hconv. rewrite load_data_unfold.
  set (filetype := filetype_of loadfilename) in *.
  destruct (convert_keys g filetype matdata matdata.*1 ∅ [])
    as [stdout [pydata|e]] eqn:Hrun.
  - exists stdout, pydata. split; [done|]. intros key Hkey.
    apply convert_keys_entries in Hrun as [_ Hkeys].
    destruct (Hkeys key) as [_ Hin].
    destruct (Hin Hkey) as [(v & -> & ->)|(-> & -> & _)]; [done|].
    by rewrite lookup_empty.
  - assert (returns (convert_keys g filetype matdata matdata.*1 ∅ []).2)
      as [pydata Hret].
    { apply convert_keys_returns. intros key Hkey.
      apply entry_of_convertible; auto. }
    rewrite Hrun in Hret. discriminate Hret.
Qed.

(** C9, as the code has it. A record all of whose keys can be converted
    gives a dictionary in which [unitList] is the raw value with every
    number lowered by one in its type, and [area] the raw value. A number
    above the least of its type is lowered by one exactly; the least of its
    type becomes the greatest. A [unitList] that is not numeric makes
    [load_data] raise. The record of the specification gives the dictionary
    of the specification, whatever the file is called, with 64-bit integers
    and with doubles. *)
Theorem load_data_unitList_area :
  (forall g loadfilename matdata,
      (forall key, key ∈ matdata.*1 ->
                   convertible (filetype_of loadfilename) matdata key) ->
      exists stdout pydata,
        load_data g loadfilename matdata = (stdout, Ok pydata) /\
        (forall v, Value.assoc "unitList" matdata = Some v ->
                   in_range v = true ->
                   pydata !! "unitList" = Some (decrement v)) /\
        (forall v, Value.assoc "area" matdata = Some v ->
                   pydata !! "area" = Some v)) /\
  (forall t z, dtype_min t < z <= dtype_max t ->
               decrement (Num t z) = Num t (z - 1)) /\
  (forall t, decrement (Num t (dtype_min t)) = Num t (dtype_max t)) /\
  (forall g loadfilename matdata v,
      Value.assoc "unitList" matdata = Some v -> numeric v = false ->
      raises (load_data g loadfilename matdata).2) /\
  (forall g loadfilename,
      load_data g loadfilename
        [("unitList", Array [Int 1; Int 2; Int 3]); ("area", Str "V1")]
      = ([], Ok (<["area" := Str "V1"]>
                   (<["unitList" := Array [Int 0; Int 1; Int 2]]> ∅)))) /\
  (forall g loadfilename,
      load_data g loadfilename
        [("unitList", Array [Float (double 1 0); Float (double 2 0);
                             Float (double 3 0)]);
         ("area", Str "V1")]
      = ([], Ok (<["area" := Str "V1"]>
                   (<["unitList" := Array [Float (double 0 0); Float (double 1 0);
                                           Float (double 2 0)]]> ∅)))).
Proof.
  split; [|split; [|split; [|split; [|split]]]].
  - intros g loadfilename matdata Hconv.
    destruct (load_data_convertible g loadfilename matdata Hconv)
      as (stdout & pydata & Hrun & Hentries).
    exists stdout, pydata. split; [done|]. split.
    + intros v Hv Hrange.
      specialize (Hentries "unitList" (assoc_Some_keys _ _ _ Hv)).
      rewrite entry_of_unitList, (assoc_subscript _ _ _ Hv) in Hentries.
      destruct (Value.minus_one v) as [w|] eqn:Hminus; [|done].
      injection Hentries as <-.
      by rewrite (minus_one_decrement _ _ Hrange Hminus).
    + intros v Hv.
      specialize (Hentries "area" (assoc_Some_keys _ _ _ Hv)).
      rewrite entry_of_area, (assoc_subscript _ _ _ Hv) in Hentries.
      by injection Hentries as <-.
  - intros t z Hz. simpl. by rewrite decide_False by lia.
  - intros t. simpl. by rewrite decide_True.
  - intros g loadfilename matdata v Hv Hnum. rewrite load_data_unfold.
    destruct (convert_keys g (filetype_of loadfilename) matdata matdata.*1 ∅ [])
      as [stdout [pydata|e]] eqn:Hrun; [|by eexists].
    assert (returns (convert_keys g (filetype_of loadfilename) matdata
                       matdata.*1 ∅ []).2) as Hret.
    { rewrite Hrun. by eexists. }
    rewrite convert_keys_returns in Hret.
    specialize (Hret "unitList" (assoc_Some_keys _ _ _ Hv)).
    rewrite entry_of_unitList, (assoc_subscript _ _ _ Hv) in Hret.
    assert (returns (Value.minus_one v)) as Hminus.
    { destruct (Value.minus_one v); [by eexists|by destruct Hret]. }
    apply minus_one_numeric in Hminus. congruence.
  - intros g loadfilename. by rewrite load_data_unfold.
  - intros g loadfilename. rewrite load_data_unfold. by vm_compute.
Qed.

Lemma load_data_unitList_area_witness :
  exists stdout pydata,
    load_data (fun _ => None) "/data/unit.mat"
      [("unitList", Array [Num int16 3; Num int16 (-32768)]); ("area", Str "V1")]
    = (stdout, Ok pydata) /\
    (forall v, Value.assoc "unitList"
                 [("unitList", Array [Num int16 3; Num int16 (-32768)]);
                  ("area", Str "V1")] = Some v ->
               in_range v = true ->
               pydata !! "unitList" = Some (decrement v)) /\
    (forall v, Value.assoc "area"
                 [("unitList", Array [Num int16 3; Num int16 (-32768)]);
                  ("area", Str "V1")] = Some v ->
               pydata !! "area" = Some v).
Proof.
  apply (proj1 load_data_unitList_area (fun _ => None) "/data/unit.mat"
           [("unitList", Array [Num int16 3; Num int16 (-32768)]);
            ("area", Str "V1")]).
  intros key Hkey. split; [|intros _ ->; by eexists].
  apply elem_of_cons in Hkey as [->|Hkey]; [discriminate|].
  apply list_elem_of_singleton in Hkey as ->. discriminate.
Defined.

(** C9 as stated fails: a unit list of unsigned bytes that holds 0. The
    subtraction wraps around, and the entry holds 255 where the claim asks
    for the element lowered by one. Nor is every record mapped: a unit list
    that is a text makes the call raise the type error of the subtraction,
    and so does, with its own error, a key before [unitList] that cannot be
    converted. *)
Lemma load_data_unitList_wraps :
  load_data (fun _ => None) "/data/unit.mat"
    [("unitList", Array [Num uint8 0; Num uint8 1; Num uint8 2]);
     ("area", Str "V1")]
  = ([], Ok (<["area" := Str "V1"]>
               (<["unitList" := Array [Num uint8 255; Num uint8 0; Num uint8 1]]>
                  ∅))) /\
  load_data (fun _ => None) "/data/unit.mat"
    [("unitList", Str "a"); ("area", Str "V1")]
  = ([], Raise TypeError) /\
  load_data (fun _ => None) "/data/spikes.mat"
    [("StimAlign", Int 0); ("unitList", Array [Int 1; Int 2; Int 3])]
  = ([], Raise (KeyError "spikes")).
Proof. repeat split; reflexivity. Qed.

(** C7. Whenever [load_data] returns, every key of the record has an entry
    in the result, unless the guarded update of the last branch raised for
    it: then the key has no entry and its warning was printed. A guarded
    update that raises never ends the loop: [load_data] raises exactly when
    it does without such failures, and returns a dictionary otherwise. *)
Theorem load_data_keeps_keys g loadfilename matdata :
  (forall stdout pydata,
      load_data g loadfilename matdata = (stdout, Ok pydata) ->
      forall key,
        (key ∈ matdata.*1 ->
         (is_Some (pydata !! key) /\
          (contains "Align" key = false -> key <> "area" -> key <> "unitList" ->
           g key = None))
         \/
         (is_Some (g key) /\ contains "Align" key = false /\ key <> "area"
          /\ key <> "unitList" /\ pydata !! key = None
          /\ ("Cannot process " +:+ key) ∈ stdout)) /\
        (key ∉ matdata.*1 -> pydata !! key = None)) /\
  (forall e,
      (load_data g loadfilename matdata).2 = Raise e <->
      (load_data (fun _ => None) loadfilename matdata).2 = Raise e) /\
  (returns (load_data (fun _ => None) loadfilename matdata).2 ->
   returns (load_data g loadfilename matdata).2).
Proof.
  rewrite !load_data_unfold.
  pose proof (convert_keys_raise g (filetype_of loadfilename) matdata matdata.*1
                ∅ ∅ [] []) as Hraise.
  split; [|split].
  - intros stdout pydata Hrun key.
    apply convert_keys_entries in Hrun as [_ Hkeys].
    destruct (Hkeys key) as [Hnot Hin]. split; [|by intros ->%Hnot].
    intros Hkey. destruct (Hin Hkey) as [(v & Hv & Hlook)|(Hnone & Hlook & Hout)].
    + left. split; [by rewrite Hlook|].
      intros Halign Harea Hunit.
      rewrite entry_of_other in Hv by done. by destruct (g key).
    + right. rewrite lookup_empty in Hlook.
      destruct (entry_of_None _ _ _ _ Hkey Hnone) as (? & ? & ? & ?). done.
  - intros e.
    destruct (convert_keys g _ _ _ _ _) as [out1 [pd1|e1]],
             (convert_keys (fun _ => None) _ _ _ _ _) as [out2 [pd2|e2]];
      simpl in *; try done. by subst.
  - intros [pd Hpd].
    destruct (convert_keys g _ _ _ _ _) as [out1 [pd1|e1]],
             (convert_keys (fun _ => None) _ _ _ _ _) as [out2 [pd2|e2]];
      simpl in *; try done. by exists pd1.
Qed.

Lemma load_data_keeps_keys_witness :
  let g := fun key : string =>
             if decide (key = "notes") then Some TypeError else None in
  let matdata := [("notes", Str "x"); ("area", Str "V1")] in
  let stdout := ["Cannot process notes"] in
  let pydata : gmap string value := <["area" := Str "V1"]> ∅ in
  load_data g "/data/unit.mat" matdata = (stdout, Ok pydata) /\
  forall key,
    (key ∈ matdata.*1 ->
     (is_Some (pydata !! key) /\
      (contains "Align" key = false -> key <> "area" -> key <> "unitList" ->
       g key = None))
     \/
     (is_Some (g key) /\ contains "Align" key = false /\ key <> "area"
      /\ key <> "unitList" /\ pydata !! key = None
      /\ ("Cannot process " +:+ key) ∈ stdout)) /\
    (key ∉ matdata.*1 -> pydata !! key = None).
Proof.
  intros g matdata stdout pydata.
  split; [reflexivity|].
  apply (proj1 (load_data_keeps_keys g "/data/unit.mat" matdata) stdout pydata).
  reflexivity.
Defined.

(** *** The file type *)

Lemma rfind_lower c p : -1 <= OsPath.rfind c p.
Proof.
  induction p as [|a p IH]; simpl; [lia|].
  destruct (Z.leb_spec 0 (OsPath.rfind c p)); [lia|].
  destruct (decide (a = c)); lia.
Qed.

Lemma rfind_lookup c p :
  0 <= OsPath.rfind c p ->
  p !! Z.to_nat (OsPath.rfind c p) = Some c.
Proof.
  induction p as [|a p IH]; simpl; [lia|].
  destruct (Z.leb_spec 0 (OsPath.rfind c p)) as [Hr|Hr].
  - intros _. rewrite Z2Nat.inj_add by lia.
    rewrite Nat.add_comm. simpl. auto.
  - destruct (decide (a = c)) as [->|]; [done|lia].
Qed.

(** The root and the extension make up the path, and the extension is
    empty or starts with the dot. *)
Lemma splitext_parts (p : string) :
  let l := list_ascii_of_string p in
  let root := list_ascii_of_string (OsPath.splitext p).1 in
  let ext := list_ascii_of_string (OsPath.splitext p).2 in
  l = root ++ ext /\ (ext = [] \/ exists r, ext = OsPath.extsep :: r).
Proof.
  unfold OsPath.splitext.
  set (l := list_ascii_of_string p).
  destruct (_ && _) eqn:Hcond; simpl.
  - apply andb_true_iff in Hcond as [Hlt%Z.ltb_lt _].
    pose proof (rfind_lower OsPath.sep l).
    pose proof (rfind_lookup OsPath.extsep l ltac:(lia)) as Hdot.
    pose proof (lookup_lt_Some _ _ _ Hdot) as Hlen.
    rewrite !list_ascii_of_string_of_list_ascii.
    rewrite slice_to, slice_from_end by lia.
    split; [by rewrite take_drop|].
    right. exists (drop (S (Z.to_nat (OsPath.rfind OsPath.extsep l))) l).
    by apply drop_S.
  - rewrite app_nil_r. auto.
Qed.

Lemma analog_table_keys (filetype : string) :
  is_Some (is_analog_file !! filetype) ->
  filetype ∈ ["LFP"; "LFPb"; "MUAe"; "NCS"; "CSC"; "hash"; "unit"; "microsaccades"].
Proof.
  unfold is_analog_file. intros [b Hb].
  repeat (rewrite lookup_insert in Hb;
          destruct (decide (_ = filetype)) as [<-|?];
          [set_solver|]).
  by rewrite lookup_empty in Hb.
Qed.

(** On the file types of the table, the part before the first dot of the
    file name is the file type that [load_data] looks up. *)
Lemma known_filetype_category (loadfilename : string) :
  is_Some (is_analog_file !! filetype_of loadfilename) ->
  spec_category loadfilename = filetype_of loadfilename.
Proof.
  intros Hknown%analog_table_keys.
  unfold spec_category, filetype_of in *.
  destruct (splitext_parts (OsPath.split loadfilename).2) as [-> Hext].
  set (root := (OsPath.splitext (OsPath.split loadfilename).2).1) in *.
  set (ext := list_ascii_of_string (OsPath.splitext (OsPath.split loadfilename).2).2) in *.
  clearbody root ext.
  assert (before_first OsPath.extsep ext = []) as Hnone.
  { by destruct Hext as [->|[r ->]]. }
  repeat (apply elem_of_cons in Hknown as [->|Hknown];
          [simpl; by rewrite Hnone|]).
  by apply elem_of_nil in Hknown.
Qed.

(** With two dots in the file name the two differ: the code takes the
    name up to the last dot, and finds no such file type. *)
Lemma filetype_two_dots :
  spec_category "/data/LFP.v2.mat" = "LFP" /\
  filetype_of "/data/LFP.v2.mat" = "LFP.v2" /\
  is_analog_file !! filetype_of "/data/LFP.v2.mat" = None.
Proof. by vm_compute. Qed.

Lemma unknown_category_filetype (loadfilename : string) :
  is_analog_file !! spec_category loadfilename = None ->
  is_analog_file !! filetype_of loadfilename = None.
Proof.
  intros Hnone.
  destruct (is_analog_file !! filetype_of loadfilename) as [b|] eqn:Hb; [|done].
  rewrite known_filetype_category in Hnone by (rewrite Hb; eauto). congruence.
Qed.

(** [v - 1] raises nothing but [TypeError]. *)
Lemma minus_one_TypeError (v : value) (e : exn) :
  Value.minus_one v = Raise e -> e = TypeError.
Proof.
  revert v e. fix IH 1. intros [t z|f|s|elems|fields|entries] e; simpl;
    try congruence.
  change (match Value.traverse Value.minus_one elems with
          | Ok elems' => Ok (Array elems')
          | Raise e0 => Raise e0
          end = Raise e -> e = TypeError).
  assert (forall e', Value.traverse Value.minus_one elems = Raise e' ->
                     e' = TypeError) as Helems.
  { induction elems as [|x elems IHelems]; intros e'; [done|].
    rewrite traverse_cons.
    destruct (Value.minus_one x) as [y|ex] eqn:Hx.
    - destruct (Value.traverse Value.minus_one elems) as [ys|es]; [done|].
      intros [= <-]. by apply IHelems.
    - intros [= <-]. by apply (IH x). }
  destruct (Value.traverse Value.minus_one elems) as [ys|es]; [done|].
  intros [= <-]. by apply Helems.
Qed.

Lemma item2_item (v : value) (i j : Z) (x : value) :
  Value.item2 v i j = Ok x ->
  (row ← Value.item v i; Value.item row j) = Ok x.
Proof.
  destruct v as [t z|f|s|elems|fields|entries]; simpl; try done.
  destruct (Py.index elems i) as [row|]; simpl; [|done].
  by destruct row.
Qed.

(** C2, as the code has it. The file type is the file name up to its last
    dot. On a record all of whose keys can be converted, [load_data]
    returns a dictionary in which, for an analog file type, every key that
    contains "Align" has a new dictionary with the items at [0][0] of the
    fields [TimeStamps] and [Samples] of the raw value, and for the other
    file types of the table the raw value itself. For the file types of the
    table the part of the file name before its first dot is that same file
    type. *)
Theorem load_data_align_keys g loadfilename matdata :
  (forall key, key ∈ matdata.*1 ->
               convertible (filetype_of loadfilename) matdata key) ->
  (exists stdout pydata,
     load_data g loadfilename matdata = (stdout, Ok pydata) /\
     forall key v,
       contains "Align" key = true ->
       Value.assoc key matdata = Some v ->
       (filetype_of loadfilename ∈ ["LFP"; "LFPb"; "MUAe"; "NCS"; "CSC"] ->
        exists ts t ss s,
          Value.field v "TimeStamps" = Ok ts /\
          (row ← Value.item ts 0; Value.item row 0) = Ok t /\
          Value.field v "Samples" = Ok ss /\
          (row ← Value.item ss 0; Value.item row 0) = Ok s /\
          pydata !! key = Some (Dict [("TimeStamps", t); ("Samples", s)])) /\
       (filetype_of loadfilename ∈ ["hash"; "unit"; "microsaccades"] ->
        pydata !! key = Some v)) /\
  (is_Some (is_analog_file !! filetype_of loadfilename) ->
   spec_category loadfilename = filetype_of loadfilename).
Proof.
  intros Hconv. split; [|apply known_filetype_category].
  destruct (load_data_convertible g loadfilename matdata Hconv)
    as (stdout & pydata & Hrun & Hentries).
  exists stdout, pydata. split; [done|].
  intros key v Hkey Hv.
  pose proof (assoc_subscript _ _ _ Hv) as Hsub.
  specialize (Hentries key (assoc_Some_keys _ _ _ Hv)).
  rewrite entry_of_align in Hentries by done.
  split.
  - intros Hft.
    assert (is_analog_file !! filetype_of loadfilename = Some true) as Htable.
    { repeat (apply elem_of_cons in Hft as [->|Hft]; [done|]).
      by apply elem_of_nil in Hft. }
    rewrite Htable, Hsub in Hentries. simpl in Hentries.
    destruct (Value.field v "TimeStamps") as [ts|]; simpl in Hentries; [|done].
    destruct (Value.item2 ts 0 0) as [t|] eqn:Ht; simpl in Hentries; [|done].
    destruct (Value.field v "Samples") as [ss|]; simpl in Hentries; [|done].
    destruct (Value.item2 ss 0 0) as [s0|] eqn:Hs; simpl in Hentries; [|done].
    injection Hentries as <-.
    exists ts, t, ss, s0.
    by rewrite (item2_item _ _ _ _ Ht), (item2_item _ _ _ _ Hs).
  - intros Hft.
    assert (is_analog_file !! filetype_of loadfilename = Some false) as Htable.
    { repeat (apply elem_of_cons in Hft as [->|Hft]; [done|]).
      by apply elem_of_nil in Hft. }
    rewrite Htable, Hsub in Hentries. simpl in Hentries.
    by injection Hentries as <-.
Qed.

Lemma load_data_align_keys_witness :
  let raw := Struct [("TimeStamps", Array [Array [Array [Int 0; Int 1]]]);
                     ("Samples", Array [Array [Array [Int 5; Int 7]]])] in
  let matdata := [("StimAlign", raw); ("area", Str "V1")] in
  load_data (fun _ => None) "/data/LFP.mat" matdata
  = ([], Ok (<["area" := Str "V1"]>
               (<["StimAlign" := Dict [("TimeStamps", Array [Int 0; Int 1]);
                                       ("Samples", Array [Int 5; Int 7])]]> ∅))) /\
  (exists stdout pydata,
     load_data (fun _ => None) "/data/LFP.mat" matdata = (stdout, Ok pydata) /\
     forall key v,
       contains "Align" key = true ->
       Value.assoc key matdata = Some v ->
       (filetype_of "/data/LFP.mat" ∈ ["LFP"; "LFPb"; "MUAe"; "NCS"; "CSC"] ->
        exists ts t ss s,
          Value.field v "TimeStamps" = Ok ts /\
          (row ← Value.item ts 0; Value.item row 0) = Ok t /\
          Value.field v "Samples" = Ok ss /\
          (row ← Value.item ss 0; Value.item row 0) = Ok s /\
          pydata !! key = Some (Dict [("TimeStamps", t); ("Samples", s)])) /\
       (filetype_of "/data/LFP.mat" ∈ ["hash"; "unit"; "microsaccades"] ->
        pydata !! key = Some v)).
Proof.
  intros raw matdata. split; [reflexivity|].
  apply (load_data_align_keys (fun _ => None) "/data/LFP.mat" matdata).
  intros key Hkey.
  apply elem_of_cons in Hkey as [->|Hkey].
  - split; [|discriminate]. intros _. exists true. split; [reflexivity|].
    intros _. exists raw. eexists _, _, _, _.
    repeat split; reflexivity.
  - apply list_elem_of_singleton in Hkey as ->.
    split; [discriminate|]. intros _. discriminate.
Defined.

(** C2 as stated fails: a file of the analog category [LFP], in the
    specification's wording the part of the file name before its first
    dot, with a further dot in its name. The code takes the name up to the
    last dot, finds no such file type and raises the lookup error on the
    "Align" key instead of storing the nested entry. Nor is every record of
    an analog file mapped: an "Align" value without the two fields makes
    the call raise, and so does a unit list that is a text and comes
    first. *)
Lemma load_data_align_two_dots :
  let raw := Struct [("TimeStamps", Array [Array [Array [Int 0; Int 1]]]);
                     ("Samples", Array [Array [Array [Int 5; Int 7]]])] in
  spec_category "/data/LFP.v2.mat" = "LFP" /\
  is_analog_file !! "LFP" = Some true /\
  contains "Align" "StimAlign" = true /\
  load_data (fun _ => None) "/data/LFP.v2.mat" [("StimAlign", raw)]
  = ([], Raise (KeyError "LFP.v2")) /\
  load_data (fun _ => None) "/data/LFP.mat" [("StimAlign", Int 0)]
  = ([], Raise IndexError) /\
  load_data (fun _ => None) "/data/LFP.mat"
    [("unitList", Str "a"); ("StimAlign", raw)]
  = ([], Raise TypeError).
Proof. by vm_compute. Qed.

(** *** Unknown file types *)

Lemma convert_keys_unknown g filetype matdata keys pydata stdout :
  is_analog_file !! filetype = None ->
  (forall key, key ∈ keys -> key ∈ matdata.*1) ->
  (exists key, key ∈ keys /\ contains "Align" key = true) ->
  (convert_keys g filetype matdata keys pydata stdout).2
  = Raise (KeyError filetype) \/
  exists v, Value.assoc "unitList" matdata = Some v /\
            Value.minus_one v = Raise TypeError /\
            (convert_keys g filetype matdata keys pydata stdout).2
            = Raise TypeError.
Proof.
  intros Htable. revert pydata stdout.
  induction keys as [|k keys IH]; intros pydata stdout Hkeys (key & Hin & Hkey).
  { by apply elem_of_nil in Hin. }
  simpl. rewrite convert_key_entry.
  destruct (contains "Align" k) eqn:Hk.
  { rewrite entry_of_align, Htable by done. by left. }
  assert (exists key, key ∈ keys /\ contains "Align" key = true) as Hrest.
  { apply elem_of_cons in Hin as [->|?]; [congruence|eauto]. }
  assert (forall key, key ∈ keys -> key ∈ matdata.*1) as Hkeys'.
  { intros ? ?. apply Hkeys, elem_of_cons. by right. }
  destruct (assoc_keys k matdata) as [v Hv].
  { apply Hkeys, elem_of_cons. by left. }
  destruct (decide (k = "area")) as [->|Harea].
  { rewrite entry_of_area, (assoc_subscript _ _ _ Hv). simpl. exact (IH _ _ Hkeys' Hrest). }
  destruct (decide (k = "unitList")) as [->|Hunit].
  { rewrite entry_of_unitList, (assoc_subscript _ _ _ Hv).
    destruct (Value.minus_one v) as [w|e] eqn:Hw; simpl; [exact (IH _ _ Hkeys' Hrest)|].
    pose proof (minus_one_TypeError _ _ Hw) as ->.
    right. by exists v. }
  rewrite entry_of_other by done.
  destruct (g k); simpl; [exact (IH _ _ Hkeys' Hrest)|].
  rewrite (assoc_subscript _ _ _ Hv). simpl. exact (IH _ _ Hkeys' Hrest).
Qed.

(** C5, as the code has it. With a key that contains "Align" and a file
    name whose part before the first dot is not in the table, [load_data]
    returns no dictionary: it raises the lookup error of the file type,
    unless the subtraction on [unitList] has raised a type error before the
    loop reached the key. *)
Theorem load_data_unknown_category g loadfilename matdata :
  (exists key, key ∈ matdata.*1 /\ contains "Align" key = true) ->
  is_analog_file !! spec_category loadfilename = None ->
  let r := (load_data g loadfilename matdata).2 in
  r = Raise (KeyError (filetype_of loadfilename)) \/
  exists v, Value.assoc "unitList" matdata = Some v /\
            Value.minus_one v = Raise TypeError /\ r = Raise TypeError.
Proof.
  intros Hkey Hcat%unknown_category_filetype.
  rewrite load_data_unfold. by apply convert_keys_unknown.
Qed.

Lemma load_data_unknown_category_witness :
  (load_data (fun _ => None) "/data/spikes.v2.mat"
     [("area", Str "V1"); ("StimAlign", Int 0)]).2
  = Raise (KeyError "spikes.v2").
Proof.
  destruct (load_data_unknown_category (fun _ => None) "/data/spikes.v2.mat"
              [("area", Str "V1"); ("StimAlign", Int 0)])
    as [H|(v & Hv & _)].
  - exists "StimAlign". split; [set_solver|reflexivity].
  - reflexivity.
  - exact H.
  - discriminate Hv.
Defined.

(** C5 as stated fails: [unitList] holds text and comes before the key
    that contains "Align"; the file type is not in the table. The call
    raises the type error of the subtraction, not the lookup error. *)
Lemma load_data_unknown_category_type_error :
  let matdata := [("unitList", Str "a"); ("StimAlign", Int 0)] in
  "StimAlign" ∈ matdata.*1 /\
  contains "Align" "StimAlign" = true /\
  is_analog_file !! spec_category "/data/spikes.mat" = None /\
  load_data (fun _ => None) "/data/spikes.mat" matdata = ([], Raise TypeError).
Proof.
  simpl. split; [set_solver|]. split; [reflexivity|]. split; reflexivity.
Qed.
(** ** [load_trialdata] *)

(** Reading off a chain of binds that returned. *)
Ltac bind_inv H :=
  repeat match type of H with
         | mbind _ ?m = Ok _ =>
             let E := fresh "Hread" in
             destruct m eqn:E; simpl in H; [|discriminate H]
         end.

Lemma index_inv {A} (l : list A) (i : nat) (x : A) :
  Py.index l (Z.of_nat i) = Ok x -> l !! i = Some x.
Proof.
  unfold Py.index. destruct (Z.ltb_spec (Z.of_nat i) 0); [lia|].
  destruct (_ && _); [|done]. rewrite Nat2Z.id.
  destruct (l !! i); [|done]. by intros [= ->].
Qed.

Lemma index_fmap {A B} (f : A -> B) (l : list A) (i : Z) :
  Py.index (f <$> l) i = (x ← Py.index l i; mret (f x)).
Proof.
  unfold Py.index. rewrite length_fmap, list_lookup_fmap.
  destruct (_ && _); [|done]. by destruct (l !! _).
Qed.

(** A function applied along a list returns when it returns on every
    entry, and raises what it raises on the first entry on which it does
    not return. *)
Lemma traverse_returns {A B} (f : A -> result B) (l : list A) :
  returns (Value.traverse f l) <-> forall x, x ∈ l -> returns (f x).
Proof.
  induction l as [|x l IH].
  - split; [by intros _ ? ?%elem_of_nil|intros _; by eexists].
  - rewrite traverse_cons. split.
    + intros Hret y [->|Hy]%elem_of_cons.
      * destruct (f x); [by eexists|by destruct Hret].
      * apply IH; [|done]. destruct (f x); [|by destruct Hret].
        destruct (Value.traverse f l); [by eexists|by destruct Hret].
    + intros Hall.
      destruct (Hall x) as [y ->]; [apply elem_of_cons; by left|].
      destruct (proj2 IH) as [ys ->]; [|by eexists].
      intros z Hz. apply Hall, elem_of_cons. by right.
Qed.

Lemma traverse_first_error {A B} (f : A -> result B) (l1 l2 : list A) x e :
  (forall y, y ∈ l1 -> returns (f y)) ->
  f x = Raise e ->
  Value.traverse f (l1 ++ x :: l2) = Raise e.
Proof.
  intros Hbefore Hx. induction l1 as [|y l1 IH].
  - by rewrite app_nil_l, traverse_cons, Hx.
  - rewrite <- app_comm_cons, traverse_cons.
    destruct (Hbefore y) as [z ->]; [apply elem_of_cons; by left|].
    rewrite IH; [done|]. intros z' Hz'. apply Hbefore, elem_of_cons. by right.
Qed.

(** What [int] reads and what it refuses. *)
Lemma int_of_text :
  Py.int "5" = Some 5 /\ Py.int " 12 " = Some 12 /\ Py.int "-3" = Some (-3) /\
  Py.int "+1_000" = Some 1000 /\ Py.int "007" = Some 7 /\
  Py.int "4.5" = None /\ Py.int "" = None /\ Py.int "x" = None /\
  Py.int "1__0" = None /\ Py.int "- 3" = None.
Proof. repeat split; reflexivity. Qed.

(** The integer part of a double is taken towards zero. *)
Lemma truncate_towards_zero :
  truncate (double 19 (-2)) = Some 4 /\ truncate (double (-19) (-2)) = Some (-4) /\
  truncate (double 3 (-2)) = Some 0 /\ truncate (double 7 0) = Some 7 /\
  truncate (double 3 70) = Some (3 * 2 ^ 70) /\ truncate S754_nan = None.
Proof. repeat split; by vm_compute. Qed.

Section TrialProperties.

Variable out_of_range : value -> result Z.

(** One round of the loop returns, or raises, as the reading of the twelve
    fields in their order does. *)
Lemma read_trial_outcome matdata st itrial :
  match read_trial out_of_range matdata st itrial,
        Value.traverse (field_read out_of_range matdata itrial) (seq 0 12) with
  | Ok _, Ok _ => True
  | Raise e, Raise e' => e = e'
  | _, _ => False
  end.
Proof.
  unfold read_trial.
  change (seq 0 12) with [0; 1; 2; 3; 4; 5; 6; 7; 8; 9; 10; 11]%nat.
  rewrite !traverse_cons.
  unfold field_read, mbind, result_bind, mret, result_ret. simpl.
  repeat match goal with
         | |- context [Z.of_nat ?n] =>
             let z := eval vm_compute in (Z.of_nat n) in
             change (Z.of_nat n) with z
         end.
  repeat match goal with
         | |- context [trial_field matdata itrial ?k] =>
             destruct (trial_field matdata itrial k); [|done]
         | |- context [trial_scalar matdata itrial ?k] =>
             destruct (trial_scalar matdata itrial k); [|done]
         | |- context [to_int out_of_range ?x] =>
             destruct (to_int out_of_range x); [|done]
         end.
  done.
Qed.

Lemma read_trial_returns matdata st itrial :
  returns (read_trial out_of_range matdata st itrial) <->
  forall k, (k < 12)%nat -> returns (field_read out_of_range matdata itrial k).
Proof.
  pose proof (read_trial_outcome matdata st itrial) as Hout.
  pose proof (traverse_returns (field_read out_of_range matdata itrial) (seq 0 12))
    as Hall.
  assert (returns (read_trial out_of_range matdata st itrial) <->
          returns (Value.traverse (field_read out_of_range matdata itrial)
                     (seq 0 12))) as ->.
  { destruct (read_trial out_of_range matdata st itrial),
             (Value.traverse (field_read out_of_range matdata itrial) (seq 0 12));
      try done.
    - split; intros _; by eexists.
    - split; by intros [? ?]. }
  rewrite Hall. split.
  - intros H k Hk. apply H, elem_of_seq. lia.
  - intros H k [_ Hk]%elem_of_seq. apply H. lia.
Qed.

(** The loop stops on the first field that cannot be read, with the
    exception of that field. *)
Lemma read_trial_first_error matdata st itrial (k0 : nat) e :
  (k0 < 12)%nat ->
  (forall k, (k < k0)%nat -> returns (field_read out_of_range matdata itrial k)) ->
  field_read out_of_range matdata itrial k0 = Raise e ->
  read_trial out_of_range matdata st itrial = Raise e.
Proof.
  intros Hk0 Hbefore Hraise.
  pose proof (read_trial_outcome matdata st itrial) as Hout.
  assert (Value.traverse (field_read out_of_range matdata itrial) (seq 0 12)
          = Raise e) as Htr.
  { replace 12%nat with (k0 + S (11 - k0))%nat by lia.
    rewrite seq_app. simpl.
    apply traverse_first_error; [|done].
    intros k [_ Hk]%elem_of_seq. apply Hbefore. lia. }
  rewrite Htr in Hout.
  destruct (read_trial out_of_range matdata st itrial); [done|by subst].
Qed.

(** *** The fields of a trial *)

Lemma item_positional trial fs (k : Z) :
  positional_fields trial = Some fs -> Value.item trial k = Py.index fs k.
Proof.
  destruct trial; simpl; try done; intros [= <-]; [|done..].
  by rewrite index_fmap.
Qed.

Lemma item_positional_None trial (k : Z) :
  positional_fields trial = None -> raises (Value.item trial k).
Proof. destruct trial; simpl; try done; intros _; by eexists. Qed.

Lemma trial_field_lookup trials (i : nat) trial fs (k : nat) f :
  trials !! i = Some trial ->
  positional_fields trial = Some fs ->
  fs !! k = Some f ->
  trial_field (Array trials) i (Z.of_nat k) = Ok f.
Proof.
  intros Hi Hfs Hk. unfold trial_field. simpl.
  rewrite (index_lookup _ _ _ Hi). simpl.
  rewrite (item_positional _ _ _ Hfs). by apply index_lookup.
Qed.

Lemma trial_field_beyond trials (i : nat) trial fs (k : nat) :
  trials !! i = Some trial ->
  positional_fields trial = Some fs ->
  (length fs <= k)%nat ->
  trial_field (Array trials) i (Z.of_nat k) = Raise IndexError.
Proof.
  intros Hi Hfs Hk. unfold trial_field. simpl.
  rewrite (index_lookup _ _ _ Hi). simpl.
  rewrite (item_positional _ _ _ Hfs). apply index_beyond. lia.
Qed.

Lemma trial_field_inv trials (i k : nat) f :
  trial_field (Array trials) i (Z.of_nat k) = Ok f ->
  exists trial fs,
    trials !! i = Some trial /\ positional_fields trial = Some fs /\
    fs !! k = Some f.
Proof.
  unfold trial_field. simpl.
  destruct (Py.index trials (Z.of_nat i)) as [trial|] eqn:Hi; simpl; [|done].
  apply index_inv in Hi. intros Hf.
  destruct (positional_fields trial) as [fs|] eqn:Hfs.
  - exists trial, fs. split; [done|]. split; [done|].
    rewrite (item_positional _ _ _ Hfs) in Hf. by apply index_inv.
  - destruct (item_positional_None trial (Z.of_nat k) Hfs) as [e He].
    congruence.
Qed.

(** What the loop reads from a field that is there, and from one that is
    not. *)
Lemma field_read_present trials (i : nat) trial fs (k : nat) f :
  trials !! i = Some trial ->
  positional_fields trial = Some fs ->
  fs !! k = Some f ->
  field_read out_of_range (Array trials) i k
  = if (k <? 2)%nat then Ok f
    else v ← (f0 ← Value.item f 0; Value.item f0 0);
         z ← to_int out_of_range v; mret (Int z).
Proof.
  intros Hi Hfs Hk. unfold field_read, trial_scalar.
  rewrite (trial_field_lookup _ _ _ _ _ _ Hi Hfs Hk).
  destruct (k <? 2)%nat; [done|]. simpl.
  destruct (Value.item f 0) as [f0|]; simpl; [|done].
  by destruct (Value.item f0 0).
Qed.

Lemma field_read_beyond trials (i : nat) trial fs (k : nat) :
  trials !! i = Some trial ->
  positional_fields trial = Some fs ->
  (length fs <= k)%nat ->
  field_read out_of_range (Array trials) i k = Raise IndexError.
Proof.
  intros Hi Hfs Hk. unfold field_read, trial_scalar.
  rewrite (trial_field_beyond _ _ _ _ _ Hi Hfs Hk).
  by destruct (k <? 2)%nat.
Qed.

Lemma field_read_stored trials (i : nat) trial fs (k : nat) f :
  trials !! i = Some trial ->
  positional_fields trial = Some fs ->
  fs !! k = Some f ->
  ((k < 2)%nat \/ field_stored out_of_range f) ->
  returns (field_read out_of_range (Array trials) i k).
Proof.
  intros Hi Hfs Hk Hst. rewrite (field_read_present _ _ _ _ _ _ Hi Hfs Hk).
  destruct (Nat.ltb_spec k 2); [by eexists|].
  destruct Hst as [?|(v & -> & [z Hz])]; [lia|]. simpl. rewrite Hz. by eexists.
Qed.

Lemma field_read_inv trials (i k : nat) :
  returns (field_read out_of_range (Array trials) i k) ->
  exists trial fs f,
    trials !! i = Some trial /\ positional_fields trial = Some fs /\
    fs !! k = Some f /\
    ((2 <= k)%nat -> field_stored out_of_range f).
Proof.
  intros [x Hx]. unfold field_read in Hx.
  assert (exists f, trial_field (Array trials) i (Z.of_nat k) = Ok f /\
                    ((2 <= k)%nat -> field_stored out_of_range f))
    as (f & Hf & Hst).
  { destruct (Nat.ltb_spec k 2).
    - exists x. split; [done|]. lia.
    - unfold trial_scalar in Hx.
      destruct (trial_field (Array trials) i (Z.of_nat k)) as [f|]; simpl in Hx;
        [|done].
      exists f. split; [done|]. intros _. unfold field_stored.
      destruct (Value.item f 0) as [f0|]; simpl in *; [|done].
      destruct (Value.item f0 0) as [v|]; simpl in *; [|done].
      exists v. split; [done|].
      destruct (to_int out_of_range v); [by eexists|done]. }
  destruct (trial_field_inv _ _ _ _ Hf) as (trial & fs & ? & ? & ?).
  by exists trial, fs, f.
Qed.

(** A trial record that is in order is read, whatever the lists hold, and
    no other is. *)
Lemma read_trial_ok trials (i : nat) st :
  returns (read_trial out_of_range (Array trials) st i) <->
  exists trial, trials !! i = Some trial /\ trial_ok out_of_range trial.
Proof.
  rewrite read_trial_returns. split.
  - intros Hall.
    destruct (field_read_inv _ _ _ (Hall 11%nat ltac:(lia)))
      as (trial & fs & f11 & Hi & Hfs & H11 & _).
    exists trial. split; [done|]. exists fs. split; [done|]. split.
    { apply lookup_lt_Some in H11. lia. }
    intros k Hk.
    destruct (field_read_inv _ _ _ (Hall k ltac:(lia)))
      as (trial' & fs' & f & Hi' & Hfs' & Hf & Hst).
    rewrite Hi in Hi'. injection Hi' as <-.
    rewrite Hfs in Hfs'. injection Hfs' as <-.
    exists f. split; [done|]. apply Hst. lia.
  - intros (trial & Hi & fs & Hfs & Hlen & Hscalars) k Hk.
    destruct (lookup_lt_is_Some_2 fs k) as [f Hf]; [lia|].
    apply (field_read_stored _ _ _ _ _ _ Hi Hfs Hf).
    destruct (Nat.ltb_spec k 2); [by left|right].
    destruct (Hscalars k ltac:(lia)) as (f' & Hf' & Hst). congruence.
Qed.

(** A trial record of fewer than twelve fields stops the loop; when the
    fields that it has are stored, with the index error of the first
    field that it lacks. *)
Lemma read_trial_short trials (i : nat) trial st :
  trials !! i = Some trial -> trial_short trial ->
  raises (read_trial out_of_range (Array trials) st i).
Proof.
  intros Hi (fs & Hfs & Hlen).
  destruct (read_trial out_of_range (Array trials) st i) as [st'|e] eqn:Hread;
    [|by eexists].
  assert (returns (read_trial out_of_range (Array trials) st i)) as Hret.
  { rewrite Hread. by eexists. }
  apply read_trial_ok in Hret as (trial' & Hi' & fs' & Hfs' & Hlen' & _).
  rewrite Hi in Hi'. injection Hi' as <-.
  rewrite Hfs in Hfs'. injection Hfs' as <-. lia.
Qed.

Lemma read_trial_short_index trials (i : nat) trial st :
  trials !! i = Some trial -> trial_short trial ->
  trial_readable out_of_range trial ->
  read_trial out_of_range (Array trials) st i = Raise IndexError.
Proof.
  intros Hi (fs & Hfs & Hlen) (fs' & Hfs' & Hst).
  rewrite Hfs in Hfs'. injection Hfs' as <-.
  apply (read_trial_first_error _ _ _ (length fs)); [done| |].
  - intros k Hk.
    destruct (lookup_lt_is_Some_2 fs k) as [f Hf]; [lia|].
    apply (field_read_stored _ _ _ _ _ _ Hi Hfs Hf).
    destruct (Nat.ltb_spec k 2); [by left|right].
    apply (Hst k); [lia|done].
  - by apply (field_read_beyond _ _ _ _ _ Hi Hfs).
Qed.

Lemma read_trial_inv matdata st itrial st' :
  read_trial out_of_range matdata st itrial = Ok st' ->
  exists c,
    (trial_scalar matdata itrial 3 ≫= to_int out_of_range) = Ok c /\
    cond st' = <[itrial := c]> (cond st) /\
    forall n, locals_length n st -> locals_length n st'.
Proof.
  intros H. unfold read_trial in H. bind_inv H.
  injection H as <-. eexists. split; [done|]. split; [done|].
  unfold locals_length. simpl. by rewrite !length_insert.
Qed.

Lemma init_locals_length n : locals_length n (init_locals n).
Proof.
  unfold locals_length, init_locals, zeros. simpl.
  by rewrite !length_replicate.
Qed.

(** After the loop the lists have kept their length, and the condition
    number of every trial of the range is the one read from its record. *)
Lemma read_trials_inv matdata range : forall st st',
  read_trials out_of_range matdata st range = Ok st' ->
  (forall n, locals_length n st -> locals_length n st') /\
  (forall i, i ∉ range -> cond st' !! i = cond st !! i) /\
  (forall i, i ∈ range -> (i < length (cond st))%nat ->
     exists c, (trial_scalar matdata i 3 ≫= to_int out_of_range) = Ok c /\
               cond st' !! i = Some c).
Proof.
  induction range as [|j range IH]; intros st st' H; simpl in H.
  - injection H as <-. split; [done|]. split; [done|].
    by intros i ?%elem_of_nil.
  - destruct (read_trial out_of_range matdata st j) as [st1|] eqn:Hj;
      simpl in H; [|done].
    apply read_trial_inv in Hj as (c & Hc & Hcond & Hlen).
    destruct (IH _ _ H) as (Hlen' & Hout & Hin).
    split; [auto|]. split.
    + intros i [Hne Hnot]%not_elem_of_cons.
      rewrite Hout, Hcond by done. by rewrite list_lookup_insert_ne.
    + intros i Hi Hlt. destruct (decide (i ∈ range)) as [Hr|Hr].
      * apply Hin; [done|]. by rewrite Hcond, length_insert.
      * apply elem_of_cons in Hi as [->|?]; [|done].
        exists c. split; [done|].
        rewrite Hout, Hcond by done. by apply list_lookup_insert_eq.
Qed.

(** The loop over the trials returns exactly when every trial of the range
    is in order. *)
Lemma read_trials_ok trials range : forall st,
  returns (read_trials out_of_range (Array trials) st range) <->
  forall i, i ∈ range ->
    exists trial, trials !! i = Some trial /\ trial_ok out_of_range trial.
Proof.
  induction range as [|i range IH]; intros st; simpl.
  { split; [by intros _ ? ?%elem_of_nil|intros _; by eexists]. }
  pose proof (read_trial_ok trials i st) as Hhead.
  destruct (read_trial out_of_range (Array trials) st i) as [st'|e]; simpl.
  - rewrite IH. split.
    + intros Hrest j [->|?]%elem_of_cons; [|auto].
      apply Hhead. by eexists.
    + intros Hall j Hj. apply Hall, elem_of_cons. by right.
  - split; [by intros [? ?]|].
    intros Hall. destruct (proj2 Hhead) as [? ?]; [|done].
    apply Hall, elem_of_cons. by left.
Qed.

(** With trial records whose fields are stored as far as they are there,
    the loop stops on the first record that is too short, with an index
    error. *)
Lemma read_trials_short trials range : forall st,
  (forall i, i ∈ range ->
     exists trial, trials !! i = Some trial /\
                   trial_readable out_of_range trial) ->
  (exists i trial, i ∈ range /\ trials !! i = Some trial /\ trial_short trial) ->
  read_trials out_of_range (Array trials) st range = Raise IndexError.
Proof.
  induction range as [|j range IH]; intros st Hread (i & trial & Hi & Htrial & Hshort).
  { by apply elem_of_nil in Hi. }
  simpl.
  destruct (Hread j) as (tj & Hj & Hrj); [apply elem_of_cons; by left|].
  pose proof Hrj as (fs & Hfs & Hst).
  destruct (decide (length fs < 12)%nat) as [Hlen|Hlen].
  - rewrite (read_trial_short_index _ _ tj); [done|done| |done].
    by exists fs.
  - destruct (proj2 (read_trial_ok trials j st)) as [st' ->].
    { exists tj. split; [done|]. exists fs. split; [done|]. split; [lia|].
      intros k Hk. destruct (lookup_lt_is_Some_2 fs k) as [f Hf]; [lia|].
      exists f. split; [done|]. by apply (Hst k). }
    simpl. apply IH.
    + intros k Hk. apply Hread, elem_of_cons. by right.
    + exists i, trial. split; [|done].
      apply elem_of_cons in Hi as [->|?]; [|done].
      rewrite Hj in Htrial. injection Htrial as <-.
      destruct Hshort as (fs' & Hfs' & Hlen').
      rewrite Hfs in Hfs'. injection Hfs' as <-. lia.
Qed.

Lemma read_trials_raises matdata range : forall st,
  (exists i, i ∈ range /\
             forall st', raises (read_trial out_of_range matdata st' i)) ->
  raises (read_trials out_of_range matdata st range).
Proof.
  induction range as [|j range IH]; intros st (i & Hi & Hraise).
  { by apply elem_of_nil in Hi. }
  simpl. destruct (read_trial out_of_range matdata st j) as [st1|e] eqn:Hj; simpl;
    [|by eexists].
  apply IH. exists i. split; [|done].
  apply elem_of_cons in Hi as [->|?]; [|done].
  destruct (Hraise st) as [e He]. congruence.
Qed.

(** The masks of [define_attend] give the attention condition of the
    specification, trial by trial. *)
Lemma define_attend_spec (conds : list Z) :
  define_attend (length conds) conds = Ok (attend_of_cond <$> conds).
Proof.
  unfold define_attend, logical_or, assign_mask, equals, zeros.
  repeat (rewrite decide_True
            by (rewrite ?length_zip_with, ?length_fmap, ?length_replicate,
                  ?Nat.min_id; done);
          simpl).
  f_equal. apply list_eq. intros i.
  rewrite !lookup_zip_with, !list_lookup_fmap.
  destruct (conds !! i) as [c|] eqn:Hc; simpl.
  - rewrite lookup_replicate_2 by (by eapply lookup_lt_Some). simpl.
    f_equal. unfold attend_of_cond.
    repeat case_bool_decide; repeat case_decide; simpl; lia.
  - by destruct (replicate (length conds) 0 !! i).
Qed.

Lemma trial_frame_built n st :
  locals_length n st ->
  define_attend n (cond st) ≫= (fun attend =>
    DataFrame [
      ("trial_ID", IntColumn (trial_ID st));
      ("attend", IntColumn attend);
      ("cond", IntColumn (cond st));
      ("RT_evnt", IntColumn (RT_evnt st));
      ("RT_EPP", IntColumn (RT_EPP st));
      ("target_dim", IntColumn (target_dim st));
      ("rf_dim", IntColumn (rf_dim st));
      ("position_RF", IntColumn (position_RF st));
      ("position_out1", IntColumn (position_out1 st));
      ("position_out2", IntColumn (position_out2 st));
      ("fixbreak", IntColumn (fixbreak st));
      ("CTX_events", ObjColumn (CTX_events st));
      ("NLX_events", ObjColumn (NLX_events st))
    ]) = Ok (trial_frame n st).
Proof.
  intros (H1 & H2 & H3 & H4 & H5 & H6 & H7 & H8 & H9 & H10 & H11 & H12).
  rewrite <- H3 at 1. rewrite define_attend_spec. simpl.
  unfold DataFrame, trial_frame. simpl.
  rewrite length_fmap, H1, H2, H3, H4, H5, H6, H7, H8, H9, H10, H11, H12.
  by rewrite !bool_decide_eq_true_2.
Qed.

(** [load_trialdata] on a record with the trials [matdata']: the loop, and
    then the frame. *)
Lemma load_trialdata_run matdata trialdata matdata' num_trial :
  Value.assoc "trialdata" matdata = Some trialdata ->
  Value.item trialdata 0 = Ok matdata' ->
  Value.len matdata' = Ok num_trial ->
  load_trialdata out_of_range matdata
  = match read_trials out_of_range matdata' (init_locals num_trial)
            (seq 0 num_trial) with
    | Ok st => Ok (trial_frame num_trial st)
    | Raise e => Raise e
    end.
Proof.
  intros Htd Hitem Hlen. unfold load_trialdata.
  rewrite (assoc_subscript _ _ _ Htd). simpl. rewrite Hitem. simpl.
  rewrite Hlen. simpl.
  destruct (read_trials out_of_range matdata' (init_locals num_trial)
              (seq 0 num_trial)) as [st|] eqn:Hloop; simpl; [|done].
  apply trial_frame_built.
  apply read_trials_inv in Hloop as [Hl _]. apply Hl, init_locals_length.
Qed.

Lemma load_trialdata_inv matdata fr :
  load_trialdata out_of_range matdata = Ok fr ->
  exists trialdata matdata' num_trial st,
    Value.assoc "trialdata" matdata = Some trialdata /\
    Value.item trialdata 0 = Ok matdata' /\
    Value.len matdata' = Ok num_trial /\
    read_trials out_of_range matdata' (init_locals num_trial) (seq 0 num_trial)
    = Ok st /\
    fr = trial_frame num_trial st.
Proof.
  intros H.
  destruct (Value.assoc "trialdata" matdata) as [trialdata|] eqn:Htd.
  2: { unfold load_trialdata, subscript in H. by rewrite Htd in H. }
  destruct (Value.item trialdata 0) as [matdata'|] eqn:Hitem.
  2: { unfold load_trialdata in H.
       rewrite (assoc_subscript _ _ _ Htd) in H. simpl in H.
       by rewrite Hitem in H. }
  destruct (Value.len matdata') as [num_trial|] eqn:Hlen.
  2: { unfold load_trialdata in H.
       rewrite (assoc_subscript _ _ _ Htd) in H. simpl in H.
       rewrite Hitem in H. simpl in H. by rewrite Hlen in H. }
  rewrite (load_trialdata_run _ _ _ _ Htd Hitem Hlen) in H.
  destruct (read_trials out_of_range matdata' (init_locals num_trial)
              (seq 0 num_trial)) as [st|] eqn:Hloop; [|done].
  injection H as <-. by exists trialdata, matdata', num_trial, st.
Qed.

(** *** The claims on [load_trialdata] *)

(** C4, as the code has it. The masks of the code compute the attention
    condition of the specification from the condition number of the same
    trial. In the frame that [load_trialdata] returns, the column [attend]
    is that function of the column [cond], and the column [cond] holds,
    trial by trial, the condition code of the record as the store converts
    it to a 64-bit integer: an integer of the range as it is, a double
    without its fraction, a text as the number it spells. The condition
    numbers 1 to 7 give 1, 2, 3, 1, 2, 3, 0. *)
Theorem attend_from_cond :
  (forall conds : list Z,
      define_attend (length conds) conds = Ok (attend_of_cond <$> conds)) /\
  (forall matdata fr,
      load_trialdata out_of_range matdata = Ok fr ->
      exists conds,
        get_column "cond" (columns fr) = Some (IntColumn conds) /\
        get_column "attend" (columns fr)
        = Some (IntColumn (attend_of_cond <$> conds)) /\
        length conds = nrows fr /\
        forall trialdata trials (i : nat),
          Value.assoc "trialdata" matdata = Some trialdata ->
          Value.item trialdata 0 = Ok trials ->
          (i < nrows fr)%nat ->
          exists code c,
            trial_scalar trials i 3 = Ok code /\
            to_int out_of_range code = Ok c /\
            conds !! i = Some c /\
            (attend_of_cond <$> conds) !! i = Some (attend_of_cond c)) /\
  (forall t z, in_int64 z = true -> to_int out_of_range (Num t z) = Ok z) /\
  (forall f z, truncate f = Some z -> in_int64 z = true ->
               to_int out_of_range (Float f) = Ok z) /\
  (forall s z, Py.int s = Some z -> in_int64 z = true ->
               to_int out_of_range (Str s) = Ok z) /\
  attend_of_cond <$> [1; 2; 3; 4; 5; 6; 7] = [1; 2; 3; 1; 2; 3; 0].
Proof.
  split; [apply define_attend_spec|].
  split; [|split; [|split; [|split; [|done]]]].
  - intros matdata fr
      (trialdata & trials & n & st & Htd & Hitem & Hlen & Hloop & ->)%load_trialdata_inv.
    apply read_trials_inv in Hloop as (Hlens & _ & Hcond).
    destruct (Hlens n (init_locals_length n)) as (_ & _ & Hn & _).
    exists (cond st). split; [done|]. split; [done|]. split; [done|].
    intros trialdata' trials' i Htd' Hitem' Hi. simpl in Hi.
    rewrite Htd in Htd'. injection Htd' as <-.
    rewrite Hitem in Hitem'. injection Hitem' as <-.
    destruct (Hcond i) as (c & Hc & Hlook).
    { apply elem_of_seq. lia. }
    { simpl. unfold zeros. by rewrite length_replicate. }
    destruct (trial_scalar trials i 3) as [code|]; simpl in Hc; [|done].
    exists code, c. split; [done|]. split; [done|]. split; [done|].
    by rewrite list_lookup_fmap, Hlook.
  - intros t z Hz. simpl. by rewrite Hz.
  - intros f z Hf Hz. simpl. by rewrite Hf, Hz.
  - intros s z Hs Hz. simpl. by rewrite Hs, Hz.
Qed.

(** C6, as the code has it. When every trial record has twelve fields or
    more and its fields 2 to 11 are stored, [load_trialdata] returns a
    frame with as many rows, and as many entries in each of its thirteen
    columns, as there are trial records; whenever it returns a frame, the
    frame has that many rows. A trial record with fewer than twelve fields
    makes it raise, and return no frame; the exception is the index error
    of the missing field when the fields that the records have are
    stored. *)
Theorem load_trialdata_rows matdata trialdata trials :
  Value.assoc "trialdata" matdata = Some trialdata ->
  Value.item trialdata 0 = Ok (Array trials) ->
  (Forall (trial_ok out_of_range) trials ->
   exists fr, load_trialdata out_of_range matdata = Ok fr /\
              nrows fr = length trials) /\
  (forall fr,
      load_trialdata out_of_range matdata = Ok fr ->
      nrows fr = length trials /\
      length (columns fr) = 13%nat /\
      Forall (fun kc => column_length kc.2 = length trials) (columns fr)) /\
  (Exists trial_short trials -> raises (load_trialdata out_of_range matdata)) /\
  (Exists trial_short trials ->
   Forall (trial_readable out_of_range) trials ->
   load_trialdata out_of_range matdata = Raise IndexError).
Proof.
  intros Htd Hitem.
  rewrite (load_trialdata_run _ _ _ (length trials) Htd Hitem eq_refl).
  split; [|split; [|split]].
  - intros Hok.
    assert (returns (read_trials out_of_range (Array trials)
                       (init_locals (length trials)) (seq 0 (length trials))))
      as [st ->].
    { apply read_trials_ok. intros i [_ Hi]%elem_of_seq.
      destruct (lookup_lt_is_Some_2 trials i) as [trial Htrial]; [lia|].
      exists trial. split; [done|].
      by apply (proj1 (Forall_lookup _ _) Hok i). }
    by eexists.
  - intros fr Hfr.
    destruct (read_trials out_of_range (Array trials) _ _) as [st|] eqn:Hloop;
      [|done].
    injection Hfr as <-.
    apply read_trials_inv in Hloop as [Hlens _].
    destruct (Hlens _ (init_locals_length _))
      as (H1 & H2 & H3 & H4 & H5 & H6 & H7 & H8 & H9 & H10 & H11 & H12).
    split; [done|]. split; [done|].
    unfold trial_frame. simpl.
    repeat (apply Forall_cons_2; [simpl; by rewrite ?length_fmap|]).
    apply Forall_nil_2.
  - intros (trial & Hin & Hshort)%Exists_exists.
    apply list_elem_of_lookup in Hin as [i Hi].
    assert (raises (read_trials out_of_range (Array trials)
                      (init_locals (length trials)) (seq 0 (length trials))))
      as [e ->].
    { apply read_trials_raises. exists i. split.
      - apply elem_of_seq. apply lookup_lt_Some in Hi. lia.
      - intros st'. by apply (read_trial_short _ _ trial). }
    by eexists.
  - intros (trial & Hin & Hshort)%Exists_exists Hread.
    apply list_elem_of_lookup in Hin as [i Hi].
    rewrite read_trials_short; [done| |].
    + intros j [_ Hj]%elem_of_seq.
      destruct (lookup_lt_is_Some_2 trials j) as [tj Htj]; [lia|].
      exists tj. split; [done|].
      by apply (proj1 (Forall_lookup _ _) Hread j).
    + exists i, trial. split; [|done].
      apply elem_of_seq. apply lookup_lt_Some in Hi. lia.
Qed.

End TrialProperties.

Lemma attend_from_cond_witness :
  exists fr,
    load_trialdata overflow example_trialdata = Ok fr /\
    get_column "cond" (columns fr) = Some (IntColumn [1; 2; 3; 4; 5; 6; 7]) /\
    get_column "attend" (columns fr)
    = Some (IntColumn (attend_of_cond <$> [1; 2; 3; 4; 5; 6; 7])) /\
    attend_of_cond <$> [1; 2; 3; 4; 5; 6; 7] = [1; 2; 3; 1; 2; 3; 0].
Proof.
  assert (exists fr, load_trialdata overflow example_trialdata = Ok fr)
    as [fr Hload].
  { eexists. vm_compute. reflexivity. }
  destruct (proj1 (proj2 (attend_from_cond overflow)) example_trialdata fr Hload)
    as (conds & Hcond & Hattend & _).
  assert (get_column "cond" (columns fr) = Some (IntColumn [1; 2; 3; 4; 5; 6; 7]))
    as Hconds.
  { vm_compute in Hload. injection Hload as <-. reflexivity. }
  rewrite Hconds in Hcond. injection Hcond as <-.
  exists fr. split; [exact Hload|]. split; [exact Hconds|].
  split; [exact Hattend|reflexivity].
Defined.

(** C4 as stated fails: one trial whose condition code is the double
    4.75 (it is 0.75 above 4), which is neither 1 nor 4. The store keeps
    the integer part 4 in the column [cond], and the attention condition
    is 1, not 0. *)
Lemma attend_of_fractional_code :
  let code := Float (double 19 (-2)) in
  let trials := Array [trial_with_code code] in
  trial_scalar trials 0 3 = Ok code /\
  double_sub (double 19 (-2)) (double 4 0) = double 3 (-2) /\
  exists fr,
    load_trialdata overflow [("trialdata", Array [trials])] = Ok fr /\
    get_column "cond" (columns fr) = Some (IntColumn [4]) /\
    get_column "attend" (columns fr) = Some (IntColumn [1]).
Proof.
  split; [reflexivity|]. split; [by vm_compute|].
  eexists. split; [vm_compute; reflexivity|]. split; reflexivity.
Qed.

Lemma example_trial_ok (c : Z) :
  0 <= c <= 1000 -> trial_ok overflow (example_trial c).
Proof.
  intros Hc. eexists. split; [reflexivity|]. split; [simpl; lia|].
  intros k Hk.
  assert (in_int64 (100 + c) = true /\ in_int64 c = true) as [Hid Hcode].
  { unfold in_int64, int_min, int_max. split; apply andb_true_iff; split;
      apply Z.leb_le; lia. }
  destruct k as [|[|[|[|[|[|[|[|[|[|[|[|k]]]]]]]]]]]]; try lia;
    (eexists; split; [reflexivity|]); (eexists; split; [reflexivity|]);
    simpl; rewrite ?Hid, ?Hcode; by eexists.
Qed.

Lemma load_trialdata_rows_witness :
  exists fr, load_trialdata overflow example_trialdata = Ok fr /\ nrows fr = 7%nat.
Proof.
  apply (proj1 (load_trialdata_rows overflow example_trialdata
                  (Array [Array (example_trial <$> [1; 2; 3; 4; 5; 6; 7])])
                  (example_trial <$> [1; 2; 3; 4; 5; 6; 7]) eq_refl eq_refl)).
  repeat (apply Forall_cons_2; [apply example_trial_ok; lia|]).
  apply Forall_nil_2.
Defined.

(** C6 as stated fails. One trial record of twelve fields, whose third
    field (the trial number) is an empty array: no record is too short,
    yet the call raises the index error of [matdata[itrial][2][0]] and
    returns no frame; a record of twelve fields whose condition code is a
    text that spells no number raises the value error of the store. And
    one trial record of three fields, whose third field is such a text:
    the record is too short, but the call stops before it reaches the
    missing field, on the value error of the store. *)
Lemma load_trialdata_empty_field :
  let trial :=
    Struct [("CTX_events", Array []); ("NLX_events", Array []);
            ("trialID", Array []); ("cond_num", Array [Array [Int 1]]);
            ("RT_evnt", Array [Array [Int 350]]);
            ("RT_EPP", Array [Array [Int 352]]);
            ("target_dim", Array [Array [Int 1]]);
            ("rf_dim", Array [Array [Int 2]]);
            ("position_RF", Array [Array [Int 1]]);
            ("position_out1", Array [Array [Int 2]]);
            ("position_out2", Array [Array [Int 3]]);
            ("fixbreak", Array [Array [Int 0]])] in
  let short :=
    Struct [("CTX_events", Array []); ("NLX_events", Array []);
            ("trialID", Array [Str "x"])] in
  (length <$> positional_fields trial) = Some 12%nat /\
  load_trialdata overflow [("trialdata", Array [Array [trial]])]
  = Raise IndexError /\
  (length <$> positional_fields (trial_with_code (Str "x"))) = Some 12%nat /\
  load_trialdata overflow
    [("trialdata", Array [Array [trial_with_code (Str "x")]])]
  = Raise ValueError /\
  (length <$> positional_fields short) = Some 3%nat /\
  load_trialdata overflow [("trialdata", Array [Array [short]])]
  = Raise ValueError.
Proof.
  repeat split; by vm_compute.
Qed.

(** * Further properties *)

(** ** [def_lines] and [update_lines] *)

Lemma slice_0_take {A} (l : list A) (k : Z) :
  0 <= k -> Py.slice (Some 0) (Some k) l = take (Z.to_nat k) l.
Proof.
  intros Hk. unfold Py.slice, Py.clip. simpl.
  destruct (Z.ltb_spec k 0); [lia|].
  rewrite (Z.min_l 0) by lia. rewrite Z.sub_0_r.
  change (Z.to_nat 0) with 0%nat. rewrite drop_0.
  destruct (Z.le_gt_cases k (Z.of_nat (length l))).
  - by rewrite Z.min_l by lia.
  - rewrite Z.min_r, Nat2Z.id by lia.
    by rewrite !take_ge by lia.
Qed.

Lemma row_slice_lookup (d : nat) lo hi (data : list (list Z)) row :
  data !! d = Some row ->
  row_slice (Z.of_nat d) lo hi data = Ok (Py.slice lo hi row).
Proof. intros H. unfold row_slice. by rewrite (index_lookup _ _ _ H). Qed.

(** What [def_lines] plots for one trajectory: the axes decide the class
    of the line, and what its depth is. *)
Lemma def_lines_inv (ax : axes) (plotdata : ndarray3) :
  well_shaped plotdata ->
  shape1 plotdata = 2%nat \/ shape1 plotdata = 3%nat ->
  exists lines,
    def_lines ax plotdata = Ok lines /\
    Forall2 (fun data line =>
               cls line = line_class ax /\
               Some (xdata line) = take 1 <$> data !! 0%nat /\
               Some (ydata line) = take 1 <$> data !! 1%nat /\
               (ax = Axes -> zdata line = []) /\
               (ax = Axes3D -> shape1 plotdata = 3%nat ->
                Some (zdata line) = take 1 <$> data !! 2%nat) /\
               (ax = Axes3D -> shape1 plotdata = 2%nat ->
                zdata line = (fun _ => 0) <$> xdata line) /\
               marker line = "" /\ text line = "")
            (items plotdata) lines.
Proof.
  intros Hwf HD. pose proof (well_shaped_items _ Hwf) as Hshape.
  unfold def_lines, line_class.
  destruct HD as [HD|HD]; rewrite HD in *; simpl.
  - induction Hshape as [|data rest [Hlen _] _ IH]; [by eexists|].
    destruct data as [|x [|y [|? ?]]]; try discriminate.
    destruct IH as (lines & Hlines & Hall).
    simpl in *. rewrite Hlines. simpl.
    eexists. split; [done|].
    apply Forall2_cons; split; [|done].
    rewrite !slice_0_take by lia.
    destruct ax; simpl; repeat split; try done; lia.
  - induction Hshape as [|data rest [Hlen _] _ IH]; [by eexists|].
    destruct data as [|x [|y [|z [|? ?]]]]; try discriminate.
    destruct IH as (lines & Hlines & Hall).
    simpl in *. rewrite Hlines. simpl.
    eexists. split; [done|].
    apply Forall2_cons; split; [|done].
    rewrite !slice_0_take by lia.
    destruct ax; simpl; repeat split; try done; lia.
Qed.

(** X1. For two or three dimensions [def_lines] returns one line per
    trajectory, in the order of the trajectories, of the class that the
    axes make; each holds the first sample of its trajectory in x and y
    (none if there are no samples), and has no marker and no text yet.
    On ordinary axes the lines have no depth, also for three dimensions;
    on three-dimensional axes the depth is the first sample of the third
    row, or zero for two dimensions. *)
Theorem def_lines_first_sample (ax : axes) (plotdata : ndarray3) :
  well_shaped plotdata ->
  shape1 plotdata = 2%nat \/ shape1 plotdata = 3%nat ->
  exists lines,
    def_lines ax plotdata = Ok lines /\
    length lines = shape0 plotdata /\
    forall i data,
      items plotdata !! i = Some data ->
      exists line,
        lines !! i = Some line /\
        cls line = line_class ax /\
        Some (xdata line) = take 1 <$> data !! 0%nat /\
        Some (ydata line) = take 1 <$> data !! 1%nat /\
        (ax = Axes -> zdata line = []) /\
        (ax = Axes3D -> shape1 plotdata = 3%nat ->
         Some (zdata line) = take 1 <$> data !! 2%nat) /\
        (ax = Axes3D -> shape1 plotdata = 2%nat ->
         zdata line = (fun _ => 0) <$> xdata line) /\
        marker line = "" /\ text line = "".
Proof.
  intros Hwf HD.
  destruct (def_lines_inv ax _ Hwf HD) as (lines & Hlines & Hall).
  exists lines. split; [done|]. split.
  - rewrite <- (Forall2_length _ _ _ Hall). by destruct Hwf.
  - intros i data Hdata.
    destruct (Forall2_lookup_l _ _ _ _ _ Hall Hdata) as (line & Hline & H).
    by exists line.
Qed.

Lemma def_lines_first_sample_witness :
  exists lines,
    def_lines Axes3D example_bundle = Ok lines /\
    length lines = 1%nat /\
    forall i data,
      items example_bundle !! i = Some data ->
      exists line,
        lines !! i = Some line /\
        cls line = line_class Axes3D /\
        Some (xdata line) = take 1 <$> data !! 0%nat /\
        Some (ydata line) = take 1 <$> data !! 1%nat /\
        (Axes3D = Axes -> zdata line = []) /\
        (Axes3D = Axes3D -> shape1 example_bundle = 3%nat ->
         Some (zdata line) = take 1 <$> data !! 2%nat) /\
        (Axes3D = Axes3D -> shape1 example_bundle = 2%nat ->
         zdata line = (fun _ => 0) <$> xdata line) /\
        marker line = "" /\ text line = "".
Proof.
  apply (def_lines_first_sample Axes3D example_bundle).
  - split; [reflexivity|]. repeat constructor.
  - left. reflexivity.
Defined.

(** X2. On a well-shaped array [def_lines] returns exactly for two and for
    three dimensions, whatever the axes; for any other number it raises
    [ValueError]. *)
Theorem def_lines_dimensions (ax : axes) (plotdata : ndarray3) :
  well_shaped plotdata ->
  (returns (def_lines ax plotdata) <->
   shape1 plotdata = 2%nat \/ shape1 plotdata = 3%nat) /\
  (~ (shape1 plotdata = 2%nat \/ shape1 plotdata = 3%nat) ->
   def_lines ax plotdata = Raise ValueError).
Proof.
  intros Hwf.
  assert (~ (shape1 plotdata = 2%nat \/ shape1 plotdata = 3%nat) ->
          def_lines ax plotdata = Raise ValueError) as Hother.
  { intros HD. unfold def_lines. by rewrite !decide_False by tauto. }
  split; [|done]. split.
  - intros [lines Hlines].
    destruct (decide (shape1 plotdata = 2%nat \/ shape1 plotdata = 3%nat));
      [done|].
    rewrite Hother in Hlines by done. discriminate.
  - intros HD. destruct (def_lines_inv ax _ Hwf HD) as (lines & -> & _).
    by eexists.
Qed.

Lemma def_lines_dimensions_witness :
  (returns (def_lines Axes example_bundle) <->
   shape1 example_bundle = 2%nat \/ shape1 example_bundle = 3%nat) /\
  (~ (shape1 example_bundle = 2%nat \/ shape1 example_bundle = 3%nat) ->
   def_lines Axes example_bundle = Raise ValueError).
Proof.
  apply (def_lines_dimensions Axes example_bundle).
  split; [reflexivity|]. repeat constructor.
Defined.

(** X3. The lines that [def_lines] returns for an array can be updated
    with that array at every frame index and with every window, within the
    samples or not, provided three dimensions were plotted on
    three-dimensional axes: [update_lines] then raises nothing and returns
    as many handles, each of the class it had and with its marker set.
    Lines plotted for three dimensions on ordinary axes are 2-D lines, and
    their update stops with [AttributeError] on the depth of the first. *)
Theorem update_lines_after_def_lines (ax : axes) (plotdata : ndarray3)
    (lines : list artist) (num : Z) (numsamples : option Z) :
  well_shaped plotdata ->
  def_lines ax plotdata = Ok lines ->
  ((shape1 plotdata = 3%nat -> ax = Axes3D) ->
   exists lines',
     update_lines num plotdata lines numsamples = (lines', None) /\
     length lines' = shape0 plotdata /\
     forall i line', lines' !! i = Some line' ->
                     cls line' = line_class ax /\ marker line' = "o") /\
  (shape1 plotdata = 3%nat -> ax = Axes -> shape0 plotdata <> 0%nat ->
   (update_lines num plotdata lines numsamples).2 = Some AttributeError).
Proof.
  intros Hwf Hdef.
  assert (shape1 plotdata = 2%nat \/ shape1 plotdata = 3%nat) as HD.
  { destruct (decide (shape1 plotdata = 2%nat \/ shape1 plotdata = 3%nat));
      [done|].
    unfold def_lines in Hdef. by rewrite !decide_False in Hdef by tauto. }
  destruct (def_lines_inv ax _ Hwf HD) as (lines0 & Hlines0 & Hall).
  rewrite Hdef in Hlines0. injection Hlines0 as <-.
  pose proof (well_shaped_items _ Hwf) as Hshape.
  pose proof (Forall2_length _ _ _ Hall) as Hlen.
  destruct Hwf as [HN _].
  split.
  - intros Hax.
    exists (after_loop num (shape1 plotdata) numsamples lines (items plotdata)).
    split; [|split].
    + unfold update_lines. apply (update_loop_runs _ _ (shape2 plotdata)); [done|].
      apply Forall_take. apply Forall_forall. intros line Hin.
      apply list_elem_of_lookup in Hin as [i Hi].
      destruct (Forall2_lookup_r _ _ _ _ _ Hall Hi) as (data & _ & Hcls & _).
      unfold line_for, is_line, has_set_3d_properties. rewrite Hcls.
      destruct (decide (shape1 plotdata = 3%nat)) as [H3|H3].
      * by rewrite (Hax H3).
      * by destruct ax.
    + rewrite after_loop_length, <- Hlen. done.
    + intros i line' Hi.
      assert (i < length lines)%nat as Hlt.
      { apply lookup_lt_Some in Hi. by rewrite after_loop_length in Hi. }
      destruct (lookup_lt_is_Some_2 lines i Hlt) as [line Hline].
      destruct (Forall2_lookup_r _ _ _ _ _ Hall Hline) as (data & Hdata & Hcls & _).
      rewrite (after_loop_lookup _ _ _ _ _ _ _ _ Hline Hdata) in Hi.
      injection Hi as <-. by split.
  - intros H3 -> Hne. unfold update_lines.
    destruct (items plotdata) as [|data rest]; [simpl in HN; lia|].
    apply Forall2_cons_inv_l in Hall as (line & lines1 & (Hcls & _) & _ & ->).
    apply Forall_cons in Hshape as [[Hdlen _] _].
    rewrite H3 in *.
    destruct data as [|x [|y [|z [|? ?]]]]; try discriminate.
    destruct line as [c xs ys zs m t]. simpl in Hcls. subst c.
    by destruct numsamples.
Qed.

Lemma update_lines_after_def_lines_witness :
  (exists lines',
     update_lines 7 example_bundle [plot2 [1] [4]] (Some 9) = (lines', None) /\
     length lines' = shape0 example_bundle /\
     forall i line', lines' !! i = Some line' ->
                     cls line' = line_class Axes /\ marker line' = "o").
Proof.
  apply (update_lines_after_def_lines Axes example_bundle [plot2 [1] [4]] 7
           (Some 9)).
  - split; [reflexivity|]. repeat constructor.
  - reflexivity.
  - discriminate.
Defined.

(** *** What an update never touches *)

(** X5. Whatever the outcome, [update_lines] gives back as many handles,
    each of the class and with the text it had; the handles beyond the
    trajectories are in the state they were in. *)
Theorem update_lines_keeps_handles (plotdata : ndarray3) (lines : list artist)
    (num : Z) (numsamples : option Z) :
  let lines' := (update_lines num plotdata lines numsamples).1 in
  length lines' = length lines /\
  (forall i a a', lines !! i = Some a -> lines' !! i = Some a' ->
                  cls a' = cls a /\ text a' = text a) /\
  drop (length (items plotdata)) lines' = drop (length (items plotdata)) lines.
Proof.
  unfold update_lines. generalize (items plotdata) as plotdata'.
  generalize (shape1 plotdata) as num_dims. clear plotdata.
  intros num_dims plotdata'. revert plotdata'.
  induction lines as [|line lines IH]; intros plotdata'.
  { simpl. split; [done|]. split; [by intros i a a' ?|]. by rewrite !drop_nil. }
  destruct plotdata' as [|data plotdata'].
  { simpl. split; [done|]. split; [|done].
    intros i a a' H1 H2. rewrite H1 in H2. by injection H2 as <-. }
  simpl.
  pose proof (update_line_meta num num_dims numsamples data line) as Hmeta.
  destruct (update_line num num_dims numsamples data line) as [line' [e|]];
    simpl in Hmeta.
  - simpl. split; [done|]. split; [|done].
    intros [|i] a a'; simpl; [by intros [= <-] [= <-]|].
    intros H1 H2. rewrite H1 in H2. by injection H2 as <-.
  - specialize (IH plotdata').
    destruct (update_loop num num_dims numsamples lines plotdata') as [rest r].
    simpl in *. destruct IH as (Hlen & Hcls & Hdrop).
    split; [lia|]. split; [|done].
    intros [|i] a a'; simpl; [by intros [= <-] [= <-]|apply Hcls].
Qed.

Lemma update_lines_keeps_handles_witness :
  (update_lines 1 example_bundle [plot2 [1] [4]; example_label] None).1
    !! 1%nat = Some example_label /\
  cls example_label = Text /\ text example_label = "".
Proof.
  split; [reflexivity|].
  apply (proj1 (proj2 (update_lines_keeps_handles example_bundle
                         [plot2 [1] [4]; example_label] 1 None))
           1%nat example_label example_label); reflexivity.
Defined.

(** *** Exceptions *)

(** X6. On a well-shaped array, whatever the frame index, the window and
    the handles, [update_lines] either returns or raises [AttributeError],
    for a handle that lacks a method; slicing beyond the samples raises
    nothing. *)
Theorem update_lines_exceptions (plotdata : ndarray3) (lines : list artist)
    (num : Z) (numsamples : option Z) :
  well_shaped plotdata ->
  (update_lines num plotdata lines numsamples).2 = None \/
  (update_lines num plotdata lines numsamples).2 = Some AttributeError.
Proof.
  intros Hwf. unfold update_lines.
  apply (update_loop_exceptions _ _ (shape2 plotdata)).
  by apply well_shaped_items.
Qed.

Lemma update_lines_exceptions_witness :
  (update_lines 5 example_bundle [example_label] (Some 2)).2 = None \/
  (update_lines 5 example_bundle [example_label] (Some 2)).2
  = Some AttributeError.
Proof.
  apply (update_lines_exceptions example_bundle [example_label] 5 (Some 2)).
  split; [reflexivity|]. repeat constructor.
Defined.

(** X7. For a number of dimensions other than 2 and 3 and line handles,
    [update_lines] returns with the marker of every paired line set and
    nothing else changed: no data are shown and no exception is raised. *)
Theorem update_lines_other_dimensions (plotdata : ndarray3)
    (lines : list artist) (num : Z) (numsamples : option Z) :
  well_shaped plotdata ->
  shape1 plotdata <> 2%nat -> shape1 plotdata <> 3%nat ->
  Forall (fun a => is_line a = true) (take (shape0 plotdata) lines) ->
  update_lines num plotdata lines numsamples
  = ((with_marker "o" <$> take (shape0 plotdata) lines)
     ++ drop (shape0 plotdata) lines, None).
Proof.
  intros Hwf H2 H3 Hlines.
  pose proof (well_shaped_items _ Hwf) as Hshape. destruct Hwf as [HN _].
  unfold update_lines.
  rewrite (update_loop_runs _ _ (shape2 plotdata)); [|done|].
  - f_equal. unfold after_loop. rewrite HN. f_equal.
    apply list_eq. intros i.
    rewrite lookup_zip_with, list_lookup_fmap.
    destruct (decide (i < shape0 plotdata)%nat) as [Hi|Hi].
    + rewrite lookup_take_lt by done.
      destruct (lines !! i) as [line|]; [|done]. simpl.
      destruct (lookup_lt_is_Some_2 (items plotdata) i) as [data ->]; [lia|].
      simpl. unfold after_update, with_marker.
      by rewrite !decide_False by tauto.
    + rewrite lookup_take_ge by lia.
      rewrite (lookup_ge_None_2 (items plotdata)) by lia.
      by destruct (lines !! i).
  - rewrite HN. eapply Forall_impl; [done|].
    intros a Ha. unfold line_for. rewrite Ha. by rewrite decide_False.
Qed.

Lemma update_lines_other_dimensions_witness :
  let plotdata :=
    {| shape0 := 1; shape1 := 1; shape2 := 2; items := [[[1; 2]]] |} in
  update_lines 1 plotdata [plot2 [1] [4]; example_label] None
  = ((with_marker "o" <$> take 1 [plot2 [1] [4]; example_label])
     ++ drop 1 [plot2 [1] [4]; example_label], None).
Proof.
  intros plotdata.
  apply (update_lines_other_dimensions plotdata
           [plot2 [1] [4]; example_label] 1 None).
  - split; [reflexivity|]. repeat constructor.
  - discriminate.
  - discriminate.
  - repeat constructor.
Defined.

(** *** A second update *)

Lemma update_line_again num num_dims numsamples data a a' :
  update_line num num_dims numsamples data a = (a', None) ->
  update_line num num_dims numsamples data a' = (a', None).
Proof.
  unfold update_line, seq_stmt, call, call_set_3d_properties, skip, set_data,
    set_marker, set_3d_properties, has_set_3d_properties, is_line.
  destruct a as [[] xs ys zs m t]; simpl;
    destruct numsamples; simpl;
    repeat match goal with
           | |- context [decide ?P] => destruct (decide P); simpl
           | |- context [match ?l with [] => _ | _ :: _ => _ end] =>
               destruct l; simpl
           | |- context [row_slice ?d ?lo ?hi ?data] =>
               destruct (row_slice d lo hi data); simpl
           end;
    intros H; try discriminate H; injection H as <-; done.
Qed.

(** X4. An update that returned can be repeated: [update_lines] with the
    same frame, array and window on the handles it left gives the same
    handles again. *)
Theorem update_lines_idempotent (plotdata : ndarray3) (lines lines' : list artist)
    (num : Z) (numsamples : option Z) :
  update_lines num plotdata lines numsamples = (lines', None) ->
  update_lines num plotdata lines' numsamples = (lines', None).
Proof.
  unfold update_lines. generalize (items plotdata) as plotdata'.
  generalize (shape1 plotdata) as num_dims. clear plotdata.
  intros num_dims plotdata'. revert plotdata' lines'.
  induction lines as [|line lines IH]; intros plotdata' lines' Hrun.
  { simpl in Hrun. by injection Hrun as <-. }
  destruct plotdata' as [|data plotdata'].
  { simpl in Hrun. by injection Hrun as <-. }
  simpl in Hrun.
  destruct (update_line num num_dims numsamples data line) as [line' [e|]] eqn:Hl;
    [done|].
  destruct (update_loop num num_dims numsamples lines plotdata') as [rest r] eqn:Hr.
  injection Hrun as <- ->.
  simpl. rewrite (update_line_again _ _ _ _ _ _ Hl).
  by rewrite (IH _ _ Hr).
Qed.

Lemma update_lines_idempotent_witness :
  update_lines 2 example_bundle
    [{| cls := Line2D; xdata := [1; 2]; ydata := [4; 5]; zdata := [];
        marker := "o"; text := "" |}] None
  = ([{| cls := Line2D; xdata := [1; 2]; ydata := [4; 5]; zdata := [];
         marker := "o"; text := "" |}], None).
Proof.
  apply (update_lines_idempotent example_bundle [plot2 [1] [4]]).
  reflexivity.
Defined.

(** *** Frames and windows outside the samples *)

(** The loop on lines of the right class, with the slices of the rows given
    by [cut]. *)
Lemma update_lines_cut (cut : list Z -> list Z) (plotdata : ndarray3)
    (lines : list artist) (num : Z) (numsamples : option Z) :
  well_shaped plotdata ->
  shape1 plotdata = 2%nat \/ shape1 plotdata = 3%nat ->
  Forall (fun a => line_for (shape1 plotdata) a = true)
         (take (shape0 plotdata) lines) ->
  (forall row, length row = shape2 plotdata ->
               Py.slice (slice_from num numsamples) (Some num) row = cut row) ->
  exists lines',
    update_lines num plotdata lines numsamples = (lines', None) /\
    forall i line data,
      lines !! i = Some line -> items plotdata !! i = Some data ->
      exists line',
        lines' !! i = Some line' /\
        holds_rows cut (shape1 plotdata) data line line'.
Proof.
  intros Hwf HD Hlines Hcut.
  pose proof (well_shaped_items _ Hwf) as Hshape.
  destruct Hwf as [HN _].
  exists (after_loop num (shape1 plotdata) numsamples lines (items plotdata)).
  split.
  - unfold update_lines. apply (update_loop_runs _ _ (shape2 plotdata)); [done|].
    by rewrite HN.
  - intros i line data Hl Hd.
    rewrite (after_loop_lookup _ _ _ _ _ _ _ _ Hl Hd).
    pose proof (proj1 (Forall_lookup _ _) Hshape _ _ Hd) as [Hlen Hrows].
    assert (forall d row, data !! d = Some row ->
              Py.slice (slice_from num numsamples) (Some num) (nth d data [])
              = cut row) as Hrow.
    { intros d row Hrow. rewrite (nth_lookup_Some _ _ _ _ Hrow).
      apply Hcut. by apply (proj1 (Forall_lookup _ _) Hrows _ _ Hrow). }
    destruct (lookup_lt_is_Some_2 data 0) as [x Hx]; [lia|].
    destruct (lookup_lt_is_Some_2 data 1) as [y Hy]; [lia|].
    eexists. split; [done|].
    unfold holds_rows, after_update; simpl.
    rewrite !(decide_True (P := _ \/ _)) by done.
    rewrite (Hrow _ _ Hx), (Hrow _ _ Hy), Hx, Hy.
    split; [done|]. split; [done|]. split.
    + intros H3. rewrite decide_True by done.
      destruct (lookup_lt_is_Some_2 data 2) as [z Hz]; [lia|].
      by rewrite (Hrow _ _ Hz), Hz.
    + intros H2. by rewrite decide_False by lia.
Qed.

Lemma slice_wide_window (row : list Z) (f w : Z) :
  0 <= f <= Z.of_nat (length row) -> f < w ->
  Py.slice (Some (f - w)) (Some f) row
  = samples (Z.max 0 (Z.of_nat (length row) + f - w)) f row.
Proof.
  intros Hf Hw. unfold Py.slice, Py.clip. simpl.
  destruct (Z.ltb_spec (f - w) 0); [|lia].
  destruct (Z.ltb_spec f 0); [lia|].
  rewrite (Z.min_l f) by lia.
  replace (Z.max (f - w + Z.of_nat (length row)) 0)
    with (Z.max 0 (Z.of_nat (length row) + f - w)) by lia.
  apply take_drop_samples; lia.
Qed.

Lemma samples_nil (lo hi : Z) (row : list Z) : hi <= lo -> samples lo hi row = [].
Proof.
  intros H. unfold samples. by replace (Z.to_nat (hi - lo)) with 0%nat by lia.
Qed.

(** X8. A window longer than the frame index makes the lower bound of the
    slice negative, which counts from the end of the samples: for
    [0 <= f <= T] and [f < w] every paired line holds samples
    [max 0 (T + f - w), f), which is no sample at all as long as the window
    is not longer than the trajectory. *)
Theorem update_lines_wide_window (plotdata : ndarray3) (lines : list artist)
    (f w : Z) :
  well_shaped plotdata ->
  shape1 plotdata = 2%nat \/ shape1 plotdata = 3%nat ->
  Forall (fun a => line_for (shape1 plotdata) a = true)
         (take (shape0 plotdata) lines) ->
  0 <= f <= Z.of_nat (shape2 plotdata) ->
  f < w ->
  exists lines',
    update_lines f plotdata lines (Some w) = (lines', None) /\
    forall i line data,
      lines !! i = Some line -> items plotdata !! i = Some data ->
      exists line',
        lines' !! i = Some line' /\
        holds_rows (samples (Z.max 0 (Z.of_nat (shape2 plotdata) + f - w)) f)
          (shape1 plotdata) data line line' /\
        (w <= Z.of_nat (shape2 plotdata) ->
         holds_rows (fun _ => []) (shape1 plotdata) data line line').
Proof.
  intros Hwf HD Hlines Hf Hw.
  destruct (update_lines_cut
              (samples (Z.max 0 (Z.of_nat (shape2 plotdata) + f - w)) f)
              plotdata lines f (Some w) Hwf HD Hlines) as (lines' & Hrun & Hall).
  { intros row Hrow. simpl. rewrite slice_wide_window by lia. by rewrite Hrow. }
  exists lines'. split; [done|].
  intros i line data Hl Hd.
  destruct (Hall i line data Hl Hd) as (line' & Hl' & Hrows).
  exists line'. split; [done|]. split; [done|].
  intros HwT. destruct Hrows as (Hx & Hy & Hz & Hz2).
  assert (forall o : option (list Z),
            samples (Z.max 0 (Z.of_nat (shape2 plotdata) + f - w)) f <$> o
            = (fun _ => []) <$> o) as Hnil.
  { intros [row|]; [|done]. simpl. by rewrite samples_nil by lia. }
  unfold holds_rows. rewrite <- !Hnil. done.
Qed.

Lemma update_lines_wide_window_witness :
  exists lines',
    update_lines 1 example_bundle [plot2 [1] [4]] (Some 3) = (lines', None) /\
    forall i line data,
      [plot2 [1] [4]] !! i = Some line -> items example_bundle !! i = Some data ->
      exists line',
        lines' !! i = Some line' /\
        holds_rows (samples (Z.max 0 (Z.of_nat (shape2 example_bundle) + 1 - 3)) 1)
          (shape1 example_bundle) data line line' /\
        (3 <= Z.of_nat (shape2 example_bundle) ->
         holds_rows (fun _ => []) (shape1 example_bundle) data line line').
Proof.
  apply (update_lines_wide_window example_bundle [plot2 [1] [4]] 1 3).
  - split; [reflexivity|]. repeat constructor.
  - left. reflexivity.
  - repeat constructor.
  - simpl. lia.
  - lia.
Defined.

Lemma slice_to_clip {A} (l : list A) (hi : Z) :
  Py.slice None (Some hi) l
  = take (Z.to_nat (Py.clip (Z.of_nat (length l)) hi)) l.
Proof. unfold Py.slice. simpl. by rewrite Z.sub_0_r. Qed.

(** X9. Without a window, a frame index at or beyond the number of samples
    shows every trajectory whole, and a negative frame index counts from
    the end: it shows all samples but the last [-f]. *)
Theorem update_lines_frame_outside (plotdata : ndarray3) (lines : list artist)
    (f : Z) :
  well_shaped plotdata ->
  shape1 plotdata = 2%nat \/ shape1 plotdata = 3%nat ->
  Forall (fun a => line_for (shape1 plotdata) a = true)
         (take (shape0 plotdata) lines) ->
  f < 0 \/ Z.of_nat (shape2 plotdata) <= f ->
  exists lines',
    update_lines f plotdata lines None = (lines', None) /\
    forall i line data,
      lines !! i = Some line -> items plotdata !! i = Some data ->
      exists line',
        lines' !! i = Some line' /\
        (Z.of_nat (shape2 plotdata) <= f ->
         holds_rows (fun row => row) (shape1 plotdata) data line line') /\
        (f < 0 ->
         holds_rows (take (Z.to_nat (Z.of_nat (shape2 plotdata) + f)))
           (shape1 plotdata) data line line').
Proof.
  intros Hwf HD Hlines Hf.
  destruct (update_lines_cut
              (fun row => take (Z.to_nat (Py.clip (Z.of_nat (shape2 plotdata)) f)) row)
              plotdata lines f None Hwf HD Hlines) as (lines' & Hrun & Hall).
  { intros row Hrow. simpl. by rewrite slice_to_clip, Hrow. }
  exists lines'. split; [done|].
  intros i line data Hl Hd.
  destruct (Hall i line data Hl Hd) as (line' & Hl' & Hrows).
  pose proof (well_shaped_items _ Hwf) as Hshape.
  pose proof (proj1 (Forall_lookup _ _) Hshape _ _ Hd) as [_ Hlens].
  exists line'. split; [done|].
  destruct Hrows as (Hx & Hy & Hz & Hz2). split.
  - intros Hge.
    assert (forall d, take (Z.to_nat (Py.clip (Z.of_nat (shape2 plotdata)) f))
                        <$> data !! d = (fun row => row) <$> data !! d) as Heq.
    { intros d. destruct (data !! d) as [row|] eqn:Hrow; [|done]. simpl.
      pose proof (proj1 (Forall_lookup _ _) Hlens _ _ Hrow) as Hlen.
      simpl in Hlen.
      f_equal. apply take_ge. unfold Py.clip.
      destruct (Z.ltb_spec f 0); lia. }
    unfold holds_rows. by rewrite <- !Heq.
  - intros Hneg.
    assert (Py.clip (Z.of_nat (shape2 plotdata)) f
            = Z.max (Z.of_nat (shape2 plotdata) + f) 0) as Hclip.
    { unfold Py.clip. destruct (Z.ltb_spec f 0); [|lia]. f_equal. lia. }
    rewrite Hclip in Hx, Hy, Hz.
    replace (Z.to_nat (Z.max (Z.of_nat (shape2 plotdata) + f) 0))
      with (Z.to_nat (Z.of_nat (shape2 plotdata) + f)) in Hx, Hy, Hz by lia.
    done.
Qed.

Lemma update_lines_frame_outside_witness :
  exists lines',
    update_lines (-1) example_bundle [plot2 [1] [4]] None = (lines', None) /\
    forall i line data,
      [plot2 [1] [4]] !! i = Some line -> items example_bundle !! i = Some data ->
      exists line',
        lines' !! i = Some line' /\
        (Z.of_nat (shape2 example_bundle) <= -1 ->
         holds_rows (fun row => row) (shape1 example_bundle) data line line') /\
        (-1 < 0 ->
         holds_rows (take (Z.to_nat (Z.of_nat (shape2 example_bundle) + -1)))
           (shape1 example_bundle) data line line').
Proof.
  apply (update_lines_frame_outside example_bundle [plot2 [1] [4]] (-1)).
  - split; [reflexivity|]. repeat constructor.
  - left. reflexivity.
  - repeat constructor.
  - left. lia.
Defined.

(** ** [update_lines_counter] *)

(** X10. [update_lines_counter] leaves the handles as [update_lines] does,
    the text of the last handle apart: when [update_lines] raises it raises
    the same with the same handles, and otherwise every handle but the last
    is the one [update_lines] gives, and the last differs from it in its
    text at most. *)
Theorem update_lines_counter_touches_text (percent : string -> Z -> result string)
    (plotdata : ndarray3) (lines : list artist) (num : Z)
    (text_counter : string) (data_counter : list Z) (numsamples : option Z) :
  let updated := update_lines num plotdata lines numsamples in
  let counted :=
    update_lines_counter percent num plotdata lines text_counter data_counter
      numsamples in
  (forall e, updated.2 = Some e -> counted = updated) /\
  length counted.1 = length updated.1 /\
  forall (i : nat) a,
    updated.1 !! i = Some a ->
    exists a', counted.1 !! i = Some a' /\
               a' = set_text (text a') a /\
               (S i <> length lines -> a' = a).
Proof.
  unfold update_lines_counter, update_lines.
  pose proof (update_loop_length num (shape1 plotdata) numsamples lines
                (items plotdata)) as Hlen.
  destruct (update_loop num (shape1 plotdata) numsamples lines (items plotdata))
    as [lines' [e|]]; simpl in *.
  { split; [done|]. split; [done|]. intros i [] Ha. eexists. by split. }
  split; [done|].
  unfold set_counter.
  destruct (Py.index lines' (Z.of_nat (length lines') - 1)) as [label|] eqn:Hlabel;
    simpl; [|split; [done|]; intros i [] Ha; eexists; by split].
  destruct (has_set_text label); simpl;
    [|split; [done|]; intros i [] Ha; eexists; by split].
  destruct (Py.index data_counter num ≫= percent text_counter) as [s|];
    simpl; [|split; [done|]; intros i [] Ha; eexists; by split].
  split; [by rewrite length_insert|].
  intros i a Ha.
  destruct (decide (i = Z.to_nat (Z.of_nat (length lines') - 1))) as [->|Hne].
  - assert (label = a) as ->.
    { unfold Py.index in Hlabel.
      destruct (Z.ltb_spec (Z.of_nat (length lines') - 1) 0); [|].
      - apply lookup_lt_Some in Ha. lia.
      - destruct (_ && _); [|done]. rewrite Ha in Hlabel. by injection Hlabel. }
    exists (set_text s a). split.
    + apply list_lookup_insert_eq. by eapply lookup_lt_Some.
    + split; [by destruct a|]. intros Hi. apply lookup_lt_Some in Ha. lia.
  - exists a. rewrite list_lookup_insert_ne by done.
    split; [done|]. split; [by destruct a|done].
Qed.

Lemma update_lines_counter_touches_text_witness :
  update_lines_counter percent_d 1 example_bundle [example_label] "%d" [10] None
  = update_lines 1 example_bundle [example_label] None.
Proof.
  apply (proj1 (update_lines_counter_touches_text percent_d example_bundle
                  [example_label] 1 "%d" [10] None) AttributeError).
  reflexivity.
Defined.

(** ** An update that raises *)

(** X22. When [update_lines] raises, it has stopped at the first handle
    whose update raises: the handles before it have been updated, that
    handle is as its statements left it, and the handles after it are
    untouched. The update is not undone. *)
Theorem update_lines_stops_at_failure (plotdata : ndarray3)
    (lines lines' : list artist) (num : Z) (numsamples : option Z) (e : exn) :
  update_lines num plotdata lines numsamples = (lines', Some e) ->
  exists (i : nat) line data,
    lines !! i = Some line /\ items plotdata !! i = Some data /\
    update_line num (shape1 plotdata) numsamples data line
    = ((update_line num (shape1 plotdata) numsamples data line).1, Some e) /\
    lines' !! i
    = Some (update_line num (shape1 plotdata) numsamples data line).1 /\
    (forall (j : nat) a d, (j < i)%nat ->
       lines !! j = Some a -> items plotdata !! j = Some d ->
       exists a',
         update_line num (shape1 plotdata) numsamples d a = (a', None) /\
         lines' !! j = Some a') /\
    drop (S i) lines' = drop (S i) lines.
Proof.
  unfold update_lines. generalize (items plotdata) as plotdata'.
  generalize (shape1 plotdata) as num_dims. clear plotdata.
  intros num_dims plotdata'. revert plotdata' lines'.
  induction lines as [|line lines IH]; intros plotdata' lines' Hrun; [done|].
  destruct plotdata' as [|data plotdata']; [done|].
  simpl in Hrun.
  destruct (update_line num num_dims numsamples data line) as [line' [e'|]] eqn:Hl.
  - injection Hrun as <- ->.
    exists 0%nat, line, data. rewrite Hl. simpl.
    repeat split; try done. intros j a d Hj. lia.
  - destruct (update_loop num num_dims numsamples lines plotdata') as [rest r] eqn:Hr.
    injection Hrun as <- ->.
    destruct (IH _ _ Hr) as (i & a & d & Ha & Hd & Hfail & Hi & Hbefore & Hafter).
    exists (S i), a, d. simpl.
    repeat split; try done.
    intros [|j] a0 d0 Hj; simpl.
    + intros [= <-] [= <-]. by exists line'.
    + apply Hbefore. lia.
Qed.

Lemma update_lines_stops_at_failure_witness :
  exists (i : nat) line data,
    [plot2 [1] [4]; example_label; plot2 [1] [4]] !! i = Some line /\
    [[[1; 2; 3]; [4; 5; 6]]; [[1; 2; 3]; [4; 5; 6]]; [[1; 2; 3]; [4; 5; 6]]]
      !! i = Some data /\
    update_line 2 2 None data line
    = ((update_line 2 2 None data line).1, Some AttributeError) /\
    [{| cls := Line2D; xdata := [1; 2]; ydata := [4; 5]; zdata := [];
        marker := "o"; text := "" |}; example_label; plot2 [1] [4]] !! i
    = Some (update_line 2 2 None data line).1 /\
    (forall (j : nat) a d, (j < i)%nat ->
       [plot2 [1] [4]; example_label; plot2 [1] [4]] !! j = Some a ->
       [[[1; 2; 3]; [4; 5; 6]]; [[1; 2; 3]; [4; 5; 6]]; [[1; 2; 3]; [4; 5; 6]]]
         !! j = Some d ->
       exists a',
         update_line 2 2 None d a = (a', None) /\
         [{| cls := Line2D; xdata := [1; 2]; ydata := [4; 5]; zdata := [];
             marker := "o"; text := "" |}; example_label; plot2 [1] [4]] !! j
         = Some a') /\
    drop (S i)
      [{| cls := Line2D; xdata := [1; 2]; ydata := [4; 5]; zdata := [];
          marker := "o"; text := "" |}; example_label; plot2 [1] [4]]
    = drop (S i) [plot2 [1] [4]; example_label; plot2 [1] [4]].
Proof.
  apply (update_lines_stops_at_failure
           {| shape0 := 3; shape1 := 2; shape2 := 3;
              items := [[[1; 2; 3]; [4; 5; 6]]; [[1; 2; 3]; [4; 5; 6]];
                        [[1; 2; 3]; [4; 5; 6]]] |}
           [plot2 [1] [4]; example_label; plot2 [1] [4]]
           [{| cls := Line2D; xdata := [1; 2]; ydata := [4; 5]; zdata := [];
               marker := "o"; text := "" |}; example_label; plot2 [1] [4]]
           2 None AttributeError).
  reflexivity.
Defined.

(** ** [load_data] *)

Lemma entry_of_filetype g filetype filetype' matdata key :
  contains "Align" key = false ->
  entry_of g filetype matdata key = entry_of g filetype' matdata key.
Proof.
  intros Hkey.
  destruct (decide (key = "area")) as [->|Harea]; [by rewrite !entry_of_area|].
  destruct (decide (key = "unitList")) as [->|Hunit];
    [by rewrite !entry_of_unitList|].
  by rewrite !entry_of_other.
Qed.

Lemma convert_keys_filetype g filetype filetype' matdata keys :
  Forall (fun key => contains "Align" key = false) keys ->
  forall pydata stdout,
    convert_keys g filetype matdata keys pydata stdout
    = convert_keys g filetype' matdata keys pydata stdout.
Proof.
  induction 1 as [|key keys Hkey _ IH]; intros pydata stdout; [done|].
  simpl. rewrite !convert_key_entry, (entry_of_filetype _ _ filetype') by done.
  destruct (entry_of g filetype' matdata key) as [[v|]|e]; [apply IH|apply IH|done].
Qed.

(** X11. The file name only matters for "Align" keys: on a record without
    such a key [load_data] does the same for every file name, known file
    type or not. *)
Theorem load_data_any_file_name g loadfilename loadfilename' matdata :
  Forall (fun key => contains "Align" key = false) matdata.*1 ->
  load_data g loadfilename matdata = load_data g loadfilename' matdata.
Proof.
  intros Hkeys. rewrite !load_data_unfold. by apply convert_keys_filetype.
Qed.

Lemma load_data_any_file_name_witness :
  load_data (fun _ => None) "/data/LFP.mat"
    [("unitList", Array [Int 1]); ("area", Str "V4")]
  = load_data (fun _ => None) "notes.txt"
      [("unitList", Array [Int 1]); ("area", Str "V4")].
Proof.
  apply (load_data_any_file_name (fun _ => None) "/data/LFP.mat" "notes.txt"
           [("unitList", Array [Int 1]); ("area", Str "V4")]).
  repeat constructor.
Defined.

(** *** What is printed *)

Lemma entry_of_update_fails g filetype matdata key :
  key ∈ matdata.*1 ->
  (entry_of g filetype matdata key = Ok None <-> update_fails g key = true).
Proof.
  intros Hin. unfold update_fails, plain_key. split.
  - intros (Hg & -> & Harea & Hunit)%entry_of_None; [|done]. simpl.
    by rewrite !bool_decide_eq_true_2.
  - rewrite !andb_true_iff, negb_true_iff, !bool_decide_eq_true.
    intros [[[Hkey Harea] Hunit] [e He]].
    by rewrite entry_of_other, He.
Qed.

Lemma convert_keys_stdout g filetype matdata keys :
  (forall key, key ∈ keys -> key ∈ matdata.*1) ->
  forall pydata stdout,
    let run := convert_keys g filetype matdata keys pydata stdout in
    (returns run.2 ->
     run.1 = stdout ++ (warning <$> filter (fun key => update_fails g key = true) keys)) /\
    run.1 `prefix_of`
      stdout ++ (warning <$> filter (fun key => update_fails g key = true) keys).
Proof.
  induction keys as [|key keys IH]; intros Hkeys pydata stdout; simpl.
  { rewrite app_nil_r. by split. }
  assert (key ∈ matdata.*1) as Hkey by (apply Hkeys, elem_of_cons; by left).
  assert (forall key, key ∈ keys -> key ∈ matdata.*1) as Hkeys'.
  { intros k Hk. apply Hkeys, elem_of_cons. by right. }
  rewrite convert_key_entry.
  pose proof (entry_of_update_fails g filetype matdata key Hkey) as Hfails.
  rewrite filter_cons.
  destruct (entry_of g filetype matdata key) as [[v|]|e].
  - destruct (decide (update_fails g key = true)) as [Hf|Hf].
    { apply Hfails in Hf. discriminate. }
    rewrite app_nil_r. apply IH. done.
  - destruct (decide (update_fails g key = true)) as [Hf|Hf].
    2: { destruct Hf. by apply Hfails. }
    rewrite fmap_cons.
    rewrite (cons_middle (warning key) stdout
               (warning <$> filter (fun key => update_fails g key = true) keys)).
    rewrite (app_assoc stdout [warning key]).
    apply IH. done.
  - simpl. split; [by intros [? ?]|]. by apply prefix_app_r.
Qed.

(** X12. What [load_data] prints are the warnings of the keys whose
    guarded update raised, one line each, in the order of the record, and
    nothing else; when an exception ends the loop, the warnings of the keys
    before it have been printed. *)
Theorem load_data_prints_warnings g loadfilename matdata :
  let failed := filter (fun key => update_fails g key = true) matdata.*1 in
  (returns (load_data g loadfilename matdata).2 ->
   (load_data g loadfilename matdata).1 = warning <$> failed) /\
  (load_data g loadfilename matdata).1 `prefix_of` (warning <$> failed).
Proof.
  rewrite load_data_unfold.
  exact (convert_keys_stdout g (filetype_of loadfilename) matdata matdata.*1
           (fun _ H => H) ∅ []).
Qed.

Lemma load_data_prints_warnings_witness :
  let g := fun key : string =>
             if decide (key = "notes") then Some TypeError else None in
  (load_data g "/data/unit.mat"
     [("notes", Str "x"); ("area", Str "V1"); ("depth", Int 3)]).1
  = ["Cannot process notes"].
Proof.
  intros g.
  apply (proj1 (load_data_prints_warnings g "/data/unit.mat"
                  [("notes", Str "x"); ("area", Str "V1"); ("depth", Int 3)])).
  eexists. reflexivity.
Defined.

(** *** When [load_data] returns *)

(** X13. [load_data] returns a dictionary exactly when every key can be
    converted: the file type is in the table if there is an "Align" key, an
    "Align" value of an analog file has the fields [TimeStamps] and
    [Samples] with an item at [0, 0], and [unitList] is numeric. Nothing
    else makes it raise. *)
Theorem load_data_returns_iff g loadfilename matdata :
  returns (load_data g loadfilename matdata).2 <->
  forall key, key ∈ matdata.*1 ->
              convertible (filetype_of loadfilename) matdata key.
Proof.
  rewrite load_data_unfold, convert_keys_returns.
  split; intros H key Hkey.
  - apply (entry_of_convertible g); [done|]. by apply H.
  - apply entry_of_convertible; [done|]. by apply H.
Qed.

Lemma load_data_returns_iff_witness :
  returns (load_data (fun _ => None) "/data/LFP.mat"
             [("unitList", Array [Int 1; Int 2])]).2.
Proof.
  apply (proj2 (load_data_returns_iff (fun _ => None) "/data/LFP.mat"
                  [("unitList", Array [Int 1; Int 2])])).
  intros key Hkey. apply list_elem_of_singleton in Hkey as ->.
  split.
  - intros Halign. discriminate Halign.
  - intros _ _. exists (Array [Int 1; Int 2]). split; reflexivity.
Defined.

(** *** Records that are copied *)

Lemma lookup_list_to_map_assoc (d : list (string * value)) (k : string) :
  (list_to_map d : gmap string value) !! k = Value.assoc k d.
Proof.
  induction d as [|[k' v] d IH]; simpl; [apply lookup_empty|].
  rewrite lookup_insert. by destruct (decide (k' = k)).
Qed.

Lemma convert_keys_copies g filetype matdata keys :
  Forall (fun key => (plain_key key = true /\ g key = None) \/ key = "area") keys ->
  (forall key, key ∈ keys -> key ∈ matdata.*1) ->
  forall pydata stdout,
  exists pydata',
    convert_keys g filetype matdata keys pydata stdout = (stdout, Ok pydata') /\
    forall k, pydata' !! k
              = if decide (k ∈ keys) then Value.assoc k matdata else pydata !! k.
Proof.
  induction 1 as [|key keys Hkey _ IH]; intros Hkeys pydata stdout; simpl.
  { exists pydata. split; [done|]. intros k.
    by destruct (decide (k ∈ [])) as [?%elem_of_nil|]. }
  destruct (assoc_keys key matdata) as [v Hv]; [apply Hkeys, elem_of_cons; by left|].
  assert (entry_of g filetype matdata key = Ok (Some v)) as Hentry.
  { destruct Hkey as [[Hplain Hg]| ->].
    - unfold plain_key in Hplain.
      rewrite !andb_true_iff, negb_true_iff, !bool_decide_eq_true in Hplain.
      destruct Hplain as [[? ?] ?].
      by rewrite entry_of_other, Hg, (assoc_subscript _ _ _ Hv).
    - by rewrite entry_of_area, (assoc_subscript _ _ _ Hv). }
  rewrite convert_key_entry, Hentry, app_nil_r.
  destruct (IH (fun k Hk => Hkeys k (proj2 (elem_of_cons _ _ _) (or_intror Hk)))
              (<[key := v]> pydata) stdout) as (pydata' & -> & Hlook).
  exists pydata'. split; [done|]. intros k. rewrite Hlook.
  destruct (decide (k ∈ keys)) as [Hin|Hin].
  - rewrite decide_True; [done|]. apply elem_of_cons. by right.
  - destruct (decide (k = key)) as [->|Hne].
    + rewrite lookup_insert_eq, decide_True; [done|]. apply elem_of_cons. by left.
    + rewrite lookup_insert_ne by done.
      rewrite decide_False; [done|]. by intros [?|?]%elem_of_cons.
Qed.

(** X14. A record without "Align" keys and without [unitList], none of
    whose guarded updates raises, is returned as it is: [load_data] prints
    nothing and its dictionary has the entries of the record and no
    other. *)
Theorem load_data_copies_record g loadfilename matdata :
  Forall (fun key => (plain_key key = true /\ g key = None) \/ key = "area")
         matdata.*1 ->
  load_data g loadfilename matdata = ([], Ok (list_to_map matdata)).
Proof.
  intros Hkeys. rewrite load_data_unfold.
  destruct (convert_keys_copies g (filetype_of loadfilename) matdata matdata.*1
              Hkeys (fun _ H => H) ∅ []) as (pydata & -> & Hlook).
  do 2 f_equal. apply map_eq. intros k.
  rewrite Hlook, lookup_list_to_map_assoc.
  destruct (decide (k ∈ matdata.*1)) as [Hin|Hin]; [done|].
  rewrite lookup_empty.
  destruct (Value.assoc k matdata) as [v|] eqn:Hv; [|done].
  destruct Hin. by eapply assoc_Some_keys.
Qed.

Lemma load_data_copies_record_witness :
  load_data (fun _ => None) "/data/session.mat"
    [("area", Str "V1"); ("depth", Array [Int 3; Int 4])]
  = ([], Ok (list_to_map [("area", Str "V1"); ("depth", Array [Int 3; Int 4])])).
Proof.
  apply (load_data_copies_record (fun _ => None) "/data/session.mat"
           [("area", Str "V1"); ("depth", Array [Int 3; Int 4])]).
  apply Forall_cons_2; [right; reflexivity|].
  apply Forall_cons_2; [left; split; reflexivity|].
  apply Forall_nil_2.
Defined.

(** *** The file type of a path *)

Lemma list_ascii_of_string_app (s1 s2 : string) :
  list_ascii_of_string (s1 +:+ s2)
  = list_ascii_of_string s1 ++ list_ascii_of_string s2.
Proof. induction s1 as [|a s1 IH]; simpl; [done|]. by rewrite IH. Qed.

Lemma rfind_absent (c : ascii) (l : list ascii) : c ∉ l -> OsPath.rfind c l = -1.
Proof.
  induction l as [|a l IH]; simpl; [done|].
  intros [Hne Hl]%not_elem_of_cons. rewrite IH by done. simpl.
  by rewrite decide_False.
Qed.

Lemma rfind_last (c : ascii) (l1 l2 : list ascii) :
  c ∉ l2 -> OsPath.rfind c (l1 ++ c :: l2) = Z.of_nat (length l1).
Proof.
  intros Hl2. induction l1 as [|a l1 IH]; simpl.
  - rewrite rfind_absent by done. simpl. by rewrite decide_True.
  - rewrite IH. destruct (Z.leb_spec 0 (Z.of_nat (length l1))); lia.
Qed.

Lemma slice_one {A} (l : list A) (i : nat) (c : A) :
  l !! i = Some c ->
  Py.slice (Some (Z.of_nat i)) (Some (Z.of_nat i + 1)) l = [c].
Proof.
  intros Hc. pose proof (lookup_lt_Some _ _ _ Hc).
  rewrite slice_from_to by lia.
  replace (Z.to_nat (Z.of_nat i + 1 - Z.of_nat i)) with 1%nat by lia.
  rewrite Nat2Z.id. by rewrite (drop_S _ _ _ Hc).
Qed.

Lemma non_dot_before_S (l : list ascii) (i count : nat) :
  OsPath.non_dot_before l i (S count)
  = if bool_decide (Py.slice (Some (Z.of_nat i)) (Some (Z.of_nat i + 1)) l
                    <> [OsPath.extsep])
    then true else OsPath.non_dot_before l (S i) count.
Proof. reflexivity. Qed.

Lemma non_dot_before_found (l : list ascii) (count : nat) : forall i j c,
  (i <= j < i + count)%nat -> l !! j = Some c -> c <> OsPath.extsep ->
  OsPath.non_dot_before l i count = true.
Proof.
  induction count as [|count IH]; intros i j c Hj Hc Hne; [lia|].
  rewrite non_dot_before_S. case_bool_decide as Hslice; [done|].
  destruct (decide (j = i)) as [->|Hji].
  - rewrite (slice_one _ _ _ Hc) in Hslice.
    first [congruence | destruct Hslice; congruence].
  - apply (IH (S i) j c); [lia|done|done].
Qed.

Lemma split_tail (dir base : list ascii) :
  OsPath.sep ∉ base ->
  (OsPath.split (string_of_list_ascii (dir ++ OsPath.sep :: base))).2
  = string_of_list_ascii base /\
  (OsPath.split (string_of_list_ascii base)).2 = string_of_list_ascii base.
Proof.
  intros Hbase. unfold OsPath.split. simpl.
  rewrite !list_ascii_of_string_of_list_ascii. split; f_equal.
  - rewrite rfind_last by done.
    rewrite slice_from_end by (rewrite length_app; simpl; lia).
    replace (Z.to_nat (Z.of_nat (length dir) + 1)) with (length dir + 1)%nat by lia.
    rewrite drop_app_add'; [|done]. done.
  - rewrite rfind_absent by done. simpl.
    by rewrite slice_from_end by lia.
Qed.

Lemma splitext_root (root ext : list ascii) (c : ascii) :
  OsPath.sep ∉ root -> OsPath.sep ∉ ext -> OsPath.extsep ∉ ext ->
  c ∈ root -> c <> OsPath.extsep ->
  (OsPath.splitext (string_of_list_ascii (root ++ OsPath.extsep :: ext))).1
  = string_of_list_ascii root.
Proof.
  intros Hroot Hext Hdot Hc Hne. unfold OsPath.splitext.
  rewrite list_ascii_of_string_of_list_ascii.
  rewrite (rfind_absent OsPath.sep).
  2: { intros [?|[?|?]%elem_of_cons]%elem_of_app; done. }
  rewrite rfind_last by done.
  apply list_elem_of_lookup in Hc as [j Hj].
  rewrite (non_dot_before_found _ _ 0 j c).
  - destruct (Z.ltb_spec (-1) (Z.of_nat (length root))); [|lia]. simpl.
    rewrite slice_to by (rewrite length_app; lia).
    by rewrite Nat2Z.id, take_app_length.
  - apply lookup_lt_Some in Hj. lia.
  - by apply lookup_app_l_Some.
  - done.
Qed.

(** X15. The file type that [load_data] looks up does not depend on the
    directory: for a file name [root.ext], with or without a directory in
    front, it is [root], the name up to its last dot, provided the name
    has no slash, the extension no dot, and the root a character that is
    not a dot. *)
Theorem filetype_of_path (dir root ext : string) (c : ascii) :
  OsPath.sep ∉ list_ascii_of_string root ->
  OsPath.sep ∉ list_ascii_of_string ext ->
  OsPath.extsep ∉ list_ascii_of_string ext ->
  c ∈ list_ascii_of_string root -> c <> OsPath.extsep ->
  filetype_of (dir +:+ "/" +:+ root +:+ "." +:+ ext) = root /\
  filetype_of (root +:+ "." +:+ ext) = root.
Proof.
  intros Hroot Hext Hdot Hc Hne.
  set (r := list_ascii_of_string root). set (e := list_ascii_of_string ext).
  assert (OsPath.sep ∉ r ++ OsPath.extsep :: e) as Hbase.
  { intros [?|[?|?]%elem_of_cons]%elem_of_app; done. }
  destruct (split_tail (list_ascii_of_string dir) _ Hbase) as [Hdir Hplain].
  assert (forall s, string_of_list_ascii (list_ascii_of_string s) = s) as Hid
    by apply string_of_list_ascii_of_string.
  assert (root +:+ "." +:+ ext = string_of_list_ascii (r ++ OsPath.extsep :: e))
    as Hname.
  { rewrite <- (Hid (root +:+ "." +:+ ext)). f_equal.
    by rewrite !list_ascii_of_string_app. }
  assert (dir +:+ "/" +:+ root +:+ "." +:+ ext
          = string_of_list_ascii
              (list_ascii_of_string dir ++ OsPath.sep :: r ++ OsPath.extsep :: e))
    as Hpath.
  { rewrite <- (Hid (dir +:+ "/" +:+ root +:+ "." +:+ ext)). f_equal.
    by rewrite !list_ascii_of_string_app. }
  unfold filetype_of. rewrite Hpath, Hname, Hdir, Hplain.
  rewrite (splitext_root r e c) by done.
  split; apply Hid.
Qed.

Lemma filetype_of_path_witness :
  filetype_of ("/data/session1" +:+ "/" +:+ "LFP" +:+ "." +:+ "mat") = "LFP" /\
  filetype_of ("LFP" +:+ "." +:+ "mat") = "LFP".
Proof.
  apply (filetype_of_path "/data/session1" "LFP" "mat" "L"%char).
  - intros H. by repeat (apply elem_of_cons in H as [H|H]; [done|]);
      apply elem_of_nil in H.
  - intros H. by repeat (apply elem_of_cons in H as [H|H]; [done|]);
      apply elem_of_nil in H.
  - intros H. by repeat (apply elem_of_cons in H as [H|H]; [done|]);
      apply elem_of_nil in H.
  - apply list_elem_of_here.
  - done.
Defined.
(** ** [load_trialdata] *)

Section TrialColumns.

Variable out_of_range : value -> result Z.

(** One round of the loop writes, at the position of the trial, what it
    read from each field. *)
Lemma read_trial_columns matdata st itrial st' :
  read_trial out_of_range matdata st itrial = Ok st' ->
  forall k, (k < 12)%nat ->
    exists x, field_read out_of_range matdata itrial k = Ok x /\
              local_column st' k = <[itrial := x]> (local_column st k).
Proof.
  intros H. unfold read_trial in H. bind_inv H. injection H as <-.
  intros k Hk.
  destruct k as [|[|[|[|[|[|[|[|[|[|[|[|k]]]]]]]]]]]]; try lia;
    unfold field_read; cbn -[mbind trial_scalar trial_field to_int];
    match goal with
    | |- context [Z.of_nat ?n] =>
        let z := eval vm_compute in (Z.of_nat n) in change (Z.of_nat n) with z
    end;
    match goal with
    | Hr : ?m = Ok ?v |- context [?m] => rewrite Hr
    end;
    simpl; eexists; (split; [done|]); by rewrite ?list_fmap_insert.
Qed.

Lemma read_trials_columns matdata range : forall st st',
  read_trials out_of_range matdata st range = Ok st' ->
  forall k, (k < 12)%nat ->
    length (local_column st' k) = length (local_column st k) /\
    (forall i, i ∉ range -> local_column st' k !! i = local_column st k !! i) /\
    (forall i, i ∈ range -> (i < length (local_column st k))%nat ->
       exists x, field_read out_of_range matdata i k = Ok x /\
                 local_column st' k !! i = Some x).
Proof.
  induction range as [|j range IH]; intros st st' H k Hk; simpl in H.
  - injection H as <-. split; [done|]. split; [done|].
    by intros i ?%elem_of_nil.
  - destruct (read_trial out_of_range matdata st j) as [st1|] eqn:Hj;
      simpl in H; [|done].
    destruct (read_trial_columns _ _ _ _ Hj k Hk) as (x & Hx & Hcol).
    destruct (IH _ _ H k Hk) as (Hlen & Hout & Hin).
    rewrite Hcol, length_insert in Hlen.
    split; [done|]. split.
    + intros i [Hne Hnot]%not_elem_of_cons.
      rewrite Hout, Hcol by done. by rewrite list_lookup_insert_ne.
    + intros i Hi Hlt. destruct (decide (i ∈ range)) as [Hr|Hr].
      * apply Hin; [done|]. by rewrite Hcol, length_insert.
      * apply elem_of_cons in Hi as [->|?]; [|done].
        exists x. split; [done|].
        rewrite Hout, Hcol by done. by apply list_lookup_insert_eq.
Qed.

Lemma init_locals_column n k :
  (k < 12)%nat -> length (local_column (init_locals n) k) = n.
Proof.
  intros Hk.
  destruct k as [|[|[|[|[|[|[|[|[|[|[|[|k]]]]]]]]]]]]; try lia;
    simpl; unfold zeros; by rewrite ?length_fmap, length_replicate.
Qed.

Lemma trial_frame_column n st name k :
  (name, k) ∈ column_position ->
  exists col, get_column name (columns (trial_frame n st)) = Some col /\
              column_values col = local_column st k.
Proof.
  intros Hin. unfold column_position in Hin.
  repeat (apply elem_of_cons in Hin as [[= -> ->]|Hin];
          [eexists; split; reflexivity|]).
  by apply elem_of_nil in Hin.
Qed.

(** X17. In the table that [load_trialdata] returns, every column that is
    read from the trial records holds, row by row, the field of its
    position in the record of the trial: fields 0 and 1 as they are in
    [CTX_events] and [NLX_events], and the value at [0][0] of the fields 2
    to 11, as the store converts it to a 64-bit integer, in [trial_ID],
    [cond], [RT_evnt], [RT_EPP], [target_dim], [rf_dim], [position_RF],
    [position_out1], [position_out2] and [fixbreak]. *)
Theorem load_trialdata_columns matdata trialdata trials fr :
  Value.assoc "trialdata" matdata = Some trialdata ->
  Value.item trialdata 0 = Ok trials ->
  load_trialdata out_of_range matdata = Ok fr ->
  forall name k, (name, k) ∈ column_position ->
    exists col,
      get_column name (columns fr) = Some col /\
      length (column_values col) = nrows fr /\
      forall i, (i < nrows fr)%nat ->
        exists x,
          column_values col !! i = Some x /\
          if (k <? 2)%nat
          then trial_field trials i (Z.of_nat k) = Ok x
          else exists v z, trial_scalar trials i (Z.of_nat k) = Ok v /\
                           to_int out_of_range v = Ok z /\ x = Int z.
Proof.
  intros Htd Hitem
    (trialdata' & trials' & n & st & Htd' & Hitem' & Hlen & Hloop & ->)%load_trialdata_inv
    name k Hin.
  rewrite Htd in Htd'. injection Htd' as <-.
  rewrite Hitem in Hitem'. injection Hitem' as <-.
  assert (k < 12)%nat as Hk.
  { unfold column_position in Hin.
    repeat (apply elem_of_cons in Hin as [[= -> ->]|Hin]; [lia|]).
    by apply elem_of_nil in Hin. }
  destruct (trial_frame_column n st name k Hin) as (col & Hc & Hvalues).
  destruct (read_trials_columns _ _ _ _ Hloop k Hk) as (Hlength & _ & Hrows).
  rewrite init_locals_column in Hlength, Hrows by done.
  exists col. split; [done|]. rewrite Hvalues. split; [done|].
  intros i Hi. simpl in Hi.
  destruct (Hrows i) as (x & Hx & Hlook); [apply elem_of_seq; lia|done|].
  exists x. split; [done|].
  unfold field_read in Hx. destruct (k <? 2)%nat; [done|].
  destruct (trial_scalar trials i (Z.of_nat k)) as [v|]; simpl in Hx; [|done].
  destruct (to_int out_of_range v) as [z|] eqn:Hz; simpl in Hx; [|done].
  injection Hx as <-. by exists v, z.
Qed.

(** X16. On a file whose trials are [trials], [load_trialdata] returns a
    table exactly when every trial record has twelve fields or more and
    each of its fields 2 to 11 has at [0][0] a value that the store
    converts to a 64-bit integer. In particular it returns the empty table
    for a file without trials. *)
Theorem load_trialdata_returns_iff matdata trialdata trials :
  Value.assoc "trialdata" matdata = Some trialdata ->
  Value.item trialdata 0 = Ok (Array trials) ->
  (returns (load_trialdata out_of_range matdata)
   <-> Forall (trial_ok out_of_range) trials) /\
  (trials = [] ->
   load_trialdata out_of_range matdata = Ok (trial_frame 0 (init_locals 0))).
Proof.
  intros Htd Hitem.
  rewrite (load_trialdata_run _ _ _ _ (length trials) Htd Hitem eq_refl).
  pose proof (read_trials_ok out_of_range trials (seq 0 (length trials))
                (init_locals (length trials))) as Hloop.
  split; [split|].
  - intros Hret. apply Forall_lookup. intros i t Ht.
    assert (returns (read_trials out_of_range (Array trials)
                       (init_locals (length trials)) (seq 0 (length trials))))
      as Hr.
    { destruct (read_trials out_of_range (Array trials) _ _);
        [by eexists|by destruct Hret]. }
    destruct (proj1 Hloop Hr i) as (t' & Ht' & Hok).
    { apply elem_of_seq. apply lookup_lt_Some in Ht. lia. }
    congruence.
  - intros Hok.
    destruct (proj2 Hloop) as [st ->]; [|by eexists].
    intros i [_ Hi]%elem_of_seq.
    destruct (lookup_lt_is_Some_2 trials i) as [trial Htrial]; [lia|].
    exists trial. split; [done|].
    by apply (proj1 (Forall_lookup _ _) Hok i).
  - by intros ->.
Qed.

End TrialColumns.

Lemma load_trialdata_columns_witness :
  exists fr col,
    load_trialdata overflow [("trialdata", Array [Array [trial_with_code (Str "5")]])]
    = Ok fr /\
    get_column "RT_evnt" (columns fr) = Some col /\
    column_values col = [Int 350] /\
    get_column "target_dim" (columns fr) = Some (IntColumn [-1]) /\
    get_column "cond" (columns fr) = Some (IntColumn [5]) /\
    length (column_values col) = nrows fr /\
    forall i, (i < nrows fr)%nat ->
      exists x,
        column_values col !! i = Some x /\
        exists v z,
          trial_scalar (Array [trial_with_code (Str "5")]) i 4 = Ok v /\
          to_int overflow v = Ok z /\ x = Int z.
Proof.
  assert (exists fr,
            load_trialdata overflow
              [("trialdata", Array [Array [trial_with_code (Str "5")]])] = Ok fr)
    as [fr Hload].
  { eexists. vm_compute. reflexivity. }
  destruct (load_trialdata_columns overflow
              [("trialdata", Array [Array [trial_with_code (Str "5")]])]
              (Array [Array [trial_with_code (Str "5")]])
              (Array [trial_with_code (Str "5")]) fr
              eq_refl eq_refl Hload "RT_evnt" 4%nat)
    as (col & Hc & Hlen & Hrows).
  { unfold column_position. do 4 apply list_elem_of_further.
    apply list_elem_of_here. }
  exists fr, col. split; [exact Hload|]. split; [exact Hc|].
  split; [|split; [|split; [|split; [exact Hlen|exact Hrows]]]].
  - vm_compute in Hload. injection Hload as <-.
    vm_compute in Hc. injection Hc as <-. reflexivity.
  - vm_compute in Hload. injection Hload as <-. reflexivity.
  - vm_compute in Hload. injection Hload as <-. reflexivity.
Defined.

Lemma load_trialdata_returns_iff_witness :
  returns (load_trialdata overflow example_trialdata) /\
  ~ returns (load_trialdata overflow
               [("trialdata", Array [Array [Array [Int 1; Int 2]]])]).
Proof.
  split.
  - apply (proj1 (load_trialdata_returns_iff overflow example_trialdata
                    (Array [Array (example_trial <$> [1; 2; 3; 4; 5; 6; 7])])
                    (example_trial <$> [1; 2; 3; 4; 5; 6; 7]) eq_refl eq_refl)).
    repeat (apply Forall_cons_2; [apply example_trial_ok; lia|]).
    apply Forall_nil_2.
  - intros Hret.
    apply (proj1 (load_trialdata_returns_iff overflow
                    [("trialdata", Array [Array [Array [Int 1; Int 2]]])]
                    (Array [Array [Array [Int 1; Int 2]]])
                    [Array [Int 1; Int 2]] eq_refl eq_refl)) in Hret.
    apply Forall_cons in Hret as [(fs & [= <-] & Hlen & _) _].
    simpl in Hlen. lia.
Defined.

(** ** Reading the files *)

Section FilesProperties.

Import Files.

Variable w : world.

Lemma print_all_trace (lines : list string) (st : state) :
  print_all lines st
  = ({| requests := requests st; trace := trace st ++ (Printed <$> lines) |},
     Done tt).
Proof.
  revert st. induction lines as [|line lines IH]; intros [n tr].
  - simpl. by rewrite app_nil_r.
  - unfold print_all; fold print_all.
    unfold mbind, io_bind, print, emit. cbn -[print_all].
    rewrite IH. cbn. by rewrite <- app_assoc.
Qed.

(** X18. On a path that is no URL and exists, [load_data] checks the path
    once, reads the file once with the variable names it was given (all
    variables when it was given none), makes no request, prints the
    warnings of the conversion and has the outcome of the conversion of
    what was read; an exception of the reading is passed on. *)
Theorem load_data_local_file (g : string -> option exn) (loadfilename : string)
    (variables2load : list string) (st : state) :
  url w loadfilename = false ->
  path_exists w loadfilename = true ->
  let variable_names :=
    match variables2load with [] => None | _ => Some variables2load end in
  Files.load_data w g loadfilename variables2load st
  = match loadmat w loadfilename variable_names with
    | Failed e =>
        ({| requests := requests st;
            trace := trace st ++ [Checked loadfilename;
                                  Read loadfilename variable_names] |},
         Failed e)
    | Done matdata =>
        ({| requests := requests st;
            trace := trace st
                     ++ [Checked loadfilename; Read loadfilename variable_names]
                     ++ (Printed <$> (Matlabimport.load_data g loadfilename matdata).1) |},
         match (Matlabimport.load_data g loadfilename matdata).2 with
         | Ok pydata => Done pydata
         | Raise e => Failed (Raised e)
         end)
    end.
Proof.
  intros Hurl Hexists variable_names.
  unfold Files.load_data. fold variable_names.
  set (conv := Matlabimport.load_data g loadfilename).
  unfold import_data, check_filename, os_path_exists, scipy_io_loadmat, emit,
    lift, raise, mbind, mret, io_bind, io_ret.
  rewrite Hurl. destruct st as [n tr]. simpl. rewrite Hexists.
  destruct (loadmat w loadfilename variable_names) as [matdata|e]; simpl.
  - destruct (conv matdata) as [printed r]. rewrite print_all_trace. simpl.
    rewrite <- !app_assoc. by destruct r.
  - by rewrite <- !app_assoc.
Qed.

(** X19. On a URL [import_data] never reads or checks a file and never
    returns the data of a file. It makes one request, and a second one if
    the first succeeded; it returns only when the second raised a connection
    error, and then the response to the first, after printing the failure;
    when both succeed it exits. *)
Theorem import_data_url (loadfilename : string)
    (variable_names : option (list string)) (st : state) :
  url w loadfilename = true ->
  let run := import_data w loadfilename variable_names st in
  (forall matdata, run.2 <> Done (Mat matdata)) /\
  (exists evs,
     trace run.1 = trace st ++ evs /\
     Forall (fun ev => ev = Requested loadfilename \/
                       ev = Printed "!!! Failed to download data !!!") evs) /\
  (requests st < requests run.1 <= requests st + 2)%nat /\
  (forall x, run.2 = Done x ->
     exists r, x = Response r /\
               get w (requests st) loadfilename = Done r /\
               get w (S (requests st)) loadfilename = Failed ConnectionError) /\
  (forall r1 r2,
     get w (requests st) loadfilename = Done r1 ->
     get w (S (requests st)) loadfilename = Done r2 ->
     run.2 = Failed (SystemExit "Loading file from URL not yet implemented!")).
Proof.
  intros Hurl.
  unfold import_data, check_filename, try_download, requests_get, print, emit,
    raise, mbind, mret, io_bind, io_ret.
  rewrite Hurl. destruct st as [n tr]. cbn.
  destruct (get w n loadfilename) as [r1|e1] eqn:H1; cbn.
  - destruct (get w (S n) loadfilename) as [r2|e2] eqn:H2; cbn.
    + split; [done|]. split.
      { eexists. rewrite <- app_assoc. split; [done|]. repeat constructor. }
      split; [lia|]. split; [done|]. done.
    + destruct e2; cbn;
        (split; [done|]); (split;
          [eexists; rewrite <- ?app_assoc; split; [done|];
           repeat (apply Forall_cons_2; [auto|]); apply Forall_nil_2|]);
        (split; [lia|]); (split; [|done]);
        intros x; try done.
      intros [= <-]. by exists r1.
  - split; [done|]. split.
    { eexists. split; [done|]. repeat constructor. }
    split; [lia|]. split; [done|]. done.
Qed.

(** X20. [load_trialdata] on a path that does not exist fails on its
    [assert], with the name of the file in the message, before any request
    or reading, URL or not. On a path that exists and is no URL it checks
    the path twice, reads all variables of the file once and has the
    outcome of the conversion of what was read. *)
Theorem load_trialdata_file (out_of_range : value -> result Z)
    (loadfilename : string) (st : state) :
  (path_exists w loadfilename = false ->
   Files.load_trialdata w out_of_range loadfilename st
   = ({| requests := requests st;
         trace := trace st ++ [Checked loadfilename] |},
      Failed (AssertionError ("File does not exist: " +:+ loadfilename)))) /\
  (path_exists w loadfilename = true -> url w loadfilename = false ->
   Files.load_trialdata w out_of_range loadfilename st
   = ({| requests := requests st;
         trace := trace st ++ [Checked loadfilename; Checked loadfilename;
                               Read loadfilename None] |},
      match loadmat w loadfilename None with
      | Failed e => Failed e
      | Done matdata =>
          match Matlabimport.load_trialdata out_of_range matdata with
          | Ok fr => Done fr
          | Raise e => Failed (Raised e)
          end
      end)).
Proof.
  unfold Files.load_trialdata.
  set (conv := Matlabimport.load_trialdata out_of_range).
  unfold import_data, check_filename, os_path_exists, scipy_io_loadmat, emit,
    lift, raise, mbind, mret, io_bind, io_ret.
  destruct st as [n tr]. split.
  - intros Hexists. simpl. by rewrite Hexists.
  - intros Hexists Hurl. simpl. rewrite Hexists, Hurl. simpl.
    rewrite ?Hexists, <- !app_assoc.
    destruct (loadmat w loadfilename None) as [matdata|e]; simpl; [|done].
    by destruct (conv matdata).
Qed.

(** X21. On a URL [load_data] never returns converted data: whatever the
    requests give, it returns at most the empty dictionary, and it reads no
    file. *)
Theorem load_data_url (g : string -> option exn) (loadfilename : string)
    (variables2load : list string) (st : state) :
  url w loadfilename = true ->
  let run := Files.load_data w g loadfilename variables2load st in
  (forall pydata, run.2 = Done pydata -> pydata = ∅) /\
  (forall path names, Read path names ∉ drop (length (trace st)) (trace run.1)).
Proof.
  intros Hurl. unfold Files.load_data.
  set (conv := Matlabimport.load_data g loadfilename).
  unfold import_data, check_filename, try_download, requests_get, print, emit,
    lift, raise, mbind, mret, io_bind, io_ret.
  rewrite Hurl. destruct st as [n tr]. cbn.
  assert (forall evs path names,
            Forall (fun ev => exists s, ev = Requested s \/ ev = Printed s) evs ->
            Read path names ∉ drop (length tr) (tr ++ evs)) as Hno.
  { intros evs path names Hevs. rewrite drop_app_length.
    intros Hin. apply (proj1 (Forall_forall _ _) Hevs) in Hin as [s [?|?]]; done. }
  destruct (get w n loadfilename) as [r1|e1]; cbn.
  - destruct (get w (S n) loadfilename) as [r2|e2]; cbn.
    + split; [done|]. intros path names. rewrite <- app_assoc.
      apply Hno. repeat (apply Forall_cons_2; [eauto|]). apply Forall_nil_2.
    + destruct e2; cbn;
        try (split; [done|]; intros path names; rewrite <- ?app_assoc;
             apply Hno; repeat (apply Forall_cons_2; [eauto|]); apply Forall_nil_2).
      destruct (decide (content r1 = "")); cbn.
      * split; [by intros ? [= <-]|]. intros path names. rewrite <- !app_assoc.
        apply Hno. repeat (apply Forall_cons_2; [eauto|]). apply Forall_nil_2.
      * split; [done|]. intros path names. rewrite <- !app_assoc.
        apply Hno. repeat (apply Forall_cons_2; [eauto|]). apply Forall_nil_2.
  - split; [done|]. intros path names.
    apply Hno. repeat (apply Forall_cons_2; [eauto|]). apply Forall_nil_2.
Qed.

End FilesProperties.

Lemma load_data_local_file_witness :
  Files.load_data example_disk (fun _ => None) "/data/unit.mat" ["unitList"]
    {| Files.requests := 0; Files.trace := [] |}
  = ({| Files.requests := 0;
        Files.trace := [Files.Checked "/data/unit.mat";
                        Files.Read "/data/unit.mat" (Some ["unitList"])] |},
     Files.Done (<["unitList" := Array [Int 0; Int 1]]> ∅)).
Proof.
  apply (load_data_local_file example_disk (fun _ => None) "/data/unit.mat"
           ["unitList"] {| Files.requests := 0; Files.trace := [] |});
    reflexivity.
Defined.

Lemma import_data_url_witness :
  let run :=
    Files.import_data example_net "https://gin.g-node.org/unit.mat" None
      {| Files.requests := 0; Files.trace := [] |} in
  (forall matdata, run.2 <> Files.Done (Files.Mat matdata)) /\
  run.2 = Files.Done (Files.Response {| Files.status_code := 200;
                                        Files.content := "" |}).
Proof.
  split.
  - apply (import_data_url example_net "https://gin.g-node.org/unit.mat" None
             {| Files.requests := 0; Files.trace := [] |}).
    reflexivity.
  - reflexivity.
Defined.

Lemma load_trialdata_file_witness :
  Files.load_trialdata example_disk overflow "/data/trials.mat"
    {| Files.requests := 0; Files.trace := [] |}
  = ({| Files.requests := 0;
        Files.trace := [Files.Checked "/data/trials.mat"] |},
     Files.Failed (Files.AssertionError "File does not exist: /data/trials.mat")).
Proof.
  apply (proj1 (load_trialdata_file example_disk overflow "/data/trials.mat"
                  {| Files.requests := 0; Files.trace := [] |})).
  reflexivity.
Defined.

Lemma load_data_url_witness :
  let run :=
    Files.load_data example_net (fun _ => None)
      "https://gin.g-node.org/unit.mat" []
      {| Files.requests := 0; Files.trace := [] |} in
  (forall pydata, run.2 = Files.Done pydata -> pydata = ∅) /\
  (forall path names,
     Files.Read path names ∉ drop (length ([] : list Files.event))
                                  (Files.trace run.1)).
Proof.
  apply (load_data_url example_net (fun _ => None)
           "https://gin.g-node.org/unit.mat" []
           {| Files.requests := 0; Files.trace := [] |}).
  reflexivity.
Defined.
